(** * The govmomi provisioner: [Create] and its helpers

    A shallow embedding of
    [pkg/cloud/vsphere/provisioner/govmomi/create.go]: the entry point
    [Create], the identity resolver [findVMByInstanceUUID], the task tracker
    [verifyAndUpdateTask], the clone specification builder
    [cloneVirtualMachine] with the bootstrap payloads, and the two status
    projections [updateVMReference] and [setTaskRef].

    Every call that leaves the file (vSphere API, Kubernetes client,
    template rendering, other packages) is a field of the environment
    record [Env], and the properties hold for all of its answers.  What the
    calls change is kept in an explicit [World]: the machine object held by
    the API server, the events that were recorded, the clone operations
    that were submitted and the resource pools that were created.

    Left out: logging, the [context.Context] values and their cancellation,
    and the datacenter that [SetDatacenter] stores in the finder (the
    answers of the finder are those of [Env]).  The machine pointer is never
    nil, and every device of a template has a description. *)

From stdpp Require Import gmap strings list pretty.
From Stdlib Require Import ZArith Lia.

Local Open Scope string_scope.
Local Open Scope Z_scope.

(** ** Go integers *)

Module GoInt.

(** Two's complement wrap-around of a [w]-bit signed integer. *)
Definition wrap (w : Z) (x : Z) : Z :=
  (x + 2 ^ (w - 1)) mod 2 ^ w - 2 ^ (w - 1).

Definition int32 (x : Z) : Z := wrap 32 x.
Definition int64 (x : Z) : Z := wrap 64 x.

End GoInt.

(** ** Errors and outcomes *)

(** [time.Duration] is a count of nanoseconds. *)
Definition Duration := Z.
Definition Second : Duration := 1000000000.

(** The dynamic types of the [error] values that the code builds or tells
    apart, and the fault by which the platform answers for a reference that
    resolves to no object. *)
Inductive error : Type :=
| RequeueAfterError (RequeueAfter : Duration)
    (* *clustererror.RequeueAfterError: the retry signal *)
| NotFoundError (msg : string)
    (* *find.NotFoundError *)
| ManagedObjectNotFound (obj : string)
    (* the fault ManagedObjectNotFound of the vSphere API *)
| errorString (msg : string)
    (* errors.New, and any other error of a collaborator *)
| Errorf (format : string) (args : list string).
    (* fmt.Errorf: the verbs are kept next to their arguments *)

(** [err.Error()], as far as the code formats errors into other errors. *)
Definition Error (e : error) : string :=
  match e with
  | RequeueAfterError d => "requeue in: " +:+ pretty d
  | NotFoundError m => m
  | ManagedObjectNotFound obj => "ServerFaultCode: The object " +:+ obj +:+ " has already been deleted or has not been completely created"
  | errorString m => m
  | Errorf f args => f +:+ String.concat "," args
  end.

(** A retry signal asks the caller to come back later; everything else is a
    failure of the call. *)
Definition isRequeue (e : error) : bool :=
  match e with RequeueAfterError _ => true | _ => false end.

Definition isHardError (e : error) : bool := negb (isRequeue e).

(** The failure of a query by which a reference is known to be lost. *)
Definition isLostReference (e : error) : bool :=
  match e with ManagedObjectNotFound _ => true | _ => false end.

(** What a call of a Go function does: it returns, it returns a non-nil
    [error], or it panics. *)
Inductive outcome (A : Type) : Type :=
| Return (a : A)
| Raise (e : error)
| Panic (reason : string).
Arguments Return {A} a.
Arguments Raise {A} e.
Arguments Panic {A} reason.

Definition nilDeref : string := "invalid memory address or nil pointer dereference".
Definition badAssert : string := "interface conversion".

(** ** The data model *)

(** Package [vsphereconfigv1]: the provider's part of the machine and
    cluster objects. *)
Module vsphereconfigv1.

Record DiskSpec := {
  DiskSizeGB : Z;
  DiskLabel : string;
}.

Record NetworkSpec := {
  NetworkName : string;
}.

Record VsphereMachineSpec := {
  Datacenter : string;
  Datastore : string;
  ResourcePool : string;
  VMFolder : string;
  Networks : list NetworkSpec;
  NumCPUs : Z;
  MemoryMB : Z;
  VMTemplate : string;
  Disks : list DiskSpec;
  Preloaded : bool;
  VsphereCloudInit : bool;
  TrustedCerts : list string;
  NTPServers : list string;
}.

Record VsphereMachineProviderConfig := {
  Kind : string;
  APIVersion : string;
  MachineRef : string;
  MachineSpec : VsphereMachineSpec;
}.

Record VsphereMachineProviderStatus := {
  LastUpdated : string;
  TaskRef : string;
}.

Record VsphereClusterProviderConfig := {
  VsphereUser : string;
  VspherePassword : string;
  VsphereServer : string;
}.

(** [reflect.TypeOf( *providerSpec).Name()] and
    [SchemeGroupVersion.String()]. *)
Definition KindName : string := "VsphereMachineProviderConfig".
Definition SchemeGroupVersion : string := "vsphereproviderconfig/v1alpha1".

End vsphereconfigv1.

(** Package [clusterv1]: the machine and cluster objects of the cluster
    API. *)
Module clusterv1.

(** [machine.Spec.ProviderSpec] is raw JSON; it stands here for what the
    decoder makes of it. *)
Inductive RawProviderSpec : Type :=
| SpecUndecodable (e : error)
| SpecOf (c : vsphereconfigv1.VsphereMachineProviderConfig).

(** [machine.Status.ProviderStatus]: absent, undecodable, or a status. *)
Inductive RawProviderStatus : Type :=
| StatusNil
| StatusUndecodable (e : error)
| StatusOf (s : vsphereconfigv1.VsphereMachineProviderStatus).

Record Machine := {
  Name : string;
  Namespace : string;
  UID : string;
  ControlPlane : string;      (* Spec.Versions.ControlPlane *)
  Kubelet : string;           (* Spec.Versions.Kubelet *)
  ProviderSpec : RawProviderSpec;
  ProviderStatus : RawProviderStatus;
}.

Record Cluster := {
  ClusterName : string;
  ClusterProviderSpec : error + vsphereconfigv1.VsphereClusterProviderConfig;
  (* what GetClusterProviderStatus makes of the status: an error, nil,
     or whether APIStatus is ApiReady *)
  ClusterAPIStatus : error + option bool;
}.

Definition withProviderSpec (m : Machine) (r : RawProviderSpec) : Machine :=
  {| Name := Name m; Namespace := Namespace m; UID := UID m;
     ControlPlane := ControlPlane m; Kubelet := Kubelet m;
     ProviderSpec := r; ProviderStatus := ProviderStatus m |}.

Definition withProviderStatus (m : Machine) (r : RawProviderStatus) : Machine :=
  {| Name := Name m; Namespace := Namespace m; UID := UID m;
     ControlPlane := ControlPlane m; Kubelet := Kubelet m;
     ProviderSpec := ProviderSpec m; ProviderStatus := r |}.

End clusterv1.

(** Package [types] of govmomi: the objects of the vSphere API that the
    code reads and builds. *)
Module types.

Record ManagedObjectReference := {
  Type_ : string;
  Value : string;
}.

(** [types.TaskInfoState] is a string. *)
Definition TaskInfoStateQueued : string := "queued".
Definition TaskInfoStateRunning : string := "running".
Definition TaskInfoStateSuccess : string := "success".
Definition TaskInfoStateError : string := "error".

(** [types.AnyType], as far as a type assertion on a task result goes. *)
Inductive AnyType : Type :=
| AnyNil
| AnyMoRef (r : ManagedObjectReference)
| AnyOther.

Record TaskInfo := {
  State : string;
  DescriptionId : string;
  EntityName : string;
  Result : AnyType;
}.

(** Virtual hardware.  A device is a disk, a network adapter of some
    model ([VirtualE1000], [VirtualVmxnet3], ...; they all extend
    [VirtualEthernetCard]) or something else. *)
Inductive DeviceClass : Type :=
| VirtualDisk (CapacityInBytes : Z)
| VirtualEthernetCard (model : string) (Backing : string)
| OtherDevice (model : string).

Record VirtualDevice := {
  Key : Z;                 (* int32 *)
  Label : string;          (* DeviceInfo.GetDescription().Label *)
  Class : DeviceClass;
}.

Inductive VirtualDeviceConfigSpecOperation : Type :=
| VirtualDeviceConfigSpecOperationAdd
| VirtualDeviceConfigSpecOperationRemove
| VirtualDeviceConfigSpecOperationEdit.

Record VirtualDeviceConfigSpec := {
  Operation : VirtualDeviceConfigSpecOperation;
  Device : VirtualDevice;
}.

Record OptionValue := {
  OptKey : string;
  OptValue : string;
}.

Record VAppPropertyInfo := {
  PropKey : Z;
  Id : string;
  DefaultValue : string;
  PropValue : string;
}.

(** [ArrayUpdateSpec.Operation] is [ArrayUpdateOperationEdit] on every
    property that the code builds. *)
Record VAppPropertySpec := {
  ArrayUpdateOperation : string;
  Info : VAppPropertyInfo;
}.
Definition ArrayUpdateOperationEdit : string := "edit".

Record VirtualMachineConfigSpec := {
  InstanceUuid : string;
  DiskUuidEnabled : option bool;                 (* Flags *)
  NumCPUs : Z;                                   (* int32 *)
  MemoryMB : Z;                                  (* int64 *)
  Annotation : string;
  ExtraConfig : list OptionValue;
  VAppConfig : option (list VAppPropertySpec);   (* VmConfigSpec.Property *)
  DeviceChange : list VirtualDeviceConfigSpec;
}.

Record VirtualMachineRelocateSpec := {
  Datastore : option ManagedObjectReference;
  Pool : option ManagedObjectReference;
  DiskMoveType : string;
}.

Record VirtualMachineCloneSpec := {
  Location : VirtualMachineRelocateSpec;
  Config : VirtualMachineConfigSpec;
  PowerOn : bool;
}.

Definition MoveAllDiskBackingsAndConsolidate : string :=
  "moveAllDiskBackingsAndConsolidate".

End types.

(** Package [mo]: the properties of a virtual machine and of a host that
    the code fetches. *)
Module mo.

Record VirtualMachine := {
  (* Config.VAppConfig.GetVmConfigInfo().Property, nil without a vApp
     configuration *)
  VAppConfig : option (list types.VAppPropertyInfo);
  (* Config.Hardware.Device *)
  Device : list types.VirtualDevice;
}.

Record HostSystem := {
  HostName : string;
}.

End mo.

Record Event := {
  eventtype : string;
  reason : string;
  message : string;
}.

Definition EventTypeNormal : string := "Normal".

(** Package [vpshereprovisionercommon]: the inputs of the bootstrap payload
    templates. *)
Module vpshereprovisionercommon.

Record TemplateParams := {
  Token : string;
  MajorMinorVersion : string;
  Cluster : clusterv1.Cluster;
  Machine : clusterv1.Machine;
  Preloaded : bool;
}.

Record CloudInitTemplate := {
  Script : string;
  IsMaster : bool;
  CloudProviderConfig : string;
  SSHPublicKey : string;
  TrustedCerts : list string;
  NTPServers : list string;
}.

Record CloudProviderConfigTemplate := {
  Datacenter : string;
  Server : string;
  Insecure : bool;
  UserName : string;
  Password : string;
  ResourcePool : string;
  Datastore : string;
  Network : string;
}.

End vpshereprovisionercommon.

(** ** The provisioner, its environment and the world *)

(** The two collaborators that [Provisioner] may hold as nil; [false]
    stands for nil. *)
Record Provisioner := {
  clusterV1alpha1 : bool;
  eventRecorder : bool;
}.

Abbreviation MoRef := types.ManagedObjectReference.

(** The answers of everything outside this file, one field per call.
    [inl err] is a non-nil error. *)
Record Env := {
  (* the session with the platform *)
  sessionFromProviderConfig : option error;
  UserSession : option error;
  (* govmomi: search index, property collector, finder, objects *)
  FindByUuid : option string -> string -> error + option MoRef;
  RetrieveOne : string -> error + types.TaskInfo;
  DatacenterOrDefault : string -> error + string;
  finder_VirtualMachine : string -> error + MoRef;
  HostSystem : MoRef -> error + MoRef;
  Host_Properties : MoRef -> error + mo.HostSystem;
  VM_Properties : MoRef -> error + mo.VirtualMachine;
  FolderOrDefault : string -> error + MoRef;
  DatastoreOrDefault : string -> error + MoRef;
  ResourcePoolOrDefault : string -> error + MoRef;
  Host_ResourcePool : MoRef -> error + MoRef;
  ResourcePool_Create : MoRef -> string -> error + MoRef;
  finder_Network : string -> error + string;
  EthernetCardBackingInfo : string -> error + string;
  Clone : MoRef -> MoRef -> string -> types.VirtualMachineCloneSpec -> error + MoRef;
  (* the Kubernetes client: whether a write is refused *)
  Update_err : clusterv1.Machine -> option error;
  UpdateStatus_err : clusterv1.Machine -> option error;
  (* time.Now().UTC().String() *)
  now : string;
  (* other packages of the repository and libraries *)
  ClusterIsNullErr : string;
  CreateEventAction : string;
  IsValidUUID : string -> bool;
  GetNextBackOff : Duration;
  IsControlPlaneMachine : clusterv1.Machine -> bool;
  ParseSemantic : string -> error + Z * Z;
  GetSSHPublicKey : clusterv1.Cluster -> error + string;
  GetKubeadmToken : clusterv1.Cluster -> error + string;
  GetMasterStartupScript : vpshereprovisionercommon.TemplateParams -> error + string;
  GetNodeStartupScript : vpshereprovisionercommon.TemplateParams -> error + string;
  GetCloudInitUserData : vpshereprovisionercommon.CloudInitTemplate -> error + string;
  GetCloudInitMetaData : string -> vsphereconfigv1.VsphereMachineProviderConfig -> error + string;
  GetCloudProviderConfigConfig : vpshereprovisionercommon.CloudProviderConfigTemplate -> error + string;
  url_Parse : string -> error + string;      (* the Host of the parsed URL *)
  base64 : string -> string;
}.

(** One [src.Clone] that the platform accepted. *)
Record CloneCall := {
  clone_src : MoRef;
  clone_folder : MoRef;
  clone_name : string;
  clone_spec : types.VirtualMachineCloneSpec;
  clone_task : MoRef;
}.

Record World := {
  store : clusterv1.Machine;     (* the machine object in the API server *)
  events : list Event;           (* what the event recorder was given *)
  clones : list CloneCall;       (* clone operations submitted so far *)
  pools : list string;           (* resource pools created so far *)
}.

Definition setStore (w : World) (m : clusterv1.Machine) : World :=
  {| store := m; events := events w; clones := clones w; pools := pools w |}.

Definition addEvent (w : World) (e : Event) : World :=
  {| store := store w; events := events w ++ [e]; clones := clones w; pools := pools w |}.

Definition addClone (w : World) (c : CloneCall) : World :=
  {| store := store w; events := events w; clones := clones w ++ [c]; pools := pools w |}.

Definition addPool (w : World) (p : string) : World :=
  {| store := store w; events := events w; clones := clones w; pools := pools w ++ [p] |}.

(** ** Calls that change the world *)

Definition M (A : Type) : Type := World -> outcome A * World.

Definition ret {A} (a : A) : M A := fun w => (Return a, w).
Definition raise {A} (e : error) : M A := fun w => (Raise e, w).
Definition panic {A} (r : string) : M A := fun w => (Panic r, w).

Definition bind {A B} (m : M A) (k : A -> M B) : M B :=
  fun w =>
    match m w with
    | (Return a, w') => k a w'
    | (Raise e, w') => (Raise e, w')
    | (Panic r, w') => (Panic r, w')
    end.

Declare Scope go_scope.
Delimit Scope go_scope with go.
Notation "x <- c ;; k" := (bind c (fun x => k))
  (at level 100, c at next level, right associativity) : go_scope.
Notation "c ;;; k" := (bind c (fun _ => k))
  (at level 100, right associativity) : go_scope.
Local Open Scope go_scope.

(** [v, err := f(); if err != nil { return err }] *)
Definition try {A} (r : error + A) : M A :=
  match r with inl e => raise e | inr a => ret a end.

(** [v, err := f(); if err != nil { return wrap(err) }] *)
Definition tryWith {A} (wrap : error -> error) (r : error + A) : M A :=
  match r with inl e => raise (wrap e) | inr a => ret a end.

(** [err := f(); if err != nil { return err }] *)
Definition check (r : option error) : M unit :=
  match r with Some e => raise e | None => ret tt end.

(** A computation that only asks the environment. *)
Definition lift {A} (o : outcome A) : M A := fun w => (o, w).

(** [pv.eventRecorder.Eventf(machine, ...)]: a method call on a nil
    interface panics. *)
Definition Eventf (pv : Provisioner) (ty rs msg : string) : M unit :=
  fun w =>
    if eventRecorder pv
    then (Return tt, addEvent w {| eventtype := ty; reason := rs; message := msg |})
    else (Panic nilDeref, w).

(** Modelled from the spec: the declarative-record store behind
    [pv.clusterV1alpha1.Machines(ns)], which is no part of this file.  §6
    gives it [updateSpec(Node)] and [updateStatus(Node)], each answering the
    stored node or a conflict: [Update] replaces everything but the status
    of the stored object, [UpdateStatus] replaces its status. *)
Definition Machines_Update (env : Env) (m : clusterv1.Machine) : M clusterv1.Machine :=
  fun w =>
    match Update_err env m with
    | Some e => (Raise e, w)
    | None =>
        let stored := clusterv1.withProviderStatus m (clusterv1.ProviderStatus (store w)) in
        (Return stored, setStore w stored)
    end.

Definition Machines_UpdateStatus (env : Env) (m : clusterv1.Machine) : M clusterv1.Machine :=
  fun w =>
    match UpdateStatus_err env m with
    | Some e => (Raise e, w)
    | None =>
        let stored := clusterv1.withProviderStatus (store w) (clusterv1.ProviderStatus m) in
        (Return stored, setStore w stored)
    end.

(** Package [vsphereutils]. *)
Module vsphereutils.

(** Modelled from the spec: [GetMachineProviderSpec] decodes the raw
    provider part of the machine (§3, the desired configuration of a
    Node); it fails when the raw value does not decode. *)
Definition GetMachineProviderSpec (r : clusterv1.RawProviderSpec)
  : error + vsphereconfigv1.VsphereMachineProviderConfig :=
  match r with
  | clusterv1.SpecUndecodable e => inl e
  | clusterv1.SpecOf c => inr c
  end.

(** Modelled from the spec: [GetMachineProviderStatus] decodes the mutable
    status of the machine (§3); a machine without a status has none. *)
Definition GetMachineProviderStatus (m : clusterv1.Machine)
  : error + option vsphereconfigv1.VsphereMachineProviderStatus :=
  match clusterv1.ProviderStatus m with
  | clusterv1.StatusNil => inr None
  | clusterv1.StatusUndecodable e => inl e
  | clusterv1.StatusOf s => inr (Some s)
  end.

(** Modelled from the spec: [GetActiveTasks] reads the stored Task
    Reference (§3, §4.2: state NONE is "no reference stored"); there is
    none when the status is absent or does not decode. *)
Definition GetActiveTasks (m : clusterv1.Machine) : string :=
  match GetMachineProviderStatus m with
  | inr (Some s) => vsphereconfigv1.TaskRef s
  | _ => ""
  end.

(** Modelled from the spec: [GiBToByte], the unit conversion of §8
    ("capacity field = 100 GiB exactly"), on Go's [int64]. *)
Definition GiBToByte (n : Z) : Z := GoInt.int64 (n * 2 ^ 30).

(** Modelled from the spec: [GetClusterProviderSpec] and
    [GetClusterProviderStatus] decode the provider part of the cluster
    (§3, Cluster: server address, credentials); the status may be
    absent. *)
Definition GetClusterProviderSpec (c : clusterv1.Cluster)
  : error + vsphereconfigv1.VsphereClusterProviderConfig :=
  clusterv1.ClusterProviderSpec c.

Definition GetClusterProviderStatus (c : clusterv1.Cluster)
  : error + option bool :=
  clusterv1.ClusterAPIStatus c.

End vsphereutils.

(** ** The status projections *)

Section Provisioner.

Variable pv : Provisioner.
Variable env : Env.

(** [updateVMReference]: writes [vmref] as the MachineRef of the machine's
    provider spec, through a copy of the machine.  Encoding the provider
    spec (a record of strings, numbers and lists of them) cannot fail, so
    that branch has no counterpart.  [vc.clusterV1alpha1] is used without
    a nil check. *)
Definition updateVMReference (machine : clusterv1.Machine) (vmref : string)
  : M clusterv1.Machine :=
  providerSpec <- try (vsphereutils.GetMachineProviderSpec (clusterv1.ProviderSpec machine)) ;;
  let providerSpec' :=
    {| vsphereconfigv1.Kind := vsphereconfigv1.KindName;
       vsphereconfigv1.APIVersion := vsphereconfigv1.SchemeGroupVersion;
       vsphereconfigv1.MachineRef := vmref;
       vsphereconfigv1.MachineSpec := vsphereconfigv1.MachineSpec providerSpec |} in
  let newMachine := clusterv1.withProviderSpec machine (clusterv1.SpecOf providerSpec') in
  if clusterV1alpha1 pv
  then Machines_Update env newMachine
  else panic nilDeref.

(** [setTaskRef]: writes [taskref] into the status of the machine, unless
    it is the stored value already. *)
Definition setTaskRef (machine : clusterv1.Machine) (taskref : string) : M unit :=
  oldProviderStatus <- try (vsphereutils.GetMachineProviderStatus machine) ;;
  if match oldProviderStatus with
     | Some old => bool_decide (vsphereconfigv1.TaskRef old = taskref)
     | None => false
     end
  then ret tt   (* Nothing to update *)
  else
    let newProviderStatus :=
      {| vsphereconfigv1.TaskRef := taskref;
         vsphereconfigv1.LastUpdated := now env |} in
    let newMachine :=
      clusterv1.withProviderStatus machine (clusterv1.StatusOf newProviderStatus) in
    if negb (clusterV1alpha1 pv)
    then ret tt
    else _ <- Machines_UpdateStatus env newMachine ;; ret tt.

(** ** The identity resolver *)

Definition findVMByInstanceUUID (machine : clusterv1.Machine) : M string :=
  vmRef <- tryWith
    (fun err => Errorf "error quering virtual machine or template using FindByUuid: %s" [Error err])
    (FindByUuid env None (clusterv1.UID machine)) ;;
  match vmRef with
  | Some r => ret (types.Value r)
  | None => ret ""
  end.

(** ** The task tracker *)

Definition verifyAndUpdateTask (machine : clusterv1.Machine) (taskmoref : string) : M unit :=
  match RetrieveOne env taskmoref with
  | inl _ =>
      (* The task does not exist any more, thus no point tracking it. *)
      setTaskRef machine ""
  | inr info =>
      let state := types.State info in
      if bool_decide (state = types.TaskInfoStateQueued)
         || bool_decide (state = types.TaskInfoStateRunning)
      then raise (RequeueAfterError (Second * 5))
      else if bool_decide (state = types.TaskInfoStateSuccess)
      then
        if bool_decide (types.DescriptionId info = "VirtualMachine.clone")
        then
          match types.Result info with
          | types.AnyMoRef vmref =>
              Eventf pv EventTypeNormal "Created"
                ("Created Machine " +:+ clusterv1.Name machine
                 +:+ "(" +:+ types.Value vmref +:+ ")") ;;;
              updatedmachine <- updateVMReference machine (types.Value vmref) ;;
              setTaskRef updatedmachine ""
          | _ => panic badAssert
          end
        else
          (if bool_decide (types.DescriptionId info = "VirtualMachine.reconfigure")
           then Eventf pv EventTypeNormal "Reconfigured"
                  ("Reconfigured Machine " +:+ types.EntityName info)
           else ret tt) ;;;
          setTaskRef machine ""
      else if bool_decide (state = types.TaskInfoStateError)
      then
        if bool_decide (types.DescriptionId info = "VirtualMachine.clone")
        then
          Eventf pv EventTypeNormal "Failed"
            ("Creation failed for Machine " +:+ clusterv1.Name machine) ;;;
          setTaskRef machine ""
        else ret tt
      else
        raise (Errorf "Unknown state %s for task %s detected" [taskmoref; state])
  end.

(** ** The bootstrap payloads *)

(** Modelled from the spec: [HandleMachineError] is a method of the
    package that is not in this file.  §7: a configuration error is
    returned as an error and does not clear or corrupt the Task
    Reference. *)
Definition HandleMachineError {A} (machine : clusterv1.Machine) (err : error)
    (eventAction : string) : M A :=
  raise err.

Definition getCloudInitMetaData (cluster : clusterv1.Cluster)
    (machine : clusterv1.Machine) : M string :=
  machineconfig <- try (vsphereutils.GetMachineProviderSpec (clusterv1.ProviderSpec machine)) ;;
  metadata <- try (GetCloudInitMetaData env (clusterv1.Name machine) machineconfig) ;;
  ret (base64 env metadata).

Definition getCloudProviderConfig (cluster : clusterv1.Cluster)
    (machine : clusterv1.Machine) (resourcePoolPath : string) : M string :=
  clusterConfig <- try (vsphereutils.GetClusterProviderSpec cluster) ;;
  machineconfig <- try (vsphereutils.GetMachineProviderSpec (clusterv1.ProviderSpec machine)) ;;
  let ms := vsphereconfigv1.MachineSpec machineconfig in
  let server :=
    match url_Parse env (vsphereconfigv1.VsphereServer clusterConfig) with
    | inr host =>
        if bool_decide (host <> "") then host
        else vsphereconfigv1.VsphereServer clusterConfig
    | inl _ => vsphereconfigv1.VsphereServer clusterConfig
    end in
  let cpc :=
    {| vpshereprovisionercommon.Datacenter := vsphereconfigv1.Datacenter ms;
       vpshereprovisionercommon.Server := server;
       vpshereprovisionercommon.Insecure := true;
       vpshereprovisionercommon.UserName := vsphereconfigv1.VsphereUser clusterConfig;
       vpshereprovisionercommon.Password := vsphereconfigv1.VspherePassword clusterConfig;
       vpshereprovisionercommon.ResourcePool :=
         if bool_decide (resourcePoolPath <> "") then resourcePoolPath
         else vsphereconfigv1.ResourcePool ms;
       vpshereprovisionercommon.Datastore := vsphereconfigv1.Datastore ms;
       vpshereprovisionercommon.Network :=
         match vsphereconfigv1.Networks ms with
         | n :: _ => vsphereconfigv1.NetworkName n
         | [] => ""
         end |} in
  cloudProviderConfig <- try (GetCloudProviderConfigConfig env cpc) ;;
  ret (base64 env cloudProviderConfig).

Definition MajorMinor (v : Z * Z) : string := pretty (fst v) +:+ "." +:+ pretty (snd v).

Definition getStartupScript (cluster : clusterv1.Cluster)
    (machine : clusterv1.Machine) : M string :=
  match vsphereutils.GetMachineProviderSpec (clusterv1.ProviderSpec machine) with
  | inl err =>
      HandleMachineError machine
        (Errorf "Cannot unmarshal providerSpec field: %v" [Error err])
        (CreateEventAction env)
  | inr machineconfig =>
      let preloaded := vsphereconfigv1.Preloaded (vsphereconfigv1.MachineSpec machineconfig) in
      startupScript <-
        (if IsControlPlaneMachine env machine
         then
           if bool_decide (clusterv1.ControlPlane machine = "")
           then
             HandleMachineError machine
               (Errorf "invalid master configuration: missing Machine.Spec.Versions.ControlPlane" [])
               (CreateEventAction env)
           else
             parsedVersion <- try (ParseSemantic env (clusterv1.ControlPlane machine)) ;;
             try (GetMasterStartupScript env
                    {| vpshereprovisionercommon.Token := "";
                       vpshereprovisionercommon.MajorMinorVersion := MajorMinor parsedVersion;
                       vpshereprovisionercommon.Cluster := cluster;
                       vpshereprovisionercommon.Machine := machine;
                       vpshereprovisionercommon.Preloaded := preloaded |})
         else
           clusterstatus <- try (vsphereutils.GetClusterProviderStatus cluster) ;;
           match clusterstatus with
           | Some true =>
               match GetKubeadmToken env cluster with
               | inl _ => raise (RequeueAfterError (GetNextBackOff env))
               | inr kubeadmToken =>
                   parsedVersion <- try (ParseSemantic env (clusterv1.Kubelet machine)) ;;
                   try (GetNodeStartupScript env
                          {| vpshereprovisionercommon.Token := kubeadmToken;
                             vpshereprovisionercommon.MajorMinorVersion := MajorMinor parsedVersion;
                             vpshereprovisionercommon.Cluster := cluster;
                             vpshereprovisionercommon.Machine := machine;
                             vpshereprovisionercommon.Preloaded := preloaded |})
               end
           | _ => raise (RequeueAfterError (GetNextBackOff env))
           end) ;;
      ret (base64 env startupScript)
  end.

Definition getCloudInitUserData (cluster : clusterv1.Cluster)
    (machine : clusterv1.Machine) (resourcePoolPath : string) : M string :=
  script <- getStartupScript cluster machine ;;
  config <- getCloudProviderConfig cluster machine resourcePoolPath ;;
  publicKey <- try (GetSSHPublicKey env cluster) ;;
  machineconfig <- try (vsphereutils.GetMachineProviderSpec (clusterv1.ProviderSpec machine)) ;;
  userdata <- try (GetCloudInitUserData env
    {| vpshereprovisionercommon.Script := script;
       vpshereprovisionercommon.IsMaster := IsControlPlaneMachine env machine;
       vpshereprovisionercommon.CloudProviderConfig := config;
       vpshereprovisionercommon.SSHPublicKey := publicKey;
       vpshereprovisionercommon.TrustedCerts :=
         vsphereconfigv1.TrustedCerts (vsphereconfigv1.MachineSpec machineconfig);
       vpshereprovisionercommon.NTPServers :=
         vsphereconfigv1.NTPServers (vsphereconfigv1.MachineSpec machineconfig) |}) ;;
  ret (base64 env userdata).

Definition PropertiesVM (vm : MoRef) : error + mo.VirtualMachine := VM_Properties env vm.
Definition PropertiesHost (host : MoRef) : error + mo.HostSystem := Host_Properties env host.

(** ** The clone specification builder *)

(** [object.VirtualDeviceList.SelectByType]: the devices that are of, or
    extend, the given type, in their order. *)
Definition isVirtualDisk (dev : types.VirtualDevice) : bool :=
  match types.Class dev with types.VirtualDisk _ => true | _ => false end.

Definition isVirtualEthernetCard (dev : types.VirtualDevice) : bool :=
  match types.Class dev with types.VirtualEthernetCard _ _ => true | _ => false end.

Definition SelectByType (ty : types.VirtualDevice -> bool)
    (l : list types.VirtualDevice) : list types.VirtualDevice :=
  List.filter ty l.

(** The map from disk label to new size in GiB; a later entry of the
    list replaces an earlier one with the same label. *)
Definition diskMap (diskSpecs : list vsphereconfigv1.DiskSpec) : gmap string Z :=
  foldl (fun m s => <[vsphereconfigv1.DiskLabel s := vsphereconfigv1.DiskSizeGB s]> m)
        ∅ diskSpecs.

Definition withCapacity (dev : types.VirtualDevice) (c : Z) : types.VirtualDevice :=
  {| types.Key := types.Key dev; types.Label := types.Label dev;
     types.Class := types.VirtualDisk c |}.

Definition shrinkErr : error :=
  errorString "[FATAL] Disk size provided should be more than actual disk size of the template. Please correct the machineSpec to proceed".

Definition noDiskMatchedErr (template : string) : error :=
  Errorf "[FATAL] None of the disks specified in the MachineSpec matched with the disks on the template %s" [template].

(** The loop over the disks of the template: the remaining [disks], the
    [deviceSpecs] built so far and the flag [diskChange]. *)
Fixpoint resizeDisks (dm : gmap string Z) (disks : list types.VirtualDevice)
    (deviceSpecs : list types.VirtualDeviceConfigSpec) (diskChange : bool)
  : outcome (list types.VirtualDeviceConfigSpec * bool) :=
  match disks with
  | [] => Return (deviceSpecs, diskChange)
  | dev :: rest =>
      match types.Class dev with
      | types.VirtualDisk CapacityInBytes =>
          match dm !! types.Label dev with
          | Some newSize =>
              if CapacityInBytes >? vsphereutils.GiBToByte newSize
              then Raise shrinkErr
              else
                let disk := withCapacity dev (vsphereutils.GiBToByte newSize) in
                let diskspec :=
                  {| types.Operation := types.VirtualDeviceConfigSpecOperationEdit;
                     types.Device := disk |} in
                resizeDisks dm rest (deviceSpecs ++ [diskspec]) true
          | None => resizeDisks dm rest deviceSpecs diskChange
          end
      | _ => Panic badAssert     (* dev.( *types.VirtualDisk) *)
      end
  end.

(** [GetVirtualEthernetCard]: the adapter as its base type. *)
Definition GetVirtualEthernetCard (dev : types.VirtualDevice) (backing : string)
  : types.VirtualDevice :=
  {| types.Key := types.Key dev; types.Label := types.Label dev;
     types.Class := types.VirtualEthernetCard "VirtualEthernetCard" backing |}.

(** The loop that removes the adapters of the template. *)
Fixpoint removeNics (nics : list types.VirtualDevice)
    (deviceSpecs : list types.VirtualDeviceConfigSpec)
  : outcome (list types.VirtualDeviceConfigSpec) :=
  match nics with
  | [] => Return deviceSpecs
  | dev :: rest =>
      match types.Class dev with
      | types.VirtualEthernetCard _ backing =>
          let nicspec :=
            {| types.Operation := types.VirtualDeviceConfigSpecOperationRemove;
               types.Device := GetVirtualEthernetCard dev backing |} in
          removeNics rest (deviceSpecs ++ [nicspec])
      | _ => Panic badAssert     (* dev.(types.BaseVirtualEthernetCard) *)
      end
  end.

(** The loop that adds one adapter per configured network; [nicid] is an
    [int32]. *)
Fixpoint addNics (networks : list vsphereconfigv1.NetworkSpec) (nicid : Z)
    (deviceSpecs : list types.VirtualDeviceConfigSpec)
  : outcome (list types.VirtualDeviceConfigSpec) :=
  match networks with
  | [] => Return deviceSpecs
  | network :: rest =>
      match finder_Network env (vsphereconfigv1.NetworkName network) with
      | inl err => Raise err
      | inr netRef =>
          match EthernetCardBackingInfo env netRef with
          | inl err => Raise err
          | inr backing =>
              let nic :=
                {| types.Key := nicid; types.Label := "";
                   types.Class := types.VirtualEthernetCard "VirtualVmxnet3" backing |} in
              let nicspec :=
                {| types.Operation := types.VirtualDeviceConfigSpecOperationAdd;
                   types.Device := nic |} in
              addNics rest (GoInt.int32 (nicid - 1)) (deviceSpecs ++ [nicspec])
          end
      end
  end.

(** The loop over the vApp properties of the template (OVF mode). *)
Fixpoint vAppProperties (cluster : clusterv1.Cluster) (machine : clusterv1.Machine)
    (userData : string) (allProperties : list types.VAppPropertyInfo)
    (props : list types.VAppPropertySpec) : outcome (list types.VAppPropertySpec) :=
  match allProperties with
  | [] => Return props
  | p :: rest =>
      let defaultValue :=
        if bool_decide (types.DefaultValue p <> "") then types.DefaultValue p else " " in
      let v1 := if bool_decide (types.Id p = "user-data") then userData else defaultValue in
      match (if bool_decide (types.Id p = "public-keys")
             then GetSSHPublicKey env cluster else inr v1) with
      | inl err => Raise err
      | inr v2 =>
          let v3 := if bool_decide (types.Id p = "hostname")
                    then clusterv1.Name machine else v2 in
          let prop :=
            {| types.ArrayUpdateOperation := types.ArrayUpdateOperationEdit;
               types.Info := {| types.PropKey := types.PropKey p;
                                types.Id := types.Id p;
                                types.DefaultValue := "";
                                types.PropValue := v3 |} |} in
          vAppProperties cluster machine userData rest (props ++ [prop])
      end
  end.

(** [poolRoot.Create(ctx, name, types.DefaultResourceConfigSpec())] *)
Definition createResourcePool (poolRoot : MoRef) (name : string) : M MoRef :=
  fun w =>
    match ResourcePool_Create env poolRoot name with
    | inl e => (Raise e, w)
    | inr pool => (Return pool, addPool w name)
    end.

(** [src.Clone(ctx, vmFolder, machine.Name, spec)] *)
Definition submitClone (src vmFolder : MoRef) (name : string)
    (spec : types.VirtualMachineCloneSpec) : M MoRef :=
  fun w =>
    match Clone env src vmFolder name spec with
    | inl e => (Raise e, w)
    | inr task =>
        (Return task,
         addClone w {| clone_src := src; clone_folder := vmFolder; clone_name := name;
                       clone_spec := spec; clone_task := task |})
    end.

(** Template resolution: by instance UUID when the name has the format of
    one, else (or when that finds nothing) by name. *)
Definition resolveTemplate (dc : string) (VMTemplate : string) : M MoRef :=
  src <- (if IsValidUUID env VMTemplate
          then tryWith
                 (fun err => Errorf "error querying virtual machine or template using FindByUuid: %s" [Error err])
                 (FindByUuid env (Some dc) VMTemplate)
          else ret None) ;;
  match src with
  | Some templateref => ret templateref
  | None => try (finder_VirtualMachine env VMTemplate)
  end.

(** The resource pool of the clone: the configured one, created under the
    host's root pool when the finder does not know it, or the host's root
    pool.  An error of the finder other than [NotFoundError] is not
    looked at, and the nil pool is dereferenced. *)
Definition resolvePool (host : MoRef) (ResourcePool : string) : M MoRef :=
  if bool_decide (ResourcePool <> "")
  then
    match ResourcePoolOrDefault env ResourcePool with
    | inl (NotFoundError _) =>
        poolRoot <- try (Host_ResourcePool env host) ;;
        createResourcePool poolRoot ResourcePool
    | inl _ => panic nilDeref
    | inr pool => ret pool
    end
  else try (Host_ResourcePool env host).

(** Guest customization: the extra configuration of the cloud-init
    datasource, or the vApp properties of the template. *)
Definition guestCustomization (cluster : clusterv1.Cluster) (machine : clusterv1.Machine)
    (VsphereCloudInit : bool) (vmProps : mo.VirtualMachine) (userData metaData : string)
  : M (list types.OptionValue * option (list types.VAppPropertySpec)) :=
  if VsphereCloudInit
  then
    ret ([ {| types.OptKey := "guestinfo.metadata"; types.OptValue := metaData |};
           {| types.OptKey := "guestinfo.metadata.encoding"; types.OptValue := "base64" |};
           {| types.OptKey := "guestinfo.userdata"; types.OptValue := userData |};
           {| types.OptKey := "guestinfo.userdata.encoding"; types.OptValue := "base64" |} ],
         None)
  else
    match mo.VAppConfig vmProps with
    | None =>
        raise (Errorf "this source VM lacks a vApp configuration and cannot have vApp properties set on it" [])
    | Some allProperties =>
        props <- lift (vAppProperties cluster machine userData allProperties []) ;;
        ret ([], Some props)
    end.

(** The device changes: disk edits, then adapter removals, then adapter
    additions. *)
Definition deviceChanges (ms : vsphereconfigv1.VsphereMachineSpec)
    (l : list types.VirtualDevice) : M (list types.VirtualDeviceConfigSpec) :=
  let disks := SelectByType isVirtualDisk l in
  r <- lift (resizeDisks (diskMap (vsphereconfigv1.Disks ms)) disks [] false) ;;
  let '(deviceSpecs, diskChange) := r in
  if negb diskChange && bool_decide (vsphereconfigv1.Disks ms <> [])
  then raise (noDiskMatchedErr (vsphereconfigv1.VMTemplate ms))
  else
    let nics := SelectByType isVirtualEthernetCard l in
    deviceSpecs <- lift (removeNics nics deviceSpecs) ;;
    lift (addNics (vsphereconfigv1.Networks ms) (GoInt.int32 (-100)) deviceSpecs).

(** What [cloneVirtualMachine] has resolved when it turns to the devices
    of the template. *)
Record CloneInputs := {
  in_ms : vsphereconfigv1.VsphereMachineSpec;
  in_src : MoRef;
  in_vmFolder : MoRef;
  in_ds : MoRef;
  in_pool : MoRef;
  in_vmProps : mo.VirtualMachine;
  in_custom : list types.OptionValue * option (list types.VAppPropertySpec);
}.

(** [cloneVirtualMachine] up to the guest customization: the template,
    its host, the bootstrap payloads, folder, datastore, resource pool. *)
Definition cloneInputs (cluster : clusterv1.Cluster) (machine : clusterv1.Machine)
  : M CloneInputs :=
  machineConfig <- try (vsphereutils.GetMachineProviderSpec (clusterv1.ProviderSpec machine)) ;;
  let ms := vsphereconfigv1.MachineSpec machineConfig in
  dc <- try (DatacenterOrDefault env (vsphereconfigv1.Datacenter ms)) ;;
  src <- resolveTemplate dc (vsphereconfigv1.VMTemplate ms) ;;
  host <- try (HostSystem env src) ;;
  hostProps <- tryWith (fun err => Errorf "error fetching host properties: %s" [Error err])
                       (PropertiesHost host) ;;
  let resourcePoolPath :=
    if bool_decide (vsphereconfigv1.ResourcePool ms = "")
    then "/" +:+ vsphereconfigv1.Datacenter ms +:+ "/host/" +:+ mo.HostName hostProps
         +:+ "/Resource"
    else "" in
  userData <- getCloudInitUserData cluster machine resourcePoolPath ;;
  metaData <- getCloudInitMetaData cluster machine ;;
  vmFolder <- try (FolderOrDefault env (vsphereconfigv1.VMFolder ms)) ;;
  ds <- try (DatastoreOrDefault env (vsphereconfigv1.Datastore ms)) ;;
  vmProps <- tryWith (fun err => Errorf "error fetching vm/template properties: %s" [Error err])
                     (PropertiesVM src) ;;
  pool <- resolvePool host (vsphereconfigv1.ResourcePool ms) ;;
  custom <- guestCustomization cluster machine (vsphereconfigv1.VsphereCloudInit ms)
                               vmProps userData metaData ;;
  ret {| in_ms := ms; in_src := src; in_vmFolder := vmFolder; in_ds := ds;
         in_pool := pool; in_vmProps := vmProps; in_custom := custom |}.

(** The clone specification, once the device changes are known. *)
Definition cloneSpec (cluster : clusterv1.Cluster) (machine : clusterv1.Machine)
    (inputs : CloneInputs) (deviceSpecs : list types.VirtualDeviceConfigSpec)
  : types.VirtualMachineCloneSpec :=
  let ms := in_ms inputs in
  {| types.Location :=
       {| types.Datastore := Some (in_ds inputs);
          types.Pool := Some (in_pool inputs);
          types.DiskMoveType := types.MoveAllDiskBackingsAndConsolidate |};
     types.Config :=
       {| types.InstanceUuid := clusterv1.UID machine;
          types.DiskUuidEnabled := Some true;
          types.NumCPUs :=
            if vsphereconfigv1.NumCPUs ms >? 0
            then GoInt.int32 (vsphereconfigv1.NumCPUs ms) else 0;
          types.MemoryMB :=
            if vsphereconfigv1.MemoryMB ms >? 0
            then vsphereconfigv1.MemoryMB ms else 0;
          types.Annotation :=
            "Virtual Machine is part of the cluster " +:+ clusterv1.ClusterName cluster
            +:+ " managed by cluster-api";
          types.ExtraConfig := fst (in_custom inputs);
          types.VAppConfig := snd (in_custom inputs);
          types.DeviceChange := deviceSpecs |};
     types.PowerOn := true |}.

(** The end of [cloneVirtualMachine]: the "Creating" event, the clone
    request, the new Task Reference. *)
Definition submit (machine : clusterv1.Machine) (inputs : CloneInputs)
    (spec : types.VirtualMachineCloneSpec) : M unit :=
  (if eventRecorder pv
   then Eventf pv EventTypeNormal "Creating" ("Creating Machine " +:+ clusterv1.Name machine)
   else ret tt) ;;;
  task <- submitClone (in_src inputs) (in_vmFolder inputs) (clusterv1.Name machine) spec ;;
  setTaskRef machine (types.Value task).

Definition cloneVirtualMachine (cluster : clusterv1.Cluster)
    (machine : clusterv1.Machine) : M unit :=
  inputs <- cloneInputs cluster machine ;;
  deviceSpecs <- deviceChanges (in_ms inputs) (mo.Device (in_vmProps inputs)) ;;
  submit machine inputs (cloneSpec cluster machine inputs deviceSpecs).

(** ** The entry point *)

Definition Create (cluster : option clusterv1.Cluster) (machine : clusterv1.Machine)
  : M unit :=
  match cluster with
  | None => raise (errorString (ClusterIsNullErr env))
  | Some cluster =>
      check (sessionFromProviderConfig env) ;;;
      check (UserSession env) ;;;
      let task := vsphereutils.GetActiveTasks machine in
      if bool_decide (task <> "")
      then
        (* In case an active task is going on, wait for its completion *)
        verifyAndUpdateTask machine task
      else
        vmRef <- findVMByInstanceUUID machine ;;
        (if bool_decide (vmRef <> "")
         then
           Eventf pv EventTypeNormal "Created"
             ("Created Machine " +:+ clusterv1.Name machine +:+ "(" +:+ vmRef +:+ ")") ;;;
           _ <- updateVMReference machine vmRef ;;
           ret tt
         else ret tt) ;;;
        cloneVirtualMachine cluster machine
  end.

End Provisioner.

(** ** A concrete platform

    A template with one 50 GiB disk labelled [data], two network adapters
    and a controller; every collaborator answers. *)
Module Scenario.

Definition mkRef (ty v : string) : MoRef := {| types.Type_ := ty; types.Value := v |}.

Definition GiB : Z := 2 ^ 30.

Definition templateDevices : list types.VirtualDevice :=
  [ {| types.Key := 1000; types.Label := "SCSI controller 0";
       types.Class := types.OtherDevice "VirtualLsiLogicController" |};
    {| types.Key := 2000; types.Label := "data";
       types.Class := types.VirtualDisk (50 * GiB) |};
    {| types.Key := 4000; types.Label := "Network adapter 1";
       types.Class := types.VirtualEthernetCard "VirtualE1000" "VM Network" |};
    {| types.Key := 4001; types.Label := "Network adapter 2";
       types.Class := types.VirtualEthernetCard "VirtualVmxnet3" "mgmt" |} ].

Definition templateProps : mo.VirtualMachine :=
  {| mo.VAppConfig :=
       Some [ {| types.PropKey := 0; types.Id := "hostname";
                 types.DefaultValue := ""; types.PropValue := "" |};
              {| types.PropKey := 1; types.Id := "user-data";
                 types.DefaultValue := ""; types.PropValue := "" |} ];
     mo.Device := templateDevices |}.

(** The state and kind of the operation behind every task reference, and
    the virtual machine that carries the machine's UID, are the two
    answers that the scenarios vary. *)
Definition env (task : error + types.TaskInfo) (vm : option MoRef) : Env :=
  {| sessionFromProviderConfig := None;
     UserSession := None;
     FindByUuid := fun dc uuid => inr (match dc with None => vm | Some _ => None end);
     RetrieveOne := fun _ => task;
     DatacenterOrDefault := fun n => inr n;
     finder_VirtualMachine := fun n => inr (mkRef "VirtualMachine" "vm-template");
     HostSystem := fun _ => inr (mkRef "HostSystem" "host-9");
     Host_Properties := fun _ => inr {| mo.HostName := "esx-1" |};
     VM_Properties := fun _ => inr templateProps;
     FolderOrDefault := fun _ => inr (mkRef "Folder" "group-v3");
     DatastoreOrDefault := fun _ => inr (mkRef "Datastore" "datastore-1");
     ResourcePoolOrDefault := fun _ => inr (mkRef "ResourcePool" "resgroup-8");
     Host_ResourcePool := fun _ => inr (mkRef "ResourcePool" "resgroup-1");
     ResourcePool_Create := fun _ _ => inr (mkRef "ResourcePool" "resgroup-99");
     finder_Network := fun n => inr n;
     EthernetCardBackingInfo := fun n => inr n;
     Clone := fun _ _ _ _ => inr (mkRef "Task" "task-77");
     Update_err := fun _ => None;
     UpdateStatus_err := fun _ => None;
     now := "2019-01-01 00:00:00 +0000 UTC";
     ClusterIsNullErr := "cluster is nil";
     CreateEventAction := "Create";
     IsValidUUID := fun _ => false;
     GetNextBackOff := 10 * Second;
     IsControlPlaneMachine := fun m => negb (String.eqb (clusterv1.ControlPlane m) "");
     ParseSemantic := fun _ => inr (1, 13);
     GetSSHPublicKey := fun _ => inr "ssh-rsa AAAA";
     GetKubeadmToken := fun _ => inr "abcdef.0123456789abcdef";
     GetMasterStartupScript := fun _ => inr "#!/bin/bash master";
     GetNodeStartupScript := fun _ => inr "#!/bin/bash node";
     GetCloudInitUserData := fun _ => inr "#cloud-config";
     GetCloudInitMetaData := fun _ _ => inr "instance-id";
     GetCloudProviderConfigConfig := fun _ => inr "[Global]";
     url_Parse := fun u => inr "";
     base64 := fun x => "b64:" +:+ x |}.

Definition pv : Provisioner := {| clusterV1alpha1 := true; eventRecorder := true |}.

Definition cluster : clusterv1.Cluster :=
  {| clusterv1.ClusterName := "c1";
     clusterv1.ClusterProviderSpec :=
       inr {| vsphereconfigv1.VsphereUser := "admin";
              vsphereconfigv1.VspherePassword := "secret";
              vsphereconfigv1.VsphereServer := "10.0.0.1" |};
     clusterv1.ClusterAPIStatus := inr (Some true) |}.

Definition machineSpec (disks : list vsphereconfigv1.DiskSpec)
    (networks : list vsphereconfigv1.NetworkSpec) : vsphereconfigv1.VsphereMachineSpec :=
  {| vsphereconfigv1.Datacenter := "dc1";
     vsphereconfigv1.Datastore := "ds1";
     vsphereconfigv1.ResourcePool := "";
     vsphereconfigv1.VMFolder := "";
     vsphereconfigv1.Networks := networks;
     vsphereconfigv1.NumCPUs := 2;
     vsphereconfigv1.MemoryMB := 2048;
     vsphereconfigv1.VMTemplate := "ubuntu-template";
     vsphereconfigv1.Disks := disks;
     vsphereconfigv1.Preloaded := false;
     vsphereconfigv1.VsphereCloudInit := true;
     vsphereconfigv1.TrustedCerts := [];
     vsphereconfigv1.NTPServers := [] |}.

Definition machine (disks : list vsphereconfigv1.DiskSpec)
    (networks : list vsphereconfigv1.NetworkSpec) (taskref : string) : clusterv1.Machine :=
  {| clusterv1.Name := "node-1";
     clusterv1.Namespace := "default";
     clusterv1.UID := "6f1c2c0e-aaaa-bbbb-cccc-000000000001";
     clusterv1.ControlPlane := "";
     clusterv1.Kubelet := "1.13.1";
     clusterv1.ProviderSpec :=
       clusterv1.SpecOf
         {| vsphereconfigv1.Kind := "";
            vsphereconfigv1.APIVersion := "";
            vsphereconfigv1.MachineRef := "";
            vsphereconfigv1.MachineSpec := machineSpec disks networks |};
     clusterv1.ProviderStatus :=
       clusterv1.StatusOf {| vsphereconfigv1.LastUpdated := "";
                             vsphereconfigv1.TaskRef := taskref |} |}.

Definition world (m : clusterv1.Machine) : World :=
  {| store := m; events := []; clones := []; pools := [] |}.

Definition taskInfo (state kind : string) (result : types.AnyType) : types.TaskInfo :=
  {| types.State := state; types.DescriptionId := kind;
     types.EntityName := "node-1"; types.Result := result |}.

(** What [cloneInputs] resolves on this platform. *)
Definition inputs (disks : list vsphereconfigv1.DiskSpec)
    (networks : list vsphereconfigv1.NetworkSpec) : CloneInputs :=
  {| in_ms := machineSpec disks networks;
     in_src := mkRef "VirtualMachine" "vm-template";
     in_vmFolder := mkRef "Folder" "group-v3";
     in_ds := mkRef "Datastore" "datastore-1";
     in_pool := mkRef "ResourcePool" "resgroup-1";
     in_vmProps := templateProps;
     in_custom :=
       ([ {| types.OptKey := "guestinfo.metadata";
             types.OptValue := "b64:instance-id" |};
          {| types.OptKey := "guestinfo.metadata.encoding";
             types.OptValue := "base64" |};
          {| types.OptKey := "guestinfo.userdata";
             types.OptValue := "b64:#cloud-config" |};
          {| types.OptKey := "guestinfo.userdata.encoding";
             types.OptValue := "base64" |} ], None) |}.

End Scenario.

(** ** Platforms that answer differently in one respect *)

Module Variant.

Definition with_sessionFromProviderConfig (base : Env) (answer : option error) : Env :=
  {| sessionFromProviderConfig := answer; UserSession := UserSession base;
     FindByUuid := FindByUuid base; RetrieveOne := RetrieveOne base;
     DatacenterOrDefault := DatacenterOrDefault base;
     finder_VirtualMachine := finder_VirtualMachine base;
     HostSystem := HostSystem base; Host_Properties := Host_Properties base;
     VM_Properties := VM_Properties base; FolderOrDefault := FolderOrDefault base;
     DatastoreOrDefault := DatastoreOrDefault base;
     ResourcePoolOrDefault := ResourcePoolOrDefault base;
     Host_ResourcePool := Host_ResourcePool base;
     ResourcePool_Create := ResourcePool_Create base;
     finder_Network := finder_Network base;
     EthernetCardBackingInfo := EthernetCardBackingInfo base; Clone := Clone base;
     Update_err := Update_err base; UpdateStatus_err := UpdateStatus_err base;
     now := now base; ClusterIsNullErr := ClusterIsNullErr base;
     CreateEventAction := CreateEventAction base; IsValidUUID := IsValidUUID base;
     GetNextBackOff := GetNextBackOff base;
     IsControlPlaneMachine := IsControlPlaneMachine base;
     ParseSemantic := ParseSemantic base; GetSSHPublicKey := GetSSHPublicKey base;
     GetKubeadmToken := GetKubeadmToken base;
     GetMasterStartupScript := GetMasterStartupScript base;
     GetNodeStartupScript := GetNodeStartupScript base;
     GetCloudInitUserData := GetCloudInitUserData base;
     GetCloudInitMetaData := GetCloudInitMetaData base;
     GetCloudProviderConfigConfig := GetCloudProviderConfigConfig base;
     url_Parse := url_Parse base; base64 := base64 base |}.

Definition with_UserSession (base : Env) (answer : option error) : Env :=
  {| sessionFromProviderConfig := sessionFromProviderConfig base;
     UserSession := answer; FindByUuid := FindByUuid base;
     RetrieveOne := RetrieveOne base; DatacenterOrDefault := DatacenterOrDefault base;
     finder_VirtualMachine := finder_VirtualMachine base;
     HostSystem := HostSystem base; Host_Properties := Host_Properties base;
     VM_Properties := VM_Properties base; FolderOrDefault := FolderOrDefault base;
     DatastoreOrDefault := DatastoreOrDefault base;
     ResourcePoolOrDefault := ResourcePoolOrDefault base;
     Host_ResourcePool := Host_ResourcePool base;
     ResourcePool_Create := ResourcePool_Create base;
     finder_Network := finder_Network base;
     EthernetCardBackingInfo := EthernetCardBackingInfo base; Clone := Clone base;
     Update_err := Update_err base; UpdateStatus_err := UpdateStatus_err base;
     now := now base; ClusterIsNullErr := ClusterIsNullErr base;
     CreateEventAction := CreateEventAction base; IsValidUUID := IsValidUUID base;
     GetNextBackOff := GetNextBackOff base;
     IsControlPlaneMachine := IsControlPlaneMachine base;
     ParseSemantic := ParseSemantic base; GetSSHPublicKey := GetSSHPublicKey base;
     GetKubeadmToken := GetKubeadmToken base;
     GetMasterStartupScript := GetMasterStartupScript base;
     GetNodeStartupScript := GetNodeStartupScript base;
     GetCloudInitUserData := GetCloudInitUserData base;
     GetCloudInitMetaData := GetCloudInitMetaData base;
     GetCloudProviderConfigConfig := GetCloudProviderConfigConfig base;
     url_Parse := url_Parse base; base64 := base64 base |}.

Definition with_FindByUuid (base : Env) (answer : option string -> string -> error + option MoRef) : Env :=
  {| sessionFromProviderConfig := sessionFromProviderConfig base;
     UserSession := UserSession base; FindByUuid := answer;
     RetrieveOne := RetrieveOne base; DatacenterOrDefault := DatacenterOrDefault base;
     finder_VirtualMachine := finder_VirtualMachine base;
     HostSystem := HostSystem base; Host_Properties := Host_Properties base;
     VM_Properties := VM_Properties base; FolderOrDefault := FolderOrDefault base;
     DatastoreOrDefault := DatastoreOrDefault base;
     ResourcePoolOrDefault := ResourcePoolOrDefault base;
     Host_ResourcePool := Host_ResourcePool base;
     ResourcePool_Create := ResourcePool_Create base;
     finder_Network := finder_Network base;
     EthernetCardBackingInfo := EthernetCardBackingInfo base; Clone := Clone base;
     Update_err := Update_err base; UpdateStatus_err := UpdateStatus_err base;
     now := now base; ClusterIsNullErr := ClusterIsNullErr base;
     CreateEventAction := CreateEventAction base; IsValidUUID := IsValidUUID base;
     GetNextBackOff := GetNextBackOff base;
     IsControlPlaneMachine := IsControlPlaneMachine base;
     ParseSemantic := ParseSemantic base; GetSSHPublicKey := GetSSHPublicKey base;
     GetKubeadmToken := GetKubeadmToken base;
     GetMasterStartupScript := GetMasterStartupScript base;
     GetNodeStartupScript := GetNodeStartupScript base;
     GetCloudInitUserData := GetCloudInitUserData base;
     GetCloudInitMetaData := GetCloudInitMetaData base;
     GetCloudProviderConfigConfig := GetCloudProviderConfigConfig base;
     url_Parse := url_Parse base; base64 := base64 base |}.

Definition with_IsValidUUID (base : Env) (answer : string -> bool) : Env :=
  {| sessionFromProviderConfig := sessionFromProviderConfig base;
     UserSession := UserSession base; FindByUuid := FindByUuid base;
     RetrieveOne := RetrieveOne base; DatacenterOrDefault := DatacenterOrDefault base;
     finder_VirtualMachine := finder_VirtualMachine base;
     HostSystem := HostSystem base; Host_Properties := Host_Properties base;
     VM_Properties := VM_Properties base; FolderOrDefault := FolderOrDefault base;
     DatastoreOrDefault := DatastoreOrDefault base;
     ResourcePoolOrDefault := ResourcePoolOrDefault base;
     Host_ResourcePool := Host_ResourcePool base;
     ResourcePool_Create := ResourcePool_Create base;
     finder_Network := finder_Network base;
     EthernetCardBackingInfo := EthernetCardBackingInfo base; Clone := Clone base;
     Update_err := Update_err base; UpdateStatus_err := UpdateStatus_err base;
     now := now base; ClusterIsNullErr := ClusterIsNullErr base;
     CreateEventAction := CreateEventAction base; IsValidUUID := answer;
     GetNextBackOff := GetNextBackOff base;
     IsControlPlaneMachine := IsControlPlaneMachine base;
     ParseSemantic := ParseSemantic base; GetSSHPublicKey := GetSSHPublicKey base;
     GetKubeadmToken := GetKubeadmToken base;
     GetMasterStartupScript := GetMasterStartupScript base;
     GetNodeStartupScript := GetNodeStartupScript base;
     GetCloudInitUserData := GetCloudInitUserData base;
     GetCloudInitMetaData := GetCloudInitMetaData base;
     GetCloudProviderConfigConfig := GetCloudProviderConfigConfig base;
     url_Parse := url_Parse base; base64 := base64 base |}.

Definition with_finder_VirtualMachine (base : Env) (answer : string -> error + MoRef) : Env :=
  {| sessionFromProviderConfig := sessionFromProviderConfig base;
     UserSession := UserSession base; FindByUuid := FindByUuid base;
     RetrieveOne := RetrieveOne base; DatacenterOrDefault := DatacenterOrDefault base;
     finder_VirtualMachine := answer; HostSystem := HostSystem base;
     Host_Properties := Host_Properties base; VM_Properties := VM_Properties base;
     FolderOrDefault := FolderOrDefault base;
     DatastoreOrDefault := DatastoreOrDefault base;
     ResourcePoolOrDefault := ResourcePoolOrDefault base;
     Host_ResourcePool := Host_ResourcePool base;
     ResourcePool_Create := ResourcePool_Create base;
     finder_Network := finder_Network base;
     EthernetCardBackingInfo := EthernetCardBackingInfo base; Clone := Clone base;
     Update_err := Update_err base; UpdateStatus_err := UpdateStatus_err base;
     now := now base; ClusterIsNullErr := ClusterIsNullErr base;
     CreateEventAction := CreateEventAction base; IsValidUUID := IsValidUUID base;
     GetNextBackOff := GetNextBackOff base;
     IsControlPlaneMachine := IsControlPlaneMachine base;
     ParseSemantic := ParseSemantic base; GetSSHPublicKey := GetSSHPublicKey base;
     GetKubeadmToken := GetKubeadmToken base;
     GetMasterStartupScript := GetMasterStartupScript base;
     GetNodeStartupScript := GetNodeStartupScript base;
     GetCloudInitUserData := GetCloudInitUserData base;
     GetCloudInitMetaData := GetCloudInitMetaData base;
     GetCloudProviderConfigConfig := GetCloudProviderConfigConfig base;
     url_Parse := url_Parse base; base64 := base64 base |}.

Definition with_ResourcePoolOrDefault (base : Env) (answer : string -> error + MoRef) : Env :=
  {| sessionFromProviderConfig := sessionFromProviderConfig base;
     UserSession := UserSession base; FindByUuid := FindByUuid base;
     RetrieveOne := RetrieveOne base; DatacenterOrDefault := DatacenterOrDefault base;
     finder_VirtualMachine := finder_VirtualMachine base;
     HostSystem := HostSystem base; Host_Properties := Host_Properties base;
     VM_Properties := VM_Properties base; FolderOrDefault := FolderOrDefault base;
     DatastoreOrDefault := DatastoreOrDefault base; ResourcePoolOrDefault := answer;
     Host_ResourcePool := Host_ResourcePool base;
     ResourcePool_Create := ResourcePool_Create base;
     finder_Network := finder_Network base;
     EthernetCardBackingInfo := EthernetCardBackingInfo base; Clone := Clone base;
     Update_err := Update_err base; UpdateStatus_err := UpdateStatus_err base;
     now := now base; ClusterIsNullErr := ClusterIsNullErr base;
     CreateEventAction := CreateEventAction base; IsValidUUID := IsValidUUID base;
     GetNextBackOff := GetNextBackOff base;
     IsControlPlaneMachine := IsControlPlaneMachine base;
     ParseSemantic := ParseSemantic base; GetSSHPublicKey := GetSSHPublicKey base;
     GetKubeadmToken := GetKubeadmToken base;
     GetMasterStartupScript := GetMasterStartupScript base;
     GetNodeStartupScript := GetNodeStartupScript base;
     GetCloudInitUserData := GetCloudInitUserData base;
     GetCloudInitMetaData := GetCloudInitMetaData base;
     GetCloudProviderConfigConfig := GetCloudProviderConfigConfig base;
     url_Parse := url_Parse base; base64 := base64 base |}.

Definition with_Host_ResourcePool (base : Env) (answer : MoRef -> error + MoRef) : Env :=
  {| sessionFromProviderConfig := sessionFromProviderConfig base;
     UserSession := UserSession base; FindByUuid := FindByUuid base;
     RetrieveOne := RetrieveOne base; DatacenterOrDefault := DatacenterOrDefault base;
     finder_VirtualMachine := finder_VirtualMachine base;
     HostSystem := HostSystem base; Host_Properties := Host_Properties base;
     VM_Properties := VM_Properties base; FolderOrDefault := FolderOrDefault base;
     DatastoreOrDefault := DatastoreOrDefault base;
     ResourcePoolOrDefault := ResourcePoolOrDefault base; Host_ResourcePool := answer;
     ResourcePool_Create := ResourcePool_Create base;
     finder_Network := finder_Network base;
     EthernetCardBackingInfo := EthernetCardBackingInfo base; Clone := Clone base;
     Update_err := Update_err base; UpdateStatus_err := UpdateStatus_err base;
     now := now base; ClusterIsNullErr := ClusterIsNullErr base;
     CreateEventAction := CreateEventAction base; IsValidUUID := IsValidUUID base;
     GetNextBackOff := GetNextBackOff base;
     IsControlPlaneMachine := IsControlPlaneMachine base;
     ParseSemantic := ParseSemantic base; GetSSHPublicKey := GetSSHPublicKey base;
     GetKubeadmToken := GetKubeadmToken base;
     GetMasterStartupScript := GetMasterStartupScript base;
     GetNodeStartupScript := GetNodeStartupScript base;
     GetCloudInitUserData := GetCloudInitUserData base;
     GetCloudInitMetaData := GetCloudInitMetaData base;
     GetCloudProviderConfigConfig := GetCloudProviderConfigConfig base;
     url_Parse := url_Parse base; base64 := base64 base |}.

Definition with_ResourcePool_Create (base : Env) (answer : MoRef -> string -> error + MoRef) : Env :=
  {| sessionFromProviderConfig := sessionFromProviderConfig base;
     UserSession := UserSession base; FindByUuid := FindByUuid base;
     RetrieveOne := RetrieveOne base; DatacenterOrDefault := DatacenterOrDefault base;
     finder_VirtualMachine := finder_VirtualMachine base;
     HostSystem := HostSystem base; Host_Properties := Host_Properties base;
     VM_Properties := VM_Properties base; FolderOrDefault := FolderOrDefault base;
     DatastoreOrDefault := DatastoreOrDefault base;
     ResourcePoolOrDefault := ResourcePoolOrDefault base;
     Host_ResourcePool := Host_ResourcePool base; ResourcePool_Create := answer;
     finder_Network := finder_Network base;
     EthernetCardBackingInfo := EthernetCardBackingInfo base; Clone := Clone base;
     Update_err := Update_err base; UpdateStatus_err := UpdateStatus_err base;
     now := now base; ClusterIsNullErr := ClusterIsNullErr base;
     CreateEventAction := CreateEventAction base; IsValidUUID := IsValidUUID base;
     GetNextBackOff := GetNextBackOff base;
     IsControlPlaneMachine := IsControlPlaneMachine base;
     ParseSemantic := ParseSemantic base; GetSSHPublicKey := GetSSHPublicKey base;
     GetKubeadmToken := GetKubeadmToken base;
     GetMasterStartupScript := GetMasterStartupScript base;
     GetNodeStartupScript := GetNodeStartupScript base;
     GetCloudInitUserData := GetCloudInitUserData base;
     GetCloudInitMetaData := GetCloudInitMetaData base;
     GetCloudProviderConfigConfig := GetCloudProviderConfigConfig base;
     url_Parse := url_Parse base; base64 := base64 base |}.

Definition with_finder_Network (base : Env) (answer : string -> error + string) : Env :=
  {| sessionFromProviderConfig := sessionFromProviderConfig base;
     UserSession := UserSession base; FindByUuid := FindByUuid base;
     RetrieveOne := RetrieveOne base; DatacenterOrDefault := DatacenterOrDefault base;
     finder_VirtualMachine := finder_VirtualMachine base;
     HostSystem := HostSystem base; Host_Properties := Host_Properties base;
     VM_Properties := VM_Properties base; FolderOrDefault := FolderOrDefault base;
     DatastoreOrDefault := DatastoreOrDefault base;
     ResourcePoolOrDefault := ResourcePoolOrDefault base;
     Host_ResourcePool := Host_ResourcePool base;
     ResourcePool_Create := ResourcePool_Create base; finder_Network := answer;
     EthernetCardBackingInfo := EthernetCardBackingInfo base; Clone := Clone base;
     Update_err := Update_err base; UpdateStatus_err := UpdateStatus_err base;
     now := now base; ClusterIsNullErr := ClusterIsNullErr base;
     CreateEventAction := CreateEventAction base; IsValidUUID := IsValidUUID base;
     GetNextBackOff := GetNextBackOff base;
     IsControlPlaneMachine := IsControlPlaneMachine base;
     ParseSemantic := ParseSemantic base; GetSSHPublicKey := GetSSHPublicKey base;
     GetKubeadmToken := GetKubeadmToken base;
     GetMasterStartupScript := GetMasterStartupScript base;
     GetNodeStartupScript := GetNodeStartupScript base;
     GetCloudInitUserData := GetCloudInitUserData base;
     GetCloudInitMetaData := GetCloudInitMetaData base;
     GetCloudProviderConfigConfig := GetCloudProviderConfigConfig base;
     url_Parse := url_Parse base; base64 := base64 base |}.

Definition with_EthernetCardBackingInfo (base : Env) (answer : string -> error + string) : Env :=
  {| sessionFromProviderConfig := sessionFromProviderConfig base;
     UserSession := UserSession base; FindByUuid := FindByUuid base;
     RetrieveOne := RetrieveOne base; DatacenterOrDefault := DatacenterOrDefault base;
     finder_VirtualMachine := finder_VirtualMachine base;
     HostSystem := HostSystem base; Host_Properties := Host_Properties base;
     VM_Properties := VM_Properties base; FolderOrDefault := FolderOrDefault base;
     DatastoreOrDefault := DatastoreOrDefault base;
     ResourcePoolOrDefault := ResourcePoolOrDefault base;
     Host_ResourcePool := Host_ResourcePool base;
     ResourcePool_Create := ResourcePool_Create base;
     finder_Network := finder_Network base; EthernetCardBackingInfo := answer;
     Clone := Clone base; Update_err := Update_err base;
     UpdateStatus_err := UpdateStatus_err base; now := now base;
     ClusterIsNullErr := ClusterIsNullErr base;
     CreateEventAction := CreateEventAction base; IsValidUUID := IsValidUUID base;
     GetNextBackOff := GetNextBackOff base;
     IsControlPlaneMachine := IsControlPlaneMachine base;
     ParseSemantic := ParseSemantic base; GetSSHPublicKey := GetSSHPublicKey base;
     GetKubeadmToken := GetKubeadmToken base;
     GetMasterStartupScript := GetMasterStartupScript base;
     GetNodeStartupScript := GetNodeStartupScript base;
     GetCloudInitUserData := GetCloudInitUserData base;
     GetCloudInitMetaData := GetCloudInitMetaData base;
     GetCloudProviderConfigConfig := GetCloudProviderConfigConfig base;
     url_Parse := url_Parse base; base64 := base64 base |}.

Definition with_Clone (base : Env) (answer : MoRef -> MoRef -> string -> types.VirtualMachineCloneSpec -> error + MoRef) : Env :=
  {| sessionFromProviderConfig := sessionFromProviderConfig base;
     UserSession := UserSession base; FindByUuid := FindByUuid base;
     RetrieveOne := RetrieveOne base; DatacenterOrDefault := DatacenterOrDefault base;
     finder_VirtualMachine := finder_VirtualMachine base;
     HostSystem := HostSystem base; Host_Properties := Host_Properties base;
     VM_Properties := VM_Properties base; FolderOrDefault := FolderOrDefault base;
     DatastoreOrDefault := DatastoreOrDefault base;
     ResourcePoolOrDefault := ResourcePoolOrDefault base;
     Host_ResourcePool := Host_ResourcePool base;
     ResourcePool_Create := ResourcePool_Create base;
     finder_Network := finder_Network base;
     EthernetCardBackingInfo := EthernetCardBackingInfo base; Clone := answer;
     Update_err := Update_err base; UpdateStatus_err := UpdateStatus_err base;
     now := now base; ClusterIsNullErr := ClusterIsNullErr base;
     CreateEventAction := CreateEventAction base; IsValidUUID := IsValidUUID base;
     GetNextBackOff := GetNextBackOff base;
     IsControlPlaneMachine := IsControlPlaneMachine base;
     ParseSemantic := ParseSemantic base; GetSSHPublicKey := GetSSHPublicKey base;
     GetKubeadmToken := GetKubeadmToken base;
     GetMasterStartupScript := GetMasterStartupScript base;
     GetNodeStartupScript := GetNodeStartupScript base;
     GetCloudInitUserData := GetCloudInitUserData base;
     GetCloudInitMetaData := GetCloudInitMetaData base;
     GetCloudProviderConfigConfig := GetCloudProviderConfigConfig base;
     url_Parse := url_Parse base; base64 := base64 base |}.

Definition with_Update_err (base : Env) (answer : clusterv1.Machine -> option error) : Env :=
  {| sessionFromProviderConfig := sessionFromProviderConfig base;
     UserSession := UserSession base; FindByUuid := FindByUuid base;
     RetrieveOne := RetrieveOne base; DatacenterOrDefault := DatacenterOrDefault base;
     finder_VirtualMachine := finder_VirtualMachine base;
     HostSystem := HostSystem base; Host_Properties := Host_Properties base;
     VM_Properties := VM_Properties base; FolderOrDefault := FolderOrDefault base;
     DatastoreOrDefault := DatastoreOrDefault base;
     ResourcePoolOrDefault := ResourcePoolOrDefault base;
     Host_ResourcePool := Host_ResourcePool base;
     ResourcePool_Create := ResourcePool_Create base;
     finder_Network := finder_Network base;
     EthernetCardBackingInfo := EthernetCardBackingInfo base; Clone := Clone base;
     Update_err := answer; UpdateStatus_err := UpdateStatus_err base; now := now base;
     ClusterIsNullErr := ClusterIsNullErr base;
     CreateEventAction := CreateEventAction base; IsValidUUID := IsValidUUID base;
     GetNextBackOff := GetNextBackOff base;
     IsControlPlaneMachine := IsControlPlaneMachine base;
     ParseSemantic := ParseSemantic base; GetSSHPublicKey := GetSSHPublicKey base;
     GetKubeadmToken := GetKubeadmToken base;
     GetMasterStartupScript := GetMasterStartupScript base;
     GetNodeStartupScript := GetNodeStartupScript base;
     GetCloudInitUserData := GetCloudInitUserData base;
     GetCloudInitMetaData := GetCloudInitMetaData base;
     GetCloudProviderConfigConfig := GetCloudProviderConfigConfig base;
     url_Parse := url_Parse base; base64 := base64 base |}.

Definition with_UpdateStatus_err (base : Env) (answer : clusterv1.Machine -> option error) : Env :=
  {| sessionFromProviderConfig := sessionFromProviderConfig base;
     UserSession := UserSession base; FindByUuid := FindByUuid base;
     RetrieveOne := RetrieveOne base; DatacenterOrDefault := DatacenterOrDefault base;
     finder_VirtualMachine := finder_VirtualMachine base;
     HostSystem := HostSystem base; Host_Properties := Host_Properties base;
     VM_Properties := VM_Properties base; FolderOrDefault := FolderOrDefault base;
     DatastoreOrDefault := DatastoreOrDefault base;
     ResourcePoolOrDefault := ResourcePoolOrDefault base;
     Host_ResourcePool := Host_ResourcePool base;
     ResourcePool_Create := ResourcePool_Create base;
     finder_Network := finder_Network base;
     EthernetCardBackingInfo := EthernetCardBackingInfo base; Clone := Clone base;
     Update_err := Update_err base; UpdateStatus_err := answer; now := now base;
     ClusterIsNullErr := ClusterIsNullErr base;
     CreateEventAction := CreateEventAction base; IsValidUUID := IsValidUUID base;
     GetNextBackOff := GetNextBackOff base;
     IsControlPlaneMachine := IsControlPlaneMachine base;
     ParseSemantic := ParseSemantic base; GetSSHPublicKey := GetSSHPublicKey base;
     GetKubeadmToken := GetKubeadmToken base;
     GetMasterStartupScript := GetMasterStartupScript base;
     GetNodeStartupScript := GetNodeStartupScript base;
     GetCloudInitUserData := GetCloudInitUserData base;
     GetCloudInitMetaData := GetCloudInitMetaData base;
     GetCloudProviderConfigConfig := GetCloudProviderConfigConfig base;
     url_Parse := url_Parse base; base64 := base64 base |}.

Definition with_GetKubeadmToken (base : Env) (answer : clusterv1.Cluster -> error + string) : Env :=
  {| sessionFromProviderConfig := sessionFromProviderConfig base;
     UserSession := UserSession base; FindByUuid := FindByUuid base;
     RetrieveOne := RetrieveOne base; DatacenterOrDefault := DatacenterOrDefault base;
     finder_VirtualMachine := finder_VirtualMachine base;
     HostSystem := HostSystem base; Host_Properties := Host_Properties base;
     VM_Properties := VM_Properties base; FolderOrDefault := FolderOrDefault base;
     DatastoreOrDefault := DatastoreOrDefault base;
     ResourcePoolOrDefault := ResourcePoolOrDefault base;
     Host_ResourcePool := Host_ResourcePool base;
     ResourcePool_Create := ResourcePool_Create base;
     finder_Network := finder_Network base;
     EthernetCardBackingInfo := EthernetCardBackingInfo base; Clone := Clone base;
     Update_err := Update_err base; UpdateStatus_err := UpdateStatus_err base;
     now := now base; ClusterIsNullErr := ClusterIsNullErr base;
     CreateEventAction := CreateEventAction base; IsValidUUID := IsValidUUID base;
     GetNextBackOff := GetNextBackOff base;
     IsControlPlaneMachine := IsControlPlaneMachine base;
     ParseSemantic := ParseSemantic base; GetSSHPublicKey := GetSSHPublicKey base;
     GetKubeadmToken := answer; GetMasterStartupScript := GetMasterStartupScript base;
     GetNodeStartupScript := GetNodeStartupScript base;
     GetCloudInitUserData := GetCloudInitUserData base;
     GetCloudInitMetaData := GetCloudInitMetaData base;
     GetCloudProviderConfigConfig := GetCloudProviderConfigConfig base;
     url_Parse := url_Parse base; base64 := base64 base |}.

Definition with_GetSSHPublicKey (base : Env) (answer : clusterv1.Cluster -> error + string) : Env :=
  {| sessionFromProviderConfig := sessionFromProviderConfig base;
     UserSession := UserSession base; FindByUuid := FindByUuid base;
     RetrieveOne := RetrieveOne base; DatacenterOrDefault := DatacenterOrDefault base;
     finder_VirtualMachine := finder_VirtualMachine base;
     HostSystem := HostSystem base; Host_Properties := Host_Properties base;
     VM_Properties := VM_Properties base; FolderOrDefault := FolderOrDefault base;
     DatastoreOrDefault := DatastoreOrDefault base;
     ResourcePoolOrDefault := ResourcePoolOrDefault base;
     Host_ResourcePool := Host_ResourcePool base;
     ResourcePool_Create := ResourcePool_Create base;
     finder_Network := finder_Network base;
     EthernetCardBackingInfo := EthernetCardBackingInfo base; Clone := Clone base;
     Update_err := Update_err base; UpdateStatus_err := UpdateStatus_err base;
     now := now base; ClusterIsNullErr := ClusterIsNullErr base;
     CreateEventAction := CreateEventAction base; IsValidUUID := IsValidUUID base;
     GetNextBackOff := GetNextBackOff base;
     IsControlPlaneMachine := IsControlPlaneMachine base;
     ParseSemantic := ParseSemantic base; GetSSHPublicKey := answer;
     GetKubeadmToken := GetKubeadmToken base;
     GetMasterStartupScript := GetMasterStartupScript base;
     GetNodeStartupScript := GetNodeStartupScript base;
     GetCloudInitUserData := GetCloudInitUserData base;
     GetCloudInitMetaData := GetCloudInitMetaData base;
     GetCloudProviderConfigConfig := GetCloudProviderConfigConfig base;
     url_Parse := url_Parse base; base64 := base64 base |}.

Definition with_VM_Properties (base : Env) (answer : MoRef -> error + mo.VirtualMachine) : Env :=
  {| sessionFromProviderConfig := sessionFromProviderConfig base;
     UserSession := UserSession base; FindByUuid := FindByUuid base;
     RetrieveOne := RetrieveOne base; DatacenterOrDefault := DatacenterOrDefault base;
     finder_VirtualMachine := finder_VirtualMachine base;
     HostSystem := HostSystem base; Host_Properties := Host_Properties base;
     VM_Properties := answer; FolderOrDefault := FolderOrDefault base;
     DatastoreOrDefault := DatastoreOrDefault base;
     ResourcePoolOrDefault := ResourcePoolOrDefault base;
     Host_ResourcePool := Host_ResourcePool base;
     ResourcePool_Create := ResourcePool_Create base;
     finder_Network := finder_Network base;
     EthernetCardBackingInfo := EthernetCardBackingInfo base; Clone := Clone base;
     Update_err := Update_err base; UpdateStatus_err := UpdateStatus_err base;
     now := now base; ClusterIsNullErr := ClusterIsNullErr base;
     CreateEventAction := CreateEventAction base; IsValidUUID := IsValidUUID base;
     GetNextBackOff := GetNextBackOff base;
     IsControlPlaneMachine := IsControlPlaneMachine base;
     ParseSemantic := ParseSemantic base; GetSSHPublicKey := GetSSHPublicKey base;
     GetKubeadmToken := GetKubeadmToken base;
     GetMasterStartupScript := GetMasterStartupScript base;
     GetNodeStartupScript := GetNodeStartupScript base;
     GetCloudInitUserData := GetCloudInitUserData base;
     GetCloudInitMetaData := GetCloudInitMetaData base;
     GetCloudProviderConfigConfig := GetCloudProviderConfigConfig base;
     url_Parse := url_Parse base; base64 := base64 base |}.

End Variant.

(** ** The assumptions on the collaborators *)

(** The session with the platform is established. *)
Definition sessionOk (env : Env) : Prop :=
  sessionFromProviderConfig env = None /\ UserSession env = None.

(** The API server accepts the writes. *)
Definition storeAccepts (env : Env) : Prop :=
  (forall m, Update_err env m = None) /\ (forall m, UpdateStatus_err env m = None).

(** The provisioner holds a client and an event recorder. *)
Definition wired (pv : Provisioner) : Prop :=
  clusterV1alpha1 pv = true /\ eventRecorder pv = true.

(** The machine stores the Task Reference [task]. *)
Definition tracks (machine : clusterv1.Machine) (task : string) : Prop :=
  vsphereutils.GetActiveTasks machine = task /\ task <> "".

(** The status that [setTaskRef] writes. *)
Definition statusWith (env : Env) (taskref : string) : clusterv1.RawProviderStatus :=
  clusterv1.StatusOf {| vsphereconfigv1.TaskRef := taskref;
                        vsphereconfigv1.LastUpdated := now env |}.

(** The machine with [vmref] as its MachineRef, as [updateVMReference]
    builds it. *)
Definition withMachineRef (machine : clusterv1.Machine)
    (c : vsphereconfigv1.VsphereMachineProviderConfig) (vmref : string) : clusterv1.Machine :=
  clusterv1.withProviderSpec machine
    (clusterv1.SpecOf
       {| vsphereconfigv1.Kind := vsphereconfigv1.KindName;
          vsphereconfigv1.APIVersion := vsphereconfigv1.SchemeGroupVersion;
          vsphereconfigv1.MachineRef := vmref;
          vsphereconfigv1.MachineSpec := vsphereconfigv1.MachineSpec c |}).

(** The Instance Reference that a machine object carries. *)
Definition instanceRef (m : clusterv1.Machine) : string :=
  match vsphereutils.GetMachineProviderSpec (clusterv1.ProviderSpec m) with
  | inr c => vsphereconfigv1.MachineRef c
  | inl _ => ""
  end.

Definition createdEvent (machine : clusterv1.Machine) (vmref : string) : Event :=
  {| eventtype := EventTypeNormal; reason := "Created";
     message := "Created Machine " +:+ clusterv1.Name machine +:+ "(" +:+ vmref +:+ ")" |}.

Definition failedEvent (machine : clusterv1.Machine) : Event :=
  {| eventtype := EventTypeNormal; reason := "Failed";
     message := "Creation failed for Machine " +:+ clusterv1.Name machine |}.

(** A failed state query handed back to the caller: the call returns an
    error and the Task Reference [task] is still stored. *)
Definition failureReturned (r : outcome unit * World) (task : string) : Prop :=
  (exists e, fst r = Raise e) /\ vsphereutils.GetActiveTasks (store (snd r)) = task.

(** One invocation by the scheduler: the machine object is the one that the
    API server holds. *)
Definition reconcile (pv : Provisioner) (env : Env) (cluster : option clusterv1.Cluster)
  : M unit :=
  fun w => Create pv env cluster (store w) w.

(** Successive invocations, each with the answers of its own time. *)
Definition reconcileAll (pv : Provisioner) (cluster : option clusterv1.Cluster)
    (envs : list Env) (w : World) : World :=
  foldl (fun w env => snd (reconcile pv env cluster w)) w envs.

(** The calls that leave the stored machine, the events and the submitted
    clones as they are. *)
Definition quiet {A} (m : M A) : Prop :=
  forall w r w', m w = (r, w') ->
    store w' = store w /\ events w' = events w /\ clones w' = clones w.

(** The removal entry of a network adapter of the template. *)
Definition removalOf (dev : types.VirtualDevice) : types.VirtualDeviceConfigSpec :=
  {| types.Operation := types.VirtualDeviceConfigSpecOperationRemove;
     types.Device :=
       match types.Class dev with
       | types.VirtualEthernetCard _ backing => GetVirtualEthernetCard dev backing
       | _ => dev
       end |}.

Definition isAdd (d : types.VirtualDeviceConfigSpec) : bool :=
  match types.Operation d with types.VirtualDeviceConfigSpecOperationAdd => true | _ => false end.

Definition isRemove (d : types.VirtualDeviceConfigSpec) : bool :=
  match types.Operation d with types.VirtualDeviceConfigSpecOperationRemove => true | _ => false end.

Definition isEdit (d : types.VirtualDeviceConfigSpec) : bool :=
  match types.Operation d with types.VirtualDeviceConfigSpecOperationEdit => true | _ => false end.

Definition deviceKey (d : types.VirtualDeviceConfigSpec) : Z := types.Key (types.Device d).

(** The keys [-100, -101, ...] of [n] added adapters, from [first] down. *)
Definition keysFrom (first : Z) (n : nat) : list Z :=
  (fun i => first - Z.of_nat i) <$> seq 0 n.

(** Every configured network resolves to a backing. *)
Definition networksResolve (env : Env) (networks : list vsphereconfigv1.NetworkSpec) : Prop :=
  Forall (fun n => exists netRef backing,
            finder_Network env (vsphereconfigv1.NetworkName n) = inr netRef
            /\ EthernetCardBackingInfo env netRef = inr backing) networks.

(** The disk [dev] of capacity [cap] carries a label for which the
    directives ask [newSize] GiB. *)
Definition directiveFor (ms : vsphereconfigv1.VsphereMachineSpec)
    (dev : types.VirtualDevice) (cap newSize : Z) : Prop :=
  types.Class dev = types.VirtualDisk cap
  /\ diskMap (vsphereconfigv1.Disks ms) !! types.Label dev = Some newSize.

(** The event of a reconfigure operation that succeeded. *)
Definition reconfiguredEvent (info : types.TaskInfo) : Event :=
  {| eventtype := EventTypeNormal; reason := "Reconfigured";
     message := "Reconfigured Machine " +:+ types.EntityName info |}.

(** The event that precedes a clone request. *)
Definition creatingEvent (machine : clusterv1.Machine) : Event :=
  {| eventtype := EventTypeNormal; reason := "Creating";
     message := "Creating Machine " +:+ clusterv1.Name machine |}.

(** The clone request of [machine] with the resolved [inputs], as the
    platform accepted it under [task]. *)
Definition cloneCall (machine : clusterv1.Machine) (inputs : CloneInputs)
    (spec : types.VirtualMachineCloneSpec) (task : MoRef) : CloneCall :=
  {| clone_src := in_src inputs; clone_folder := in_vmFolder inputs;
     clone_name := clusterv1.Name machine; clone_spec := spec; clone_task := task |}.

(** The edit entry that resizes the disk [dev] to [newSize] GiB. *)
Definition editOf (dev : types.VirtualDevice) (newSize : Z) : types.VirtualDeviceConfigSpec :=
  {| types.Operation := types.VirtualDeviceConfigSpecOperationEdit;
     types.Device := withCapacity dev (vsphereutils.GiBToByte newSize) |}.

(** One edit entry for every disk whose label has a directive, in the
    order of the disks. *)
Definition editsOf (dm : gmap string Z) (disks : list types.VirtualDevice)
  : list types.VirtualDeviceConfigSpec :=
  omap (fun dev => editOf dev <$> dm !! types.Label dev) disks.

(** The network [n] resolves to the backing [backing]. *)
Definition resolvesTo (env : Env) (n : vsphereconfigv1.NetworkSpec) (backing : string) : Prop :=
  exists netRef, finder_Network env (vsphereconfigv1.NetworkName n) = inr netRef
                 /\ EthernetCardBackingInfo env netRef = inr backing.

(** The network [n] does not resolve, with the error [err]. *)
Definition failsWith (env : Env) (n : vsphereconfigv1.NetworkSpec) (err : error) : Prop :=
  finder_Network env (vsphereconfigv1.NetworkName n) = inl err
  \/ exists netRef, finder_Network env (vsphereconfigv1.NetworkName n) = inr netRef
                    /\ EthernetCardBackingInfo env netRef = inl err.

(** The value that the OVF mode gives to the property [p]. *)
Definition vAppValue (p : types.VAppPropertyInfo) (userData publicKey hostname : string)
  : string :=
  if bool_decide (types.Id p = "hostname") then hostname
  else if bool_decide (types.Id p = "public-keys") then publicKey
  else if bool_decide (types.Id p = "user-data") then userData
  else if bool_decide (types.DefaultValue p <> "") then types.DefaultValue p
  else " ".

(** The calls that submit no clone and create no resource pool. *)
Definition submitsNothing {A} (m : M A) : Prop :=
  forall w r w', m w = (r, w') -> clones w' = clones w /\ pools w' = pools w.

(** The build of the clone request of [machine] goes through: the inputs
    resolve to [inputs], the device changes are [specs], and the platform
    accepts the request under [task]. *)
Definition cloneGoesThrough (env : Env) (cluster : clusterv1.Cluster)
    (machine : clusterv1.Machine) (w : World) (inputs : CloneInputs) (w1 : World)
    (specs : list types.VirtualDeviceConfigSpec) (task : MoRef) : Prop :=
  cloneInputs env cluster machine w = (Return inputs, w1)
  /\ deviceChanges env (in_ms inputs) (mo.Device (in_vmProps inputs)) w1 = (Return specs, w1)
  /\ Clone env (in_src inputs) (in_vmFolder inputs) (clusterv1.Name machine)
       (cloneSpec cluster machine inputs specs) = inr task.

(** The machine stores no Task Reference, in a status that is absent or
    decodes. *)
Definition untracked (machine : clusterv1.Machine) : Prop :=
  vsphereutils.GetActiveTasks machine = ""
  /\ forall e, clusterv1.ProviderStatus machine <> clusterv1.StatusUndecodable e.

(** The world in which the "Creating" event was recorded, if there is a
    recorder. *)
Definition announced (pv : Provisioner) (machine : clusterv1.Machine) (w : World) : World :=
  if eventRecorder pv then addEvent w (creatingEvent machine) else w.

(** The property that the OVF mode sends for the property [p] of the
    template. *)
Definition vAppSpecOf (userData publicKey hostname : string) (p : types.VAppPropertyInfo)
  : types.VAppPropertySpec :=
  {| types.ArrayUpdateOperation := types.ArrayUpdateOperationEdit;
     types.Info := {| types.PropKey := types.PropKey p;
                      types.Id := types.Id p;
                      types.DefaultValue := "";
                      types.PropValue := vAppValue p userData publicKey hostname |} |}.

(** The four extra configuration entries of the cloud-init datasource. *)
Definition guestinfo (userData metaData : string) : list types.OptionValue :=
  [ {| types.OptKey := "guestinfo.metadata"; types.OptValue := metaData |};
    {| types.OptKey := "guestinfo.metadata.encoding"; types.OptValue := "base64" |};
    {| types.OptKey := "guestinfo.userdata"; types.OptValue := userData |};
    {| types.OptKey := "guestinfo.userdata.encoding"; types.OptValue := "base64" |} ].

(** A worker cannot join yet: the status of the cluster is absent or not
    ready, or no kubeadm token can be had. *)
Definition workerMustWait (env : Env) (cluster : clusterv1.Cluster) : Prop :=
  vsphereutils.GetClusterProviderStatus cluster = inr None
  \/ vsphereutils.GetClusterProviderStatus cluster = inr (Some false)
  \/ (vsphereutils.GetClusterProviderStatus cluster = inr (Some true)
      /\ exists e, GetKubeadmToken env cluster = inl e).

(** No directive asks for less than the capacity of its disk, among the
    devices [l]. *)
Definition noShrink (ms : vsphereconfigv1.VsphereMachineSpec)
    (l : list types.VirtualDevice) : Prop :=
  forall dev cap n, In dev l -> directiveFor ms dev cap n -> cap <= vsphereutils.GiBToByte n.

(** There is no directive, or one of them names a disk among [l]. *)
Definition someDirectiveMatches (ms : vsphereconfigv1.VsphereMachineSpec)
    (l : list types.VirtualDevice) : Prop :=
  vsphereconfigv1.Disks ms = []
  \/ exists dev, In dev l /\ isVirtualDisk dev = true
                 /\ is_Some (diskMap (vsphereconfigv1.Disks ms) !! types.Label dev).

(** The calls that create no resource pool, and those that create at most
    the pool [name]. *)
Definition keepsPools {A} (m : M A) : Prop :=
  forall w r w', m w = (r, w') -> pools w' = pools w.

Definition mayCreate {A} (name : string) (m : M A) : Prop :=
  forall w r w', m w = (r, w') ->
    pools w' = pools w \/ (name <> "" /\ pools w' = (pools w ++ [name])%list).

(** The world once [Create] has recorded the virtual machine [vmRef] that
    it found for [machine]: the "Created" event, and the machine with that
    Instance Reference in the API server. *)
Definition recordedWorld (machine : clusterv1.Machine)
    (c : vsphereconfigv1.VsphereMachineProviderConfig) (vmRef : string) (w : World) : World :=
  let w0 := addEvent w (createdEvent machine vmRef) in
  setStore w0 (clusterv1.withProviderStatus (withMachineRef machine c vmRef)
                 (clusterv1.ProviderStatus (store w0))).

(** The directive [d] is in force among [disks]: no directive after it in
    the list carries its label. *)
Definition inForce (disks : list vsphereconfigv1.DiskSpec) (d : vsphereconfigv1.DiskSpec)
  : Prop :=
  exists pre post,
    disks = (pre ++ d :: post)%list
    /\ forall d', In d' post -> vsphereconfigv1.DiskLabel d' <> vsphereconfigv1.DiskLabel d.

(** * Properties *)

(** ** Running one call *)

Lemma bind_Return {A B} (m : M A) (k : A -> M B) w a w' :
  m w = (Return a, w') -> bind m k w = k a w'.
Proof. unfold bind. intros ->. reflexivity. Qed.

Lemma bind_Raise {A B} (m : M A) (k : A -> M B) w e w' :
  m w = (Raise e, w') -> bind m k w = (Raise e, w').
Proof. unfold bind. intros ->. reflexivity. Qed.

Lemma bind_Panic {A B} (m : M A) (k : A -> M B) w r w' :
  m w = (Panic r, w') -> bind m k w = (Panic r, w').
Proof. unfold bind. intros ->. reflexivity. Qed.

(** A call of [bind m k] that returns went through a call of [m] that
    returned. *)
Lemma bind_inv_Return {A B} (m : M A) (k : A -> M B) w b w' :
  bind m k w = (Return b, w') ->
  exists a w1, m w = (Return a, w1) /\ k a w1 = (Return b, w').
Proof.
  unfold bind. destruct (m w) as [[a|e|r] w1]; intros H; try discriminate.
  exists a, w1. split; [reflexivity | exact H].
Qed.

Lemma tracks_status machine task :
  tracks machine task ->
  exists s, clusterv1.ProviderStatus machine = clusterv1.StatusOf s
            /\ vsphereconfigv1.TaskRef s = task.
Proof.
  unfold tracks, vsphereutils.GetActiveTasks, vsphereutils.GetMachineProviderStatus.
  intros [H Hne]. destruct (clusterv1.ProviderStatus machine) as [|e|s]; try congruence.
  exists s. split; [reflexivity | exact H].
Qed.

(** ** [setTaskRef] *)

(** Writing a reference that differs from the stored one replaces the
    status of the object in the API server. *)
Lemma setTaskRef_writes pv env machine task taskref w :
  tracks machine task -> task <> taskref ->
  clusterV1alpha1 pv = true -> storeAccepts env ->
  setTaskRef pv env machine taskref w
  = (Return tt, setStore w (clusterv1.withProviderStatus (store w) (statusWith env taskref))).
Proof.
  intros Ht Hne Hc [_ Hs]. destruct (tracks_status _ _ Ht) as (s & Hst & Hs').
  unfold setTaskRef, bind, try, vsphereutils.GetMachineProviderStatus.
  rewrite Hst. simpl. rewrite bool_decide_eq_false_2 by congruence.
  rewrite Hc. simpl. unfold Machines_UpdateStatus. rewrite Hs. reflexivity.
Qed.

(** Writing the stored reference again is no write. *)
Lemma setTaskRef_same pv env machine task w :
  tracks machine task -> setTaskRef pv env machine task w = (Return tt, w).
Proof.
  intros Ht. destruct (tracks_status _ _ Ht) as (s & Hst & Hs').
  unfold setTaskRef, bind, try, vsphereutils.GetMachineProviderStatus.
  rewrite Hst. simpl. rewrite bool_decide_eq_true_2 by exact Hs'. reflexivity.
Qed.

(** ** The task tracker, state by state *)

Section Tracker.

Variables (pv : Provisioner) (env : Env) (machine : clusterv1.Machine).
Variables (taskmoref : string) (info : types.TaskInfo).
Hypothesis Hquery : RetrieveOne env taskmoref = inr info.

Lemma tracker_pending w :
  types.State info = types.TaskInfoStateQueued
  \/ types.State info = types.TaskInfoStateRunning ->
  verifyAndUpdateTask pv env machine taskmoref w
  = (Raise (RequeueAfterError (Second * 5)), w).
Proof.
  intros H. unfold verifyAndUpdateTask. rewrite Hquery.
  destruct H as [H|H]; rewrite H; reflexivity.
Qed.

Lemma tracker_clone_failed w :
  types.State info = types.TaskInfoStateError ->
  types.DescriptionId info = "VirtualMachine.clone" ->
  verifyAndUpdateTask pv env machine taskmoref w
  = bind (Eventf pv EventTypeNormal "Failed"
            ("Creation failed for Machine " +:+ clusterv1.Name machine))
         (fun _ => setTaskRef pv env machine "") w.
Proof.
  intros Hs Hd. unfold verifyAndUpdateTask. rewrite Hquery, Hs, Hd. reflexivity.
Qed.

Lemma tracker_other_failed w :
  types.State info = types.TaskInfoStateError ->
  types.DescriptionId info <> "VirtualMachine.clone" ->
  verifyAndUpdateTask pv env machine taskmoref w = (Return tt, w).
Proof.
  intros Hs Hd. unfold verifyAndUpdateTask. rewrite Hquery, Hs.
  rewrite (bool_decide_eq_false_2 _ Hd). reflexivity.
Qed.

Lemma tracker_unknown w :
  types.State info <> types.TaskInfoStateQueued ->
  types.State info <> types.TaskInfoStateRunning ->
  types.State info <> types.TaskInfoStateSuccess ->
  types.State info <> types.TaskInfoStateError ->
  verifyAndUpdateTask pv env machine taskmoref w
  = (Raise (Errorf "Unknown state %s for task %s detected"
              [taskmoref; types.State info]), w).
Proof.
  intros H1 H2 H3 H4. unfold verifyAndUpdateTask. rewrite Hquery.
  rewrite (bool_decide_eq_false_2 _ H1), (bool_decide_eq_false_2 _ H2),
          (bool_decide_eq_false_2 _ H3), (bool_decide_eq_false_2 _ H4).
  reflexivity.
Qed.

Lemma tracker_clone_succeeded w vmref :
  types.State info = types.TaskInfoStateSuccess ->
  types.DescriptionId info = "VirtualMachine.clone" ->
  types.Result info = types.AnyMoRef vmref ->
  verifyAndUpdateTask pv env machine taskmoref w
  = bind (Eventf pv EventTypeNormal "Created"
            ("Created Machine " +:+ clusterv1.Name machine
             +:+ "(" +:+ types.Value vmref +:+ ")"))
         (fun _ => bind (updateVMReference pv env machine (types.Value vmref))
                     (fun updatedmachine => setTaskRef pv env updatedmachine "")) w.
Proof.
  intros Hs Hd Hr. unfold verifyAndUpdateTask. rewrite Hquery, Hs, Hd, Hr. reflexivity.
Qed.

End Tracker.

(** Every failure of the state query ends in [setTaskRef machine ""]. *)
Lemma tracker_query_failed pv env machine taskmoref err w :
  RetrieveOne env taskmoref = inl err ->
  verifyAndUpdateTask pv env machine taskmoref w = setTaskRef pv env machine "" w.
Proof. intros H. unfold verifyAndUpdateTask. rewrite H. reflexivity. Qed.

(** ** [Create] reaches the tracker, or the identity resolver *)

Lemma Create_tracker pv env cluster machine task w :
  sessionOk env -> tracks machine task ->
  Create pv env (Some cluster) machine w = verifyAndUpdateTask pv env machine task w.
Proof.
  intros [Hs Hu] [Ht Hne]. unfold Create, check, bind.
  rewrite Hs, Hu. simpl. rewrite Ht.
  rewrite (bool_decide_eq_true_2 _ Hne). reflexivity.
Qed.

Lemma Create_resolver pv env cluster machine w :
  sessionOk env -> vsphereutils.GetActiveTasks machine = "" ->
  Create pv env (Some cluster) machine w
  = bind (findVMByInstanceUUID env machine)
      (fun vmRef =>
         bind (if bool_decide (vmRef <> "")
               then bind (Eventf pv EventTypeNormal "Created"
                            ("Created Machine " +:+ clusterv1.Name machine
                             +:+ "(" +:+ vmRef +:+ ")"))
                      (fun _ => bind (updateVMReference pv env machine vmRef)
                                  (fun _ => ret tt))
               else ret tt)
           (fun _ => cloneVirtualMachine pv env cluster machine)) w.
Proof.
  intros [Hs Hu] Ht. unfold Create, check. unfold bind at 1 2.
  rewrite Hs, Hu. simpl. rewrite Ht. reflexivity.
Qed.

Lemma updateVMReference_writes pv env machine c vmref w :
  clusterv1.ProviderSpec machine = clusterv1.SpecOf c ->
  clusterV1alpha1 pv = true -> storeAccepts env ->
  updateVMReference pv env machine vmref w
  = (Return (clusterv1.withProviderStatus (withMachineRef machine c vmref)
               (clusterv1.ProviderStatus (store w))),
     setStore w (clusterv1.withProviderStatus (withMachineRef machine c vmref)
                   (clusterv1.ProviderStatus (store w)))).
Proof.
  intros Hc Hp [Hu _]. unfold updateVMReference, bind, try.
  rewrite Hc. simpl. rewrite Hp. unfold Machines_Update. rewrite Hu. reflexivity.
Qed.

Lemma reconcileAll_cons pv cluster env envs w :
  reconcileAll pv cluster (env :: envs) w
  = reconcileAll pv cluster envs (snd (reconcile pv env cluster w)).
Proof. reflexivity. Qed.

(** ** The claims on the task tracker *)

(** C6. A stored Task Reference whose operation is queued or running: the
    reconcile changes nothing (not the stored machine, not the events, not
    the submitted clones) and returns the retry signal with a delay of five
    seconds, which is no hard error. *)
Theorem C6_pending_task_requeues pv env cluster machine task info w :
  sessionOk env -> tracks machine task ->
  RetrieveOne env task = inr info ->
  types.State info = types.TaskInfoStateQueued
  \/ types.State info = types.TaskInfoStateRunning ->
  Create pv env (Some cluster) machine w = (Raise (RequeueAfterError (5 * Second)), w)
  /\ 5 * Second = 5000000000
  /\ isRequeue (RequeueAfterError (5 * Second)) = true
  /\ isHardError (RequeueAfterError (5 * Second)) = false.
Proof.
  intros Hs Ht Hq Hst. repeat split.
  rewrite (Create_tracker _ _ _ _ _ _ Hs Ht).
  rewrite (tracker_pending pv env machine task info Hq w Hst). reflexivity.
Qed.

Lemma C6_pending_task_requeues_witness :
  let m := Scenario.machine [] [] "task-1" in
  let info := Scenario.taskInfo "running" "VirtualMachine.clone" types.AnyNil in
  Create Scenario.pv (Scenario.env (inr info) None) (Some Scenario.cluster) m (Scenario.world m)
  = (Raise (RequeueAfterError (5 * Second)), Scenario.world m)
  /\ 5 * Second = 5000000000
  /\ isRequeue (RequeueAfterError (5 * Second)) = true
  /\ isHardError (RequeueAfterError (5 * Second)) = false.
Proof.
  intros m info.
  apply (C6_pending_task_requeues Scenario.pv (Scenario.env (inr info) None)
           Scenario.cluster m "task-1" info (Scenario.world m)).
  - split; reflexivity.
  - split; [reflexivity | discriminate].
  - reflexivity.
  - right. reflexivity.
Defined.

(** C5. A stored Task Reference whose operation is in a state other than
    queued, running, success and error: the reconcile returns a hard error
    and leaves the world, so the stored Task Reference, as it was. *)
Theorem C5_unknown_state_is_an_error pv env cluster machine task info w :
  sessionOk env -> tracks machine task ->
  RetrieveOne env task = inr info ->
  types.State info <> types.TaskInfoStateQueued ->
  types.State info <> types.TaskInfoStateRunning ->
  types.State info <> types.TaskInfoStateSuccess ->
  types.State info <> types.TaskInfoStateError ->
  exists e w',
    Create pv env (Some cluster) machine w = (Raise e, w')
    /\ isHardError e = true
    /\ w' = w
    /\ vsphereutils.GetActiveTasks (store w') = vsphereutils.GetActiveTasks (store w).
Proof.
  intros Hs Ht Hq H1 H2 H3 H4.
  exists (Errorf "Unknown state %s for task %s detected" [task; types.State info]), w.
  rewrite (Create_tracker _ _ _ _ _ _ Hs Ht).
  rewrite (tracker_unknown pv env machine task info Hq w H1 H2 H3 H4).
  repeat split.
Qed.

Lemma C5_unknown_state_is_an_error_witness :
  let m := Scenario.machine [] [] "task-1" in
  let info := Scenario.taskInfo "suspended" "VirtualMachine.clone" types.AnyNil in
  exists e w',
    Create Scenario.pv (Scenario.env (inr info) None) (Some Scenario.cluster) m (Scenario.world m)
    = (Raise e, w')
    /\ isHardError e = true
    /\ w' = Scenario.world m
    /\ vsphereutils.GetActiveTasks (store w') = "task-1".
Proof.
  intros m info.
  apply (C5_unknown_state_is_an_error Scenario.pv (Scenario.env (inr info) None)
           Scenario.cluster m "task-1" info (Scenario.world m)).
  - split; reflexivity.
  - split; [reflexivity | discriminate].
  - reflexivity.
  - discriminate.
  - discriminate.
  - discriminate.
  - discriminate.
Defined.

(** C10. A stored Task Reference whose operation is no clone and is in the
    error state: the reconcile returns nil (no error, no retry signal) and
    changes nothing; invoked again and again while the platform gives that
    answer, the Task Reference stays stored. *)
Theorem C10_failed_other_operation_stays_tracked pv cluster task w :
  tracks (store w) task ->
  (forall env info,
     sessionOk env ->
     RetrieveOne env task = inr info ->
     types.State info = types.TaskInfoStateError ->
     types.DescriptionId info <> "VirtualMachine.clone" ->
     reconcile pv env (Some cluster) w = (Return tt, w))
  /\ (forall envs,
        Forall (fun env =>
                  sessionOk env /\
                  exists info, RetrieveOne env task = inr info
                               /\ types.State info = types.TaskInfoStateError
                               /\ types.DescriptionId info <> "VirtualMachine.clone") envs ->
        reconcileAll pv (Some cluster) envs w = w
        /\ vsphereutils.GetActiveTasks (store (reconcileAll pv (Some cluster) envs w)) = task).
Proof.
  intros Ht.
  assert (Hone : forall env info,
     sessionOk env ->
     RetrieveOne env task = inr info ->
     types.State info = types.TaskInfoStateError ->
     types.DescriptionId info <> "VirtualMachine.clone" ->
     reconcile pv env (Some cluster) w = (Return tt, w)).
  { intros env info Hs Hq Hst Hd. unfold reconcile.
    rewrite (Create_tracker _ _ _ _ _ _ Hs Ht).
    apply (tracker_other_failed pv env (store w) task info Hq w Hst Hd). }
  split; [exact Hone |].
  intros envs Hall.
  assert (Hfix : reconcileAll pv (Some cluster) envs w = w).
  { induction Hall as [| env envs (Hs & info & Hq & Hst & Hd) _ IH]; [reflexivity |].
    rewrite reconcileAll_cons, (Hone env info Hs Hq Hst Hd). exact IH. }
  rewrite Hfix. split; [reflexivity | apply Ht].
Qed.

Lemma C10_failed_other_operation_stays_tracked_witness :
  let m := Scenario.machine [] [] "task-1" in
  let info := Scenario.taskInfo "error" "VirtualMachine.reconfigure" types.AnyNil in
  let env := Scenario.env (inr info) None in
  reconcile Scenario.pv env (Some Scenario.cluster) (Scenario.world m)
  = (Return tt, Scenario.world m)
  /\ reconcileAll Scenario.pv (Some Scenario.cluster) [env; env; env] (Scenario.world m)
     = Scenario.world m
  /\ vsphereutils.GetActiveTasks
       (store (reconcileAll Scenario.pv (Some Scenario.cluster) [env; env; env]
                 (Scenario.world m))) = "task-1".
Proof.
  intros m info env.
  assert (Ht : tracks (store (Scenario.world m)) "task-1").
  { split; [reflexivity | discriminate]. }
  destruct (C10_failed_other_operation_stays_tracked Scenario.pv Scenario.cluster
              "task-1" (Scenario.world m) Ht) as [H1 H2].
  split.
  - apply (H1 env info).
    + split; reflexivity.
    + reflexivity.
    + reflexivity.
    + discriminate.
  - apply (H2 [env; env; env]).
    repeat constructor; exists info; repeat split; discriminate.
Defined.

(** C4. A stored Task Reference whose operation is a clone in the error
    state: the reconcile records a "Failed" event, clears the Task Reference
    in the status of the stored machine and returns nil; the failure of the
    clone is no error of the call. *)
Theorem C4_failed_clone_clears_reference pv env cluster machine task info w :
  sessionOk env -> wired pv -> storeAccepts env -> tracks machine task ->
  RetrieveOne env task = inr info ->
  types.State info = types.TaskInfoStateError ->
  types.DescriptionId info = "VirtualMachine.clone" ->
  exists w',
    Create pv env (Some cluster) machine w = (Return tt, w')
    /\ events w' = (events w ++ [failedEvent machine])%list
    /\ vsphereutils.GetActiveTasks (store w') = ""
    /\ clusterv1.ProviderSpec (store w') = clusterv1.ProviderSpec (store w)
    /\ clones w' = clones w.
Proof.
  intros Hs [Hc He] Ha Ht Hq Hst Hd.
  exists (setStore (addEvent w (failedEvent machine))
            (clusterv1.withProviderStatus (store w) (statusWith env ""))).
  rewrite (Create_tracker _ _ _ _ _ _ Hs Ht).
  rewrite (tracker_clone_failed pv env machine task info Hq w Hst Hd).
  assert (Hev : Eventf pv EventTypeNormal "Failed"
                  ("Creation failed for Machine " +:+ clusterv1.Name machine) w
                = (Return tt, addEvent w (failedEvent machine))).
  { unfold Eventf. rewrite He. reflexivity. }
  rewrite (bind_Return _ _ _ _ _ Hev).
  rewrite (setTaskRef_writes pv env machine task "" _ Ht (proj2 Ht) Hc Ha).
  repeat split.
Qed.

Lemma C4_failed_clone_clears_reference_witness :
  let m := Scenario.machine [] [] "task-1" in
  let info := Scenario.taskInfo "error" "VirtualMachine.clone" types.AnyNil in
  exists w',
    Create Scenario.pv (Scenario.env (inr info) None) (Some Scenario.cluster) m (Scenario.world m)
    = (Return tt, w')
    /\ events w' = [failedEvent m]
    /\ vsphereutils.GetActiveTasks (store w') = ""
    /\ clusterv1.ProviderSpec (store w') = clusterv1.ProviderSpec m
    /\ clones w' = [].
Proof.
  intros m info.
  apply (C4_failed_clone_clears_reference Scenario.pv (Scenario.env (inr info) None)
           Scenario.cluster m "task-1" info (Scenario.world m)).
  - split; reflexivity.
  - split; reflexivity.
  - split; intros; reflexivity.
  - split; [reflexivity | discriminate].
  - reflexivity.
  - reflexivity.
  - reflexivity.
Defined.

(** A clone that completed with success: the "Created" event, the Instance
    Reference taken from the result of the operation, the Task Reference
    cleared, in this order. *)
Lemma tracker_clone_succeeded_writes pv env machine task info vmref c w :
  wired pv -> storeAccepts env -> tracks machine task ->
  clusterv1.ProviderStatus (store w) = clusterv1.ProviderStatus machine ->
  clusterv1.ProviderSpec machine = clusterv1.SpecOf c ->
  RetrieveOne env task = inr info ->
  types.State info = types.TaskInfoStateSuccess ->
  types.DescriptionId info = "VirtualMachine.clone" ->
  types.Result info = types.AnyMoRef vmref ->
  exists w',
    verifyAndUpdateTask pv env machine task w = (Return tt, w')
    /\ events w' = (events w ++ [createdEvent machine (types.Value vmref)])%list
    /\ instanceRef (store w') = types.Value vmref
    /\ vsphereutils.GetActiveTasks (store w') = ""
    /\ clones w' = clones w.
Proof.
  intros [Hc He] Ha Ht Hsame Hp Hq Hst Hd Hr.
  rewrite (tracker_clone_succeeded pv env machine task info Hq w vmref Hst Hd Hr).
  set (w1 := addEvent w (createdEvent machine (types.Value vmref))).
  assert (Hev : Eventf pv EventTypeNormal "Created"
                  ("Created Machine " +:+ clusterv1.Name machine
                   +:+ "(" +:+ types.Value vmref +:+ ")") w = (Return tt, w1)).
  { unfold Eventf. rewrite He. reflexivity. }
  rewrite (bind_Return _ _ _ _ _ Hev).
  rewrite (bind_Return _ _ _ _ _
             (updateVMReference_writes pv env machine c (types.Value vmref) w1 Hp Hc Ha)).
  set (updated := clusterv1.withProviderStatus _ _).
  assert (Hu : tracks updated task).
  { destruct Ht as [Hg Hne]. split; [| exact Hne].
    unfold updated, w1, vsphereutils.GetActiveTasks, vsphereutils.GetMachineProviderStatus.
    simpl. rewrite Hsame. exact Hg. }
  rewrite (setTaskRef_writes pv env updated task "" _ Hu (proj2 Hu) Hc Ha).
  eexists. split; [reflexivity |]. repeat split.
Qed.

(** What the code does on a failed state query: whatever the failure, the
    Task Reference is cleared and the reconcile returns nil; no event is
    recorded and nothing is submitted.  For a reference that no longer
    resolves this is the lost-reference rule. *)
Lemma query_failure_clears_reference pv env cluster machine task err w :
  sessionOk env -> clusterV1alpha1 pv = true -> storeAccepts env ->
  tracks machine task ->
  RetrieveOne env task = inl err ->
  exists w',
    Create pv env (Some cluster) machine w = (Return tt, w')
    /\ vsphereutils.GetActiveTasks (store w') = ""
    /\ clusterv1.ProviderSpec (store w') = clusterv1.ProviderSpec (store w)
    /\ events w' = events w
    /\ clones w' = clones w.
Proof.
  intros Hs Hc Ha Ht Hq.
  exists (setStore w (clusterv1.withProviderStatus (store w) (statusWith env ""))).
  rewrite (Create_tracker _ _ _ _ _ _ Hs Ht).
  rewrite (tracker_query_failed pv env machine task err w Hq).
  rewrite (setTaskRef_writes pv env machine task "" w Ht (proj2 Ht) Hc Ha).
  repeat split.
Qed.

Lemma query_failure_clears_reference_witness :
  let lost := ManagedObjectNotFound "task-1" in
  let m := Scenario.machine [] [] "task-1" in
  exists w',
    Create Scenario.pv (Scenario.env (inl lost) None) (Some Scenario.cluster) m (Scenario.world m)
    = (Return tt, w')
    /\ vsphereutils.GetActiveTasks (store w') = ""
    /\ clusterv1.ProviderSpec (store w') = clusterv1.ProviderSpec m
    /\ events w' = []
    /\ clones w' = [].
Proof.
  intros lost m.
  apply (query_failure_clears_reference Scenario.pv (Scenario.env (inl lost) None)
           Scenario.cluster m "task-1" lost (Scenario.world m)).
  - split; reflexivity.
  - reflexivity.
  - split; intros; reflexivity.
  - split; [reflexivity | discriminate].
  - reflexivity.
Defined.

(** C2.  The state query of a stored Task Reference fails because the
    platform cannot be reached ("connection refused"), which is no lost
    reference and says nothing on whether the operation is still known.
    The failure was to be returned with the reference left stored;
    [verifyAndUpdateTask] tests [err != nil] only and takes the branch of
    the task that "does not exist any more": the reconcile returns nil and
    the stored Task Reference is cleared. *)
Lemma C2_transport_failure_not_returned :
  let refused :=
    errorString "Post https://10.0.0.1/sdk: dial tcp 10.0.0.1:443: connect: connection refused" in
  let m := Scenario.machine [] [] "task-1" in
  let env := Scenario.env (inl refused) None in
  let r := Create Scenario.pv env (Some Scenario.cluster) m (Scenario.world m) in
  RetrieveOne env "task-1" = inl refused
  /\ isLostReference refused = false
  /\ tracks m "task-1"
  /\ fst r = Return tt
  /\ vsphereutils.GetActiveTasks (store (snd r)) = ""
  /\ ~ failureReturned r "task-1".
Proof.
  intros refused m env r.
  split; [reflexivity |]. split; [reflexivity |].
  split; [split; [reflexivity | discriminate] |].
  split; [vm_compute; reflexivity |].
  split; [vm_compute; reflexivity |].
  intros [[e He] _]. vm_compute in He. discriminate He.
Qed.

(** C3. A machine tracks a clone that completed with success as [vm-42].
    The first reconcile records the "Created" event and the Instance
    Reference [vm-42] and clears the Task Reference, as claimed.  At the
    next reconcile the virtual machine resolves by the instance UUID of
    the machine; [Create] records it once more and then calls
    [cloneVirtualMachine] all the same: a second clone is submitted and its
    task becomes the Task Reference. *)
Theorem C3_next_reconcile_clones_again :
  let vm := Scenario.mkRef "VirtualMachine" "vm-42" in
  let info := Scenario.taskInfo "success" "VirtualMachine.clone" (types.AnyMoRef vm) in
  let m := Scenario.machine [] [] "task-1" in
  let first := reconcile Scenario.pv (Scenario.env (inr info) None)
                 (Some Scenario.cluster) (Scenario.world m) in
  let second := reconcile Scenario.pv (Scenario.env (inr info) (Some vm))
                  (Some Scenario.cluster) (snd first) in
  (fst first = Return tt
   /\ events (snd first) = [createdEvent m "vm-42"]
   /\ instanceRef (store (snd first)) = "vm-42"
   /\ vsphereutils.GetActiveTasks (store (snd first)) = ""
   /\ clones (snd first) = [])
  /\ (fst second = Return tt
      /\ instanceRef (store (snd second)) = "vm-42"
      /\ length (clones (snd second)) = 1%nat
      /\ vsphereutils.GetActiveTasks (store (snd second)) = "task-77").
Proof.
  intros vm info m first second. vm_compute. repeat split.
Qed.

(** ** Calls that submit nothing *)

Lemma quiet_ret {A} (a : A) : quiet (ret a).
Proof. intros w r w' H. injection H as <- <-. auto. Qed.

Lemma quiet_raise {A} e : quiet (@raise A e).
Proof. intros w r w' H. injection H as <- <-. auto. Qed.

Lemma quiet_panic {A} p : quiet (@panic A p).
Proof. intros w r w' H. injection H as <- <-. auto. Qed.

Lemma quiet_lift {A} (o : outcome A) : quiet (lift o).
Proof. intros w r w' H. injection H as <- <-. auto. Qed.

Lemma quiet_try {A} (r : error + A) : quiet (try r).
Proof. destruct r; [apply quiet_raise | apply quiet_ret]. Qed.

Lemma quiet_tryWith {A} f (r : error + A) : quiet (tryWith f r).
Proof. destruct r; [apply quiet_raise | apply quiet_ret]. Qed.

Lemma quiet_bind {A B} (m : M A) (k : A -> M B) :
  quiet m -> (forall a, quiet (k a)) -> quiet (bind m k).
Proof.
  intros Hm Hk w r w'. unfold bind.
  destruct (m w) as [[a|e|p] w1] eqn:E; intros H.
  - destruct (Hm _ _ _ E) as (H1 & H2 & H3).
    destruct (Hk a _ _ _ H) as (H4 & H5 & H6).
    repeat split; congruence.
  - injection H as <- <-. exact (Hm _ _ _ E).
  - injection H as <- <-. exact (Hm _ _ _ E).
Qed.

Lemma quiet_HandleMachineError {A} machine err action :
  quiet (@HandleMachineError A machine err action).
Proof. apply quiet_raise. Qed.

Lemma quiet_createResourcePool env poolRoot name : quiet (createResourcePool env poolRoot name).
Proof.
  intros w r w'. unfold createResourcePool.
  destruct (ResourcePool_Create env poolRoot name); intros H; injection H as <- <-; auto.
Qed.

Create HintDb quiet.
#[local] Hint Resolve quiet_ret quiet_raise quiet_panic quiet_lift quiet_try quiet_tryWith
  quiet_HandleMachineError quiet_createResourcePool : quiet.

(** Splits a sequence of calls, and the branches inside it. *)
Ltac quiet_step :=
  match goal with
  | |- quiet (bind _ _) => apply quiet_bind; [| intros ?]
  | |- quiet (match ?x with _ => _ end) => destruct x
  | |- quiet (let _ := _ in _) => cbv zeta
  | |- quiet _ => solve [auto with quiet]
  end.

Lemma quiet_getCloudInitMetaData env cluster machine :
  quiet (getCloudInitMetaData env cluster machine).
Proof. unfold getCloudInitMetaData. repeat quiet_step. Qed.

Lemma quiet_getCloudProviderConfig env cluster machine path :
  quiet (getCloudProviderConfig env cluster machine path).
Proof. unfold getCloudProviderConfig. repeat quiet_step. Qed.

Lemma quiet_getStartupScript env cluster machine :
  quiet (getStartupScript env cluster machine).
Proof. unfold getStartupScript. repeat quiet_step. Qed.

#[local] Hint Resolve quiet_getCloudInitMetaData quiet_getCloudProviderConfig
  quiet_getStartupScript : quiet.

Lemma quiet_getCloudInitUserData env cluster machine path :
  quiet (getCloudInitUserData env cluster machine path).
Proof. unfold getCloudInitUserData. repeat quiet_step. Qed.

Lemma quiet_resolveTemplate env dc template : quiet (resolveTemplate env dc template).
Proof. unfold resolveTemplate. repeat quiet_step. Qed.

Lemma quiet_resolvePool env host pool : quiet (resolvePool env host pool).
Proof. unfold resolvePool. repeat quiet_step. Qed.

Lemma quiet_guestCustomization env cluster machine ci vmProps userData metaData :
  quiet (guestCustomization env cluster machine ci vmProps userData metaData).
Proof. unfold guestCustomization. repeat quiet_step. Qed.

#[local] Hint Resolve quiet_getCloudInitUserData quiet_resolveTemplate quiet_resolvePool
  quiet_guestCustomization : quiet.

(** Up to the device changes, [cloneVirtualMachine] writes nothing to the
    machine, records no event and submits no clone. *)
Lemma quiet_cloneInputs env cluster machine : quiet (cloneInputs env cluster machine).
Proof. unfold cloneInputs. repeat quiet_step. Qed.

(** The inputs are those of the machine's provider spec, and of the
    template that the platform described. *)
Lemma cloneInputs_inv env cluster machine w inputs w1 :
  cloneInputs env cluster machine w = (Return inputs, w1) ->
  exists c,
    clusterv1.ProviderSpec machine = clusterv1.SpecOf c
    /\ in_ms inputs = vsphereconfigv1.MachineSpec c
    /\ VM_Properties env (in_src inputs) = inr (in_vmProps inputs).
Proof.
  unfold cloneInputs. intros H.
  apply bind_inv_Return in H as (c & w2 & Hc & H).
  unfold try, vsphereutils.GetMachineProviderSpec in Hc.
  destruct (clusterv1.ProviderSpec machine) as [e|c'] eqn:Hspec; try discriminate.
  injection Hc as -> ->. exists c. split; [reflexivity |].
  cbv zeta in H.
  apply bind_inv_Return in H as (dc & w3 & _ & H).
  apply bind_inv_Return in H as (src & w4 & _ & H).
  apply bind_inv_Return in H as (host & w5 & _ & H).
  apply bind_inv_Return in H as (hostProps & w6 & _ & H).
  apply bind_inv_Return in H as (userData & w7 & _ & H).
  apply bind_inv_Return in H as (metaData & w8 & _ & H).
  apply bind_inv_Return in H as (vmFolder & w9 & _ & H).
  apply bind_inv_Return in H as (ds & w10 & _ & H).
  apply bind_inv_Return in H as (vmProps & w11 & Hv & H).
  apply bind_inv_Return in H as (pool & w12 & _ & H).
  apply bind_inv_Return in H as (custom & w13 & _ & H).
  injection H as <- <-. simpl. split; [reflexivity |].
  unfold tryWith, PropertiesVM in Hv.
  destruct (VM_Properties env src); try discriminate.
  injection Hv as -> ->. reflexivity.
Qed.

(** ** Go integers in range *)

Lemma int32_small x : - 2 ^ 31 <= x < 2 ^ 31 -> GoInt.int32 x = x.
Proof.
  intros H. unfold GoInt.int32, GoInt.wrap.
  rewrite Z.mod_small; lia.
Qed.

Lemma int32_range x : - 2 ^ 31 <= GoInt.int32 x < 2 ^ 31.
Proof.
  unfold GoInt.int32, GoInt.wrap.
  pose proof (Z.mod_pos_bound (x + 2 ^ (32 - 1)) (2 ^ 32) ltac:(lia)). lia.
Qed.

(** ** The directives as a map *)

Lemma diskMap_fold_None l (m : gmap string Z) k :
  foldl (fun m s => <[vsphereconfigv1.DiskLabel s := vsphereconfigv1.DiskSizeGB s]> m) m l !! k
  = None
  <-> m !! k = None /\ forall d, In d l -> vsphereconfigv1.DiskLabel d <> k.
Proof.
  revert m. induction l as [| d l IH]; intros m; simpl.
  - split; [intros H; split; [exact H | intros ? []] | intros [H _]; exact H].
  - rewrite IH, lookup_insert_None. split.
    + intros [[Hm Hd] Hl]. split; [exact Hm |]. intros d' [<- | Hin]; auto.
    + intros [Hm Hl]. split; [split; [exact Hm | apply Hl; left; reflexivity] |].
      intros d' Hin. apply Hl. right. exact Hin.
Qed.

(** A label has no entry exactly when no directive names it. *)
Lemma diskMap_None l k :
  diskMap l !! k = None <-> forall d, In d l -> vsphereconfigv1.DiskLabel d <> k.
Proof.
  unfold diskMap. rewrite diskMap_fold_None, lookup_empty. tauto.
Qed.

Lemma diskMap_fold_Some l (m : gmap string Z) k n :
  foldl (fun m s => <[vsphereconfigv1.DiskLabel s := vsphereconfigv1.DiskSizeGB s]> m) m l !! k
  = Some n ->
  m !! k = Some n
  \/ exists d, In d l /\ vsphereconfigv1.DiskLabel d = k /\ vsphereconfigv1.DiskSizeGB d = n.
Proof.
  revert m. induction l as [| d l IH]; intros m; simpl; [auto |].
  intros H. destruct (IH _ H) as [Hm | (d' & Hin & Hl & Hs)].
  - destruct (decide (vsphereconfigv1.DiskLabel d = k)) as [Heq | Hneq].
    + rewrite Heq, lookup_insert_eq in Hm. injection Hm as Hm.
      right. exists d. auto.
    + rewrite lookup_insert_ne in Hm by exact Hneq. left. exact Hm.
  - right. exists d'. auto.
Qed.

(** Every entry is a directive of the list. *)
Lemma diskMap_Some l k n :
  diskMap l !! k = Some n ->
  exists d, In d l /\ vsphereconfigv1.DiskLabel d = k /\ vsphereconfigv1.DiskSizeGB d = n.
Proof.
  unfold diskMap. intros H. destruct (diskMap_fold_Some _ _ _ _ H) as [Hm | Hd]; [| exact Hd].
  rewrite lookup_empty in Hm. discriminate.
Qed.

(** The last directive of a label is the one in force. *)
Lemma diskMap_last l d :
  diskMap (l ++ [d]) !! vsphereconfigv1.DiskLabel d = Some (vsphereconfigv1.DiskSizeGB d).
Proof. unfold diskMap. rewrite foldl_app. simpl. apply lookup_insert_eq. Qed.

Lemma diskMap_snoc_ne l d k :
  vsphereconfigv1.DiskLabel d <> k -> diskMap (l ++ [d]) !! k = diskMap l !! k.
Proof. intros H. unfold diskMap. rewrite foldl_app. simpl. apply lookup_insert_ne. exact H. Qed.

(** When no label is repeated, every directive of the list is in force. *)
Lemma diskMap_NoDup l d :
  NoDup (vsphereconfigv1.DiskLabel <$> l) -> In d l ->
  diskMap l !! vsphereconfigv1.DiskLabel d = Some (vsphereconfigv1.DiskSizeGB d).
Proof.
  induction l as [| x l IH] using rev_ind; intros Hnd Hin; [destruct Hin |].
  rewrite fmap_app in Hnd. apply NoDup_app in Hnd as (Hl & Hx & _).
  apply in_app_iff in Hin as [Hin | [<- | []]].
  - rewrite diskMap_snoc_ne; [apply IH; assumption |].
    intros Heq. apply (Hx (vsphereconfigv1.DiskLabel d)).
    + apply list_elem_of_fmap. exists d. split; [reflexivity | apply list_elem_of_In, Hin].
    + rewrite <- Heq. apply list_elem_of_In. left. reflexivity.
  - apply diskMap_last.
Qed.

Example diskMap_repeated_label :
  diskMap [ {| vsphereconfigv1.DiskSizeGB := 10; vsphereconfigv1.DiskLabel := "data" |};
            {| vsphereconfigv1.DiskSizeGB := 100; vsphereconfigv1.DiskLabel := "data" |} ]
    !! "data" = Some 100.
Proof. vm_compute. reflexivity. Qed.

(** ** The loops over the devices *)

Lemma SelectByType_In ty l dev : In dev (SelectByType ty l) <-> In dev l /\ ty dev = true.
Proof. unfold SelectByType. apply filter_In. Qed.

Lemma SelectByType_Forall ty l : Forall (fun dev => ty dev = true) (SelectByType ty l).
Proof. apply List.Forall_forall. intros dev H. apply SelectByType_In in H. tauto. Qed.

Lemma filter_all {A} (f : A -> bool) l :
  Forall (fun x => f x = true) l -> List.filter f l = l.
Proof. induction 1 as [| x l Hx _ IH]; simpl; [reflexivity |]. rewrite Hx, IH. reflexivity. Qed.

Lemma filter_none {A} (f : A -> bool) l :
  Forall (fun x => f x = false) l -> List.filter f l = [].
Proof. induction 1 as [| x l Hx _ IH]; simpl; [reflexivity |]. rewrite Hx, IH. reflexivity. Qed.

(** A directive below the capacity of its disk stops the loop. *)
Lemma resizeDisks_shrink dm disks dev cap n :
  Forall (fun d => isVirtualDisk d = true) disks ->
  In dev disks -> types.Class dev = types.VirtualDisk cap ->
  dm !! types.Label dev = Some n -> vsphereutils.GiBToByte n < cap ->
  forall acc b, resizeDisks dm disks acc b = Raise shrinkErr.
Proof.
  intros Hall Hin Hc Hm Hlt. induction Hall as [| d disks Hd _ IH]; [destruct Hin |].
  intros acc b. simpl. unfold isVirtualDisk in Hd.
  destruct (types.Class d) as [cap' | |] eqn:Hcd; try discriminate.
  destruct Hin as [-> | Hin].
  - rewrite Hm. assert (cap' = cap) as -> by congruence.
    destruct (Z.gtb_spec cap (vsphereutils.GiBToByte n)); [reflexivity | lia].
  - destruct (dm !! types.Label d) as [n' |]; [| apply IH, Hin].
    destruct (cap' >? vsphereutils.GiBToByte n'); [reflexivity | apply IH, Hin].
Qed.

(** Without a matching label the loop changes nothing. *)
Lemma resizeDisks_unmatched dm disks :
  Forall (fun d => isVirtualDisk d = true) disks ->
  (forall d, In d disks -> dm !! types.Label d = None) ->
  forall acc b, resizeDisks dm disks acc b = Return (acc, b).
Proof.
  intros Hall. induction Hall as [| d disks Hd _ IH]; intros Hn acc b; [reflexivity |].
  simpl. unfold isVirtualDisk in Hd.
  destruct (types.Class d) as [cap | |]; try discriminate.
  rewrite (Hn d (or_introl eq_refl)). apply IH. intros d' H. apply Hn. right. exact H.
Qed.

(** Without a shrinking directive the loop ends with edit entries only, and
    the flag tells whether a label matched. *)
Lemma resizeDisks_grow dm disks :
  Forall (fun d => isVirtualDisk d = true) disks ->
  (forall d cap n, In d disks -> types.Class d = types.VirtualDisk cap ->
                   dm !! types.Label d = Some n -> cap <= vsphereutils.GiBToByte n) ->
  forall acc b, exists edits,
    resizeDisks dm disks acc b
    = Return ((acc ++ edits)%list,
              b || existsb (fun d => bool_decide (is_Some (dm !! types.Label d))) disks)
    /\ Forall (fun e => isEdit e = true) edits.
Proof.
  intros Hall. induction Hall as [| d disks Hd _ IH]; intros Hg acc b.
  - exists []. simpl. rewrite app_nil_r, orb_false_r. auto.
  - simpl. unfold isVirtualDisk in Hd.
    destruct (types.Class d) as [cap | |] eqn:Hc; try discriminate.
    assert (Hg' : forall d cap n, In d disks -> types.Class d = types.VirtualDisk cap ->
                    dm !! types.Label d = Some n -> cap <= vsphereutils.GiBToByte n).
    { intros d' c' n' H. apply Hg. right. exact H. }
    destruct (dm !! types.Label d) as [n |] eqn:Hm.
    + pose proof (Hg d cap n (or_introl eq_refl) Hc Hm) as Hle.
      destruct (Z.gtb_spec cap (vsphereutils.GiBToByte n)); [lia |].
      destruct (IH Hg' (acc ++ [{| types.Operation := types.VirtualDeviceConfigSpecOperationEdit;
                                   types.Device := withCapacity d (vsphereutils.GiBToByte n) |}])%list
                  true) as (edits & -> & He).
      eexists (_ :: edits). rewrite <- app_assoc. simpl.
      rewrite orb_true_r.
      split; [reflexivity |]. constructor; [reflexivity | exact He].
    + destruct (IH Hg' acc b) as (edits & -> & He).
      exists edits. rewrite bool_decide_eq_false_2 by (intros [? ?]; discriminate).
      simpl. auto.
Qed.

(** One removal entry per adapter of the template. *)
Lemma removeNics_all nics :
  Forall (fun d => isVirtualEthernetCard d = true) nics ->
  forall acc, removeNics nics acc = Return (acc ++ (removalOf <$> nics))%list.
Proof.
  induction 1 as [| d nics Hd _ IH]; intros acc; simpl.
  - rewrite app_nil_r. reflexivity.
  - unfold isVirtualEthernetCard in Hd.
    destruct (types.Class d) as [| m backing |] eqn:Hc; try discriminate.
    rewrite IH, <- app_assoc. simpl. unfold removalOf. rewrite Hc. reflexivity.
Qed.

Lemma keysFrom_S first n : keysFrom first (S n) = first :: keysFrom (first - 1) n.
Proof.
  unfold keysFrom. simpl. f_equal; [lia |].
  rewrite <- fmap_S_seq, <- list_fmap_compose. apply list_fmap_ext. intros _ i _. simpl. lia.
Qed.

(** One added entry per network, with the keys counting down from
    [nicid], as long as they stay above the least [int32]. *)
Lemma addNics_all env networks :
  networksResolve env networks ->
  forall nicid acc,
    ((0 < length networks)%nat ->
     - 2 ^ 31 <= nicid - Z.of_nat (length networks) + 1 /\ nicid < 2 ^ 31) ->
    exists adds,
      addNics env networks nicid acc = Return (acc ++ adds)%list
      /\ Forall (fun e => isAdd e = true) adds
      /\ deviceKey <$> adds = keysFrom nicid (length networks).
Proof.
  induction 1 as [| n networks (netRef & backing & Hn & Hb) _ IH]; intros nicid acc Hr.
  - exists []. simpl. rewrite app_nil_r. auto.
  - simpl. rewrite Hn, Hb.
    assert (Hlen := Hr ltac:(simpl; lia)). simpl length in Hlen.
    destruct networks as [| n' networks'].
    + eexists [_]. simpl. split; [reflexivity |]. split; [repeat constructor |].
      unfold keysFrom, deviceKey. simpl. f_equal. lia.
    + rewrite int32_small by (simpl length in *; lia).
      edestruct (IH (nicid - 1)) as (adds & -> & Ha & Hk).
      { intros _. simpl length in *. lia. }
      eexists (_ :: adds). rewrite <- app_assoc. simpl app.
      split; [reflexivity |]. split; [constructor; [reflexivity | exact Ha] |].
      rewrite keysFrom_S, fmap_cons, Hk. reflexivity.
Qed.

Lemma keysFrom_NoDup first n : NoDup (keysFrom first n).
Proof.
  unfold keysFrom. apply NoDup_fmap_2; [| apply NoDup_seq].
  intros i j H. lia.
Qed.

Lemma keysFrom_negative first n : first < 0 -> Forall (fun k => k < 0) (keysFrom first n).
Proof.
  intros H. unfold keysFrom. apply Forall_fmap, Forall_forall. intros i _. simpl. lia.
Qed.

Lemma GiBToByte_exact n : 0 <= n < 2 ^ 33 -> vsphereutils.GiBToByte n = n * 2 ^ 30.
Proof.
  intros H. unfold vsphereutils.GiBToByte, GoInt.int64, GoInt.wrap.
  rewrite Z.mod_small; lia.
Qed.

(** ** The device changes *)

Lemma deviceChanges_shrink env ms l w dev cap n :
  In dev l -> directiveFor ms dev cap n -> vsphereutils.GiBToByte n < cap ->
  deviceChanges env ms l w = (Raise shrinkErr, w).
Proof.
  intros Hin [Hc Hm] Hlt. unfold deviceChanges, bind, lift.
  rewrite (resizeDisks_shrink _ _ dev cap n); auto.
  - apply SelectByType_Forall.
  - apply SelectByType_In. split; [exact Hin |]. unfold isVirtualDisk. rewrite Hc. reflexivity.
Qed.

Lemma deviceChanges_unmatched env ms l w :
  vsphereconfigv1.Disks ms <> [] ->
  (forall d dev, In d (vsphereconfigv1.Disks ms) -> In dev l -> isVirtualDisk dev = true ->
                 vsphereconfigv1.DiskLabel d <> types.Label dev) ->
  deviceChanges env ms l w = (Raise (noDiskMatchedErr (vsphereconfigv1.VMTemplate ms)), w).
Proof.
  intros Hne Hno. unfold deviceChanges, bind, lift.
  rewrite resizeDisks_unmatched.
  - simpl. rewrite (bool_decide_eq_true_2 _ Hne). reflexivity.
  - apply SelectByType_Forall.
  - intros dev Hdev. apply SelectByType_In in Hdev as [Hin Hd].
    apply diskMap_None. intros d Hdin. apply (Hno d dev); assumption.
Qed.

Lemma deviceChanges_built env ms l w :
  (forall dev cap n, In dev l -> directiveFor ms dev cap n -> cap <= vsphereutils.GiBToByte n) ->
  (vsphereconfigv1.Disks ms = []
   \/ exists dev, In dev l /\ isVirtualDisk dev = true
                  /\ is_Some (diskMap (vsphereconfigv1.Disks ms) !! types.Label dev)) ->
  networksResolve env (vsphereconfigv1.Networks ms) ->
  Z.of_nat (length (vsphereconfigv1.Networks ms)) <= 2147483549 ->
  exists edits adds,
    deviceChanges env ms l w
    = (Return (edits ++ (removalOf <$> SelectByType isVirtualEthernetCard l) ++ adds)%list, w)
    /\ Forall (fun e => isEdit e = true) edits
    /\ Forall (fun e => isAdd e = true) adds
    /\ deviceKey <$> adds = keysFrom (-100) (length (vsphereconfigv1.Networks ms)).
Proof.
  intros Hgrow Hmatch Hnet Hlen. unfold deviceChanges, bind, lift.
  destruct (resizeDisks_grow (diskMap (vsphereconfigv1.Disks ms))
              (SelectByType isVirtualDisk l) (SelectByType_Forall _ _)) with (acc := @nil types.VirtualDeviceConfigSpec) (b := false)
    as (edits & -> & He).
  { intros d cap n Hd Hc Hm. apply SelectByType_In in Hd as [Hin _].
    apply (Hgrow d cap n Hin). split; assumption. }
  rewrite orb_false_l, app_nil_l.
  assert (Hflag : negb (existsb (fun d => bool_decide
                          (is_Some (diskMap (vsphereconfigv1.Disks ms) !! types.Label d)))
                          (SelectByType isVirtualDisk l))
                  && bool_decide (vsphereconfigv1.Disks ms <> []) = false).
  { destruct Hmatch as [Hnil | (dev & Hin & Hd & Hs)].
    - rewrite (bool_decide_eq_false_2 _ (fun H => H Hnil)). apply andb_false_r.
    - apply andb_false_intro1, negb_false_iff, existsb_exists.
      exists dev. split; [apply SelectByType_In; auto | apply bool_decide_eq_true_2, Hs]. }
  rewrite Hflag.
  rewrite (removeNics_all _ (SelectByType_Forall _ _)).
  destruct (addNics_all env _ Hnet (GoInt.int32 (-100))
              (edits ++ (removalOf <$> SelectByType isVirtualEthernetCard l))%list)
    as (adds & -> & Ha & Hk).
  { intros _. rewrite int32_small by lia. lia. }
  exists edits, adds. rewrite <- app_assoc. rewrite int32_small in Hk by lia. auto.
Qed.

(** ** The end of [cloneVirtualMachine] *)

Lemma cloneVirtualMachine_stops pv env cluster machine w inputs w1 e :
  cloneInputs env cluster machine w = (Return inputs, w1) ->
  deviceChanges env (in_ms inputs) (mo.Device (in_vmProps inputs)) w1 = (Raise e, w1) ->
  cloneVirtualMachine pv env cluster machine w = (Raise e, w1).
Proof.
  intros Hi Hd. unfold cloneVirtualMachine.
  rewrite (bind_Return _ _ _ _ _ Hi). apply bind_Raise. exact Hd.
Qed.

(** When an input does not resolve, that is the error of the call, and no
    clone is submitted. *)
Lemma cloneVirtualMachine_unresolved pv env cluster machine w e w1 :
  cloneInputs env cluster machine w = (Raise e, w1) ->
  cloneVirtualMachine pv env cluster machine w = (Raise e, w1)
  /\ clones w1 = clones w /\ store w1 = store w.
Proof.
  intros Hi. destruct (quiet_cloneInputs env cluster machine _ _ _ Hi) as (Hs & _ & Hc).
  split; [| auto]. unfold cloneVirtualMachine. apply bind_Raise. exact Hi.
Qed.

Lemma cloneVirtualMachine_submits pv env cluster machine w inputs w1 specs :
  cloneInputs env cluster machine w = (Return inputs, w1) ->
  deviceChanges env (in_ms inputs) (mo.Device (in_vmProps inputs)) w1 = (Return specs, w1) ->
  cloneVirtualMachine pv env cluster machine w
  = submit pv env machine inputs (cloneSpec cluster machine inputs specs) w1.
Proof.
  intros Hi Hd. unfold cloneVirtualMachine.
  rewrite (bind_Return _ _ _ _ _ Hi), (bind_Return _ _ _ _ _ Hd). reflexivity.
Qed.

Lemma setTaskRef_clones pv env machine taskref w r w' :
  setTaskRef pv env machine taskref w = (r, w') -> clones w' = clones w.
Proof.
  unfold setTaskRef, bind, try.
  destruct (vsphereutils.GetMachineProviderStatus machine) as [e | old]; simpl.
  - intros H. injection H as <- <-. reflexivity.
  - destruct (match old with Some o => _ | None => false end);
      [intros H; injection H as <- <-; reflexivity |].
    destruct (clusterV1alpha1 pv); simpl;
      [| intros H; injection H as <- <-; reflexivity].
    unfold Machines_UpdateStatus. destruct (UpdateStatus_err env _);
      intros H; injection H as <- <-; reflexivity.
Qed.

(** An accepted clone request is on the list of submitted clones, with the
    specification that was built. *)
Lemma submit_accepted pv env machine inputs spec task w :
  Clone env (in_src inputs) (in_vmFolder inputs) (clusterv1.Name machine) spec = inr task ->
  exists r w',
    submit pv env machine inputs spec w = (r, w')
    /\ clones w' = (clones w ++ [ {| clone_src := in_src inputs;
                                     clone_folder := in_vmFolder inputs;
                                     clone_name := clusterv1.Name machine;
                                     clone_spec := spec;
                                     clone_task := task |} ])%list.
Proof.
  intros Hc. unfold submit.
  set (w0 := if eventRecorder pv
             then addEvent w {| eventtype := EventTypeNormal; reason := "Creating";
                                message := "Creating Machine " +:+ clusterv1.Name machine |}
             else w).
  assert (Hev : (if eventRecorder pv
                 then Eventf pv EventTypeNormal "Creating"
                        ("Creating Machine " +:+ clusterv1.Name machine)
                 else ret tt) w = (Return tt, w0)).
  { unfold w0, Eventf. destruct (eventRecorder pv); reflexivity. }
  rewrite (bind_Return _ _ _ _ _ Hev).
  unfold bind at 1, submitClone. rewrite Hc.
  destruct (setTaskRef pv env machine (types.Value task) _) as [r w'] eqn:Hs.
  exists r, w'. split; [reflexivity |].
  rewrite (setTaskRef_clones _ _ _ _ _ _ _ Hs). unfold w0.
  destruct (eventRecorder pv); reflexivity.
Qed.

(** ** The claims on the clone specification *)

(** The template and the other inputs are resolved, and the map of the
    directives asks for a disk of the template a size below the capacity
    of that disk: [cloneVirtualMachine] returns the configuration error on
    the disk size, a hard error, and submits no clone; the stored machine
    is as it was. *)
Lemma shrinking_entry_rejected pv env cluster machine w inputs w1 dev cap newSize :
  cloneInputs env cluster machine w = (Return inputs, w1) ->
  In dev (mo.Device (in_vmProps inputs)) ->
  directiveFor (in_ms inputs) dev cap newSize ->
  vsphereutils.GiBToByte newSize < cap ->
  cloneVirtualMachine pv env cluster machine w = (Raise shrinkErr, w1)
  /\ isHardError shrinkErr = true
  /\ clones w1 = clones w
  /\ store w1 = store w.
Proof.
  intros Hi Hin Hd Hlt.
  destruct (quiet_cloneInputs env cluster machine _ _ _ Hi) as (Hs & _ & Hc).
  split; [| auto].
  apply (cloneVirtualMachine_stops pv env cluster machine w inputs w1 shrinkErr Hi).
  apply (deviceChanges_shrink env _ _ w1 dev cap newSize Hin Hd Hlt).
Qed.

(** C8. The template and the other inputs are resolved, the list of
    directives is not empty and no directive carries the label of a disk of
    the template: [cloneVirtualMachine] returns the configuration error on
    the unmatched disks, a hard error, and submits no clone. *)
Theorem C8_unmatched_directives_rejected pv env cluster machine w inputs w1 :
  cloneInputs env cluster machine w = (Return inputs, w1) ->
  vsphereconfigv1.Disks (in_ms inputs) <> [] ->
  (forall d dev,
     In d (vsphereconfigv1.Disks (in_ms inputs)) ->
     In dev (mo.Device (in_vmProps inputs)) -> isVirtualDisk dev = true ->
     vsphereconfigv1.DiskLabel d <> types.Label dev) ->
  cloneVirtualMachine pv env cluster machine w
  = (Raise (noDiskMatchedErr (vsphereconfigv1.VMTemplate (in_ms inputs))), w1)
  /\ isHardError (noDiskMatchedErr (vsphereconfigv1.VMTemplate (in_ms inputs))) = true
  /\ clones w1 = clones w
  /\ store w1 = store w.
Proof.
  intros Hi Hne Hno.
  destruct (quiet_cloneInputs env cluster machine _ _ _ Hi) as (Hs & _ & Hc).
  split; [| auto].
  apply (cloneVirtualMachine_stops pv env cluster machine w inputs w1 _ Hi).
  apply (deviceChanges_unmatched env _ _ w1 Hne Hno).
Qed.

Lemma C8_unmatched_directives_rejected_witness :
  let m := Scenario.machine
             [ {| vsphereconfigv1.DiskSizeGB := 100; vsphereconfigv1.DiskLabel := "dtaa" |} ]
             [] "" in
  let env := Scenario.env (inl (errorString "no task")) None in
  cloneVirtualMachine Scenario.pv env Scenario.cluster m (Scenario.world m)
  = (Raise (noDiskMatchedErr "ubuntu-template"), Scenario.world m)
  /\ isHardError (noDiskMatchedErr "ubuntu-template") = true
  /\ clones (Scenario.world m) = clones (Scenario.world m)
  /\ store (Scenario.world m) = store (Scenario.world m).
Proof.
  intros m env.
  refine (C8_unmatched_directives_rejected Scenario.pv env Scenario.cluster m
            (Scenario.world m)
            (Scenario.inputs
               [ {| vsphereconfigv1.DiskSizeGB := 100;
                    vsphereconfigv1.DiskLabel := "dtaa" |} ] [])
            (Scenario.world m) _ _ _).
  - vm_compute. reflexivity.
  - discriminate.
  - intros d dev [<- | []] Hdev Hdisk.
    simpl in Hdev. destruct Hdev as [<- | [<- | [<- | [<- | []]]]];
      try discriminate Hdisk. discriminate.
Defined.

(** C9. The template and the other inputs are resolved, no directive stops
    the build, the [N] configured networks resolve, and [N] is small enough
    for the keys to stay in [int32].  Then [cloneVirtualMachine] goes on to
    submit a clone specification whose device changes hold one removal
    entry for every network adapter of the template, in their order, and
    exactly [N] added entries, with the keys [-100, -101, ..., -100 - (N-1)],
    all negative and pairwise distinct; when the platform accepts the
    request, this specification is on the list of submitted clones. *)
Theorem C9_network_adapters_replaced pv env cluster machine w inputs w1 :
  let ms := in_ms inputs in
  let devices := mo.Device (in_vmProps inputs) in
  let N := length (vsphereconfigv1.Networks ms) in
  cloneInputs env cluster machine w = (Return inputs, w1) ->
  (forall dev cap n, In dev devices -> directiveFor ms dev cap n ->
                     cap <= vsphereutils.GiBToByte n) ->
  (vsphereconfigv1.Disks ms = []
   \/ exists dev, In dev devices /\ isVirtualDisk dev = true
                  /\ is_Some (diskMap (vsphereconfigv1.Disks ms) !! types.Label dev)) ->
  networksResolve env (vsphereconfigv1.Networks ms) ->
  Z.of_nat N <= 2147483549 ->
  exists spec,
    let changes := types.DeviceChange (types.Config spec) in
    let added := List.filter isAdd changes in
    cloneVirtualMachine pv env cluster machine w = submit pv env machine inputs spec w1
    /\ List.filter isRemove changes = removalOf <$> SelectByType isVirtualEthernetCard devices
    /\ deviceKey <$> List.filter isRemove changes
       = types.Key <$> SelectByType isVirtualEthernetCard devices
    /\ length added = N
    /\ deviceKey <$> added = keysFrom (-100) N
    /\ Forall (fun k => k < 0) (deviceKey <$> added)
    /\ NoDup (deviceKey <$> added)
    /\ (forall task,
          Clone env (in_src inputs) (in_vmFolder inputs) (clusterv1.Name machine) spec
          = inr task ->
          clones (snd (cloneVirtualMachine pv env cluster machine w))
          = (clones w ++ [ {| clone_src := in_src inputs;
                              clone_folder := in_vmFolder inputs;
                              clone_name := clusterv1.Name machine;
                              clone_spec := spec;
                              clone_task := task |} ])%list).
Proof.
  intros ms devices N Hi Hgrow Hmatch Hnet Hlen.
  destruct (deviceChanges_built env ms devices w1 Hgrow Hmatch Hnet Hlen)
    as (edits & adds & Hd & He & Ha & Hk).
  set (nics := SelectByType isVirtualEthernetCard devices) in *.
  exists (cloneSpec cluster machine inputs (edits ++ (removalOf <$> nics) ++ adds)%list).
  cbv zeta. change (types.DeviceChange (types.Config (cloneSpec cluster machine inputs
                      (edits ++ (removalOf <$> nics) ++ adds)%list)))
              with (edits ++ (removalOf <$> nics) ++ adds)%list.
  assert (Hrem : List.filter isRemove (edits ++ (removalOf <$> nics) ++ adds)%list
                 = removalOf <$> nics).
  { rewrite !List.filter_app.
    rewrite (filter_none isRemove edits), (filter_none isRemove adds), app_nil_r.
    - apply filter_all, Forall_fmap, Forall_forall. reflexivity.
    - eapply Forall_impl; [exact Ha |]. intros e. unfold isAdd, isRemove.
      destruct (types.Operation e); congruence.
    - eapply Forall_impl; [exact He |]. intros e. unfold isEdit, isRemove.
      destruct (types.Operation e); congruence. }
  assert (Hadd : List.filter isAdd (edits ++ (removalOf <$> nics) ++ adds)%list = adds).
  { rewrite !List.filter_app.
    rewrite (filter_none isAdd edits), (filter_none isAdd (removalOf <$> nics)).
    - apply filter_all, Ha.
    - apply Forall_fmap, Forall_forall. reflexivity.
    - eapply Forall_impl; [exact He |]. intros e. unfold isEdit, isAdd.
      destruct (types.Operation e); congruence. }
  rewrite Hrem, Hadd, Hk.
  pose proof (cloneVirtualMachine_submits pv env cluster machine w inputs w1 _ Hi Hd) as Hsub.
  split; [exact Hsub |]. split; [reflexivity |].
  split.
  { rewrite <- list_fmap_compose. apply list_fmap_ext. intros i dev Hdev.
    apply list_elem_of_lookup_2, list_elem_of_In, SelectByType_In in Hdev as [_ Hnic].
    unfold deviceKey, removalOf, isVirtualEthernetCard in *. simpl.
    destruct (types.Class dev); try discriminate. reflexivity. }
  split.
  { rewrite <- (length_fmap deviceKey), Hk. unfold keysFrom.
    rewrite length_fmap, length_seq. reflexivity. }
  split; [reflexivity |].
  split; [apply keysFrom_negative; lia |].
  split; [apply keysFrom_NoDup |].
  intros task Hc. rewrite Hsub.
  destruct (submit_accepted pv env machine inputs _ task w1 Hc) as (r & w' & Hsb & Hcl).
  rewrite Hsb. simpl snd. rewrite Hcl.
  destruct (quiet_cloneInputs env cluster machine _ _ _ Hi) as (_ & _ & ->).
  reflexivity.
Qed.

Lemma C9_network_adapters_replaced_witness :
  let disks := [ {| vsphereconfigv1.DiskSizeGB := 100; vsphereconfigv1.DiskLabel := "data" |} ] in
  let nets := [ {| vsphereconfigv1.NetworkName := "net-a" |};
                {| vsphereconfigv1.NetworkName := "net-b" |} ] in
  let m := Scenario.machine disks nets "" in
  let env := Scenario.env (inl (errorString "no task")) None in
  exists spec,
    cloneVirtualMachine Scenario.pv env Scenario.cluster m (Scenario.world m)
    = submit Scenario.pv env m (Scenario.inputs disks nets) spec (Scenario.world m)
    /\ deviceKey <$> List.filter isRemove (types.DeviceChange (types.Config spec))
       = [4000; 4001]
    /\ deviceKey <$> List.filter isAdd (types.DeviceChange (types.Config spec))
       = [-100; -101]
    /\ length (clones (snd (cloneVirtualMachine Scenario.pv env Scenario.cluster m
                              (Scenario.world m)))) = 1%nat.
Proof.
  intros disks nets m env.
  destruct (C9_network_adapters_replaced Scenario.pv env Scenario.cluster m
              (Scenario.world m) (Scenario.inputs disks nets) (Scenario.world m))
    as (spec & Hsub & _ & Hrem & _ & Hadd & _ & _ & Hacc).
  - vm_compute. reflexivity.
  - intros dev cap n Hin [Hc Hm].
    simpl in Hin. destruct Hin as [<- | [<- | [<- | [<- | []]]]]; try discriminate Hc.
    injection Hc as <-. vm_compute in Hm. injection Hm as <-.
    vm_compute. discriminate.
  - right. exists {| types.Key := 2000; types.Label := "data";
                     types.Class := types.VirtualDisk (50 * Scenario.GiB) |}.
    split; [simpl; right; left; reflexivity |].
    split; [reflexivity |]. exists 100. vm_compute. reflexivity.
  - repeat constructor; eexists _, _; split; reflexivity.
  - simpl. lia.
  - exists spec. split; [exact Hsub |]. split; [exact Hrem |]. split; [exact Hadd |].
    rewrite (Hacc (Scenario.mkRef "Task" "task-77") eq_refl). reflexivity.
Defined.

(** * Further properties *)

(** ** The status projections *)

(** X1. [setTaskRef] with the reference that the machine stores already is
    no write: it returns nil and the world is as it was, also when the API
    server would refuse a write and when there is no client. *)
Theorem setTaskRef_stored_reference_is_no_write pv env machine s w :
  clusterv1.ProviderStatus machine = clusterv1.StatusOf s ->
  setTaskRef pv env machine (vsphereconfigv1.TaskRef s) w = (Return tt, w).
Proof.
  intros Hst. unfold setTaskRef, bind, try, vsphereutils.GetMachineProviderStatus.
  rewrite Hst. simpl. rewrite bool_decide_eq_true_2 by reflexivity. reflexivity.
Qed.

Lemma setTaskRef_stored_reference_is_no_write_witness :
  let m := Scenario.machine [] [] "task-1" in
  let pv0 := {| clusterV1alpha1 := false; eventRecorder := false |} in
  setTaskRef pv0 (Scenario.env (inl (errorString "down")) None) m "task-1" (Scenario.world m)
  = (Return tt, Scenario.world m).
Proof.
  intros m pv0.
  apply (setTaskRef_stored_reference_is_no_write pv0 _ m
           {| vsphereconfigv1.LastUpdated := ""; vsphereconfigv1.TaskRef := "task-1" |}).
  reflexivity.
Defined.

(** X2. A machine without a provider status has no stored reference to
    compare with: [setTaskRef] writes a status in every case, the empty
    reference included, and the stored machine then carries exactly the
    given reference and the time of the write. *)
Theorem setTaskRef_without_status_writes pv env machine taskref w :
  clusterv1.ProviderStatus machine = clusterv1.StatusNil ->
  clusterV1alpha1 pv = true -> storeAccepts env ->
  exists w',
    setTaskRef pv env machine taskref w = (Return tt, w')
    /\ clusterv1.ProviderStatus (store w')
       = clusterv1.StatusOf {| vsphereconfigv1.LastUpdated := now env;
                               vsphereconfigv1.TaskRef := taskref |}
    /\ vsphereutils.GetActiveTasks (store w') = taskref
    /\ clusterv1.ProviderSpec (store w') = clusterv1.ProviderSpec (store w)
    /\ events w' = events w /\ clones w' = clones w.
Proof.
  intros Hst Hc [_ Hs].
  exists (setStore w (clusterv1.withProviderStatus (store w) (statusWith env taskref))).
  unfold setTaskRef, bind, try, vsphereutils.GetMachineProviderStatus.
  rewrite Hst. simpl. rewrite Hc. simpl. unfold Machines_UpdateStatus. rewrite Hs.
  repeat split.
Qed.

Lemma setTaskRef_without_status_writes_witness :
  let m := clusterv1.withProviderStatus (Scenario.machine [] [] "") clusterv1.StatusNil in
  exists w',
    setTaskRef Scenario.pv (Scenario.env (inl (errorString "no task")) None) m "" (Scenario.world m)
    = (Return tt, w')
    /\ clusterv1.ProviderStatus (store w')
       = clusterv1.StatusOf {| vsphereconfigv1.LastUpdated := "2019-01-01 00:00:00 +0000 UTC";
                               vsphereconfigv1.TaskRef := "" |}
    /\ vsphereutils.GetActiveTasks (store w') = ""
    /\ clusterv1.ProviderSpec (store w') = clusterv1.ProviderSpec m
    /\ events w' = [] /\ clones w' = [].
Proof.
  intros m.
  apply (setTaskRef_without_status_writes Scenario.pv
           (Scenario.env (inl (errorString "no task")) None) m "" (Scenario.world m)).
  - reflexivity.
  - reflexivity.
  - split; intros; reflexivity.
Defined.

(** Without a client ([clusterV1alpha1] nil) [setTaskRef] persists
    nothing: whenever the status of the machine decodes, it returns nil and
    the world is as it was, whatever the reference. *)
Theorem setTaskRef_without_client_persists_nothing pv env machine taskref w :
  clusterV1alpha1 pv = false ->
  (forall e, clusterv1.ProviderStatus machine <> clusterv1.StatusUndecodable e) ->
  setTaskRef pv env machine taskref w = (Return tt, w).
Proof.
  intros Hc Hdec. unfold setTaskRef, bind, try, vsphereutils.GetMachineProviderStatus.
  destruct (clusterv1.ProviderStatus machine) as [| e | s]; simpl.
  - rewrite Hc. reflexivity.
  - destruct (Hdec e eq_refl).
  - destruct (bool_decide _); [reflexivity |]. rewrite Hc. reflexivity.
Qed.

Lemma setTaskRef_without_client_persists_nothing_witness :
  let m := Scenario.machine [] [] "task-1" in
  let bare := {| clusterV1alpha1 := false; eventRecorder := false |} in
  setTaskRef bare (Scenario.env (inl (errorString "no task")) None) m "" (Scenario.world m)
  = (Return tt, Scenario.world m).
Proof.
  intros m bare.
  apply (setTaskRef_without_client_persists_nothing bare _ m "" (Scenario.world m)).
  - reflexivity.
  - intros e. discriminate.
Defined.

Lemma setTaskRef_effect pv env machine taskref w r w' :
  setTaskRef pv env machine taskref w = (r, w') ->
  (w' = w
   \/ (r = Return tt /\ vsphereutils.GetActiveTasks (store w') = taskref))
  /\ clusterv1.ProviderSpec (store w') = clusterv1.ProviderSpec (store w)
  /\ events w' = events w /\ clones w' = clones w /\ pools w' = pools w.
Proof.
  unfold setTaskRef, bind, try.
  destruct (vsphereutils.GetMachineProviderStatus machine) as [e | old]; simpl.
  - intros H. injection H as <- <-. auto.
  - destruct (match old with Some o => _ | None => false end);
      [intros H; injection H as <- <-; auto |].
    destruct (clusterV1alpha1 pv); simpl; [| intros H; injection H as <- <-; auto].
    unfold Machines_UpdateStatus. destruct (UpdateStatus_err env _);
      intros H; injection H as <- <-; simpl; auto.
Qed.

(** X3. Whatever [setTaskRef] is given, it either leaves the world as it
    was, or it returns nil with exactly the given reference stored; it
    never changes the provider spec of the stored machine (and so its
    Instance Reference), the events, the submitted clones or the pools. *)
Theorem setTaskRef_changes_the_reference_only pv env machine taskref w r w' :
  setTaskRef pv env machine taskref w = (r, w') ->
  (w' = w
   \/ (r = Return tt /\ vsphereutils.GetActiveTasks (store w') = taskref))
  /\ clusterv1.ProviderSpec (store w') = clusterv1.ProviderSpec (store w)
  /\ events w' = events w /\ clones w' = clones w /\ pools w' = pools w.
Proof. apply setTaskRef_effect. Qed.

Lemma setTaskRef_changes_the_reference_only_witness :
  let m := Scenario.machine [] [] "task-1" in
  let env := Scenario.env (inl (errorString "no task")) None in
  let r := setTaskRef Scenario.pv env m "task-2" (Scenario.world m) in
  (snd r = Scenario.world m
   \/ (fst r = Return tt /\ vsphereutils.GetActiveTasks (store (snd r)) = "task-2"))
  /\ clusterv1.ProviderSpec (store (snd r)) = clusterv1.ProviderSpec m
  /\ events (snd r) = [] /\ clones (snd r) = [] /\ pools (snd r) = [].
Proof.
  intros m env r.
  apply (setTaskRef_changes_the_reference_only Scenario.pv env m "task-2"
           (Scenario.world m) (fst r) (snd r)).
  reflexivity.
Defined.

(** X4. When the provider spec of the machine decodes and the API server
    accepts the write, [updateVMReference] returns the machine that is now
    stored: its Instance Reference is the given one, its machine spec, name
    and UID are those of the machine, and its status, so its Task
    Reference, is the one that was stored; no event, no clone. *)
Theorem updateVMReference_records_the_reference pv env machine c vmref w :
  clusterv1.ProviderSpec machine = clusterv1.SpecOf c ->
  clusterV1alpha1 pv = true -> storeAccepts env ->
  exists m',
    updateVMReference pv env machine vmref w = (Return m', setStore w m')
    /\ instanceRef m' = vmref
    /\ (exists c', clusterv1.ProviderSpec m' = clusterv1.SpecOf c'
                   /\ vsphereconfigv1.MachineSpec c' = vsphereconfigv1.MachineSpec c
                   /\ vsphereconfigv1.Kind c' = vsphereconfigv1.KindName
                   /\ vsphereconfigv1.APIVersion c' = vsphereconfigv1.SchemeGroupVersion)
    /\ clusterv1.Name m' = clusterv1.Name machine
    /\ clusterv1.UID m' = clusterv1.UID machine
    /\ clusterv1.ProviderStatus m' = clusterv1.ProviderStatus (store w).
Proof.
  intros Hp Hc Ha. eexists. split.
  - apply (updateVMReference_writes pv env machine c vmref w Hp Hc Ha).
  - split; [reflexivity |]. split; [| repeat split].
    eexists. split; [reflexivity |]. repeat split.
Qed.

Lemma updateVMReference_records_the_reference_witness :
  let m := Scenario.machine [] [] "task-1" in
  exists m',
    updateVMReference Scenario.pv (Scenario.env (inl (errorString "no task")) None)
      m "vm-42" (Scenario.world m)
    = (Return m', setStore (Scenario.world m) m')
    /\ instanceRef m' = "vm-42"
    /\ (exists c', clusterv1.ProviderSpec m' = clusterv1.SpecOf c'
                   /\ vsphereconfigv1.MachineSpec c' = Scenario.machineSpec [] []
                   /\ vsphereconfigv1.Kind c' = vsphereconfigv1.KindName
                   /\ vsphereconfigv1.APIVersion c' = vsphereconfigv1.SchemeGroupVersion)
    /\ clusterv1.Name m' = "node-1"
    /\ clusterv1.UID m' = clusterv1.UID m
    /\ clusterv1.ProviderStatus m' = clusterv1.ProviderStatus m.
Proof.
  intros m.
  refine (updateVMReference_records_the_reference Scenario.pv
            (Scenario.env (inl (errorString "no task")) None) m _ "vm-42"
            (Scenario.world m) eq_refl eq_refl _).
  split; intros; reflexivity.
Defined.

Lemma updateVMReference_refused pv env machine c vmref e w :
  clusterv1.ProviderSpec machine = clusterv1.SpecOf c ->
  clusterV1alpha1 pv = true ->
  Update_err env (withMachineRef machine c vmref) = Some e ->
  updateVMReference pv env machine vmref w = (Raise e, w).
Proof.
  intros Hp Hc Hu. unfold updateVMReference, bind, try. rewrite Hp. simpl.
  rewrite Hc. unfold Machines_Update.
  change (clusterv1.withProviderSpec machine _) with (withMachineRef machine c vmref).
  rewrite Hu. reflexivity.
Qed.

(** X5. [updateVMReference] fails without a trace: when the provider spec
    does not decode, or when the API server refuses the write, it returns
    that error and the world is as it was. *)
Theorem updateVMReference_failure_changes_nothing pv env machine vmref w :
  (forall e, clusterv1.ProviderSpec machine = clusterv1.SpecUndecodable e ->
             updateVMReference pv env machine vmref w = (Raise e, w))
  /\ (forall c e, clusterv1.ProviderSpec machine = clusterv1.SpecOf c ->
                  clusterV1alpha1 pv = true ->
                  Update_err env (withMachineRef machine c vmref) = Some e ->
                  updateVMReference pv env machine vmref w = (Raise e, w)).
Proof.
  split.
  - intros e Hp. unfold updateVMReference, bind, try. rewrite Hp. reflexivity.
  - intros c e Hp Hc Hu. apply (updateVMReference_refused pv env machine c vmref e w Hp Hc Hu).
Qed.

Lemma updateVMReference_failure_changes_nothing_witness :
  let m := Scenario.machine [] [] "" in
  let broken := clusterv1.withProviderSpec m (clusterv1.SpecUndecodable (errorString "bad json")) in
  let env := Scenario.env (inl (errorString "no task")) None in
  updateVMReference Scenario.pv env broken "vm-42" (Scenario.world broken)
  = (Raise (errorString "bad json"), Scenario.world broken).
Proof.
  intros m broken env.
  apply (proj1 (updateVMReference_failure_changes_nothing Scenario.pv env broken "vm-42"
                  (Scenario.world broken)) (errorString "bad json")).
  reflexivity.
Defined.

(** X6. Recording an Instance Reference is idempotent: [updateVMReference]
    on the machine that a first call returned, with the same reference,
    returns that machine again and stores the same object. *)
Theorem updateVMReference_idempotent pv env machine c vmref w m1 w1 :
  clusterv1.ProviderSpec machine = clusterv1.SpecOf c ->
  storeAccepts env ->
  updateVMReference pv env machine vmref w = (Return m1, w1) ->
  updateVMReference pv env m1 vmref w1 = (Return m1, w1).
Proof.
  intros Hp Ha H1.
  assert (Hc : clusterV1alpha1 pv = true).
  { unfold updateVMReference, bind, try in H1. rewrite Hp in H1. simpl in H1.
    destruct (clusterV1alpha1 pv); [reflexivity | discriminate]. }
  rewrite (updateVMReference_writes pv env machine c vmref w Hp Hc Ha) in H1.
  injection H1 as <- <-.
  erewrite updateVMReference_writes; [| reflexivity | exact Hc | exact Ha].
  reflexivity.
Qed.

Lemma updateVMReference_idempotent_witness :
  let m := Scenario.machine [] [] "task-1" in
  let env := Scenario.env (inl (errorString "no task")) None in
  let first := updateVMReference Scenario.pv env m "vm-42" (Scenario.world m) in
  exists m1 w1,
    first = (Return m1, w1)
    /\ updateVMReference Scenario.pv env m1 "vm-42" w1 = (Return m1, w1).
Proof.
  intros m env first. eexists _, _. split; [vm_compute; reflexivity |].
  refine (updateVMReference_idempotent Scenario.pv env m _ "vm-42" (Scenario.world m) _ _
            eq_refl _ _).
  - split; intros; reflexivity.
  - vm_compute. reflexivity.
Defined.

(** ** The task tracker, the other branches *)

Lemma submitsNothing_bind {A B} (m : M A) (k : A -> M B) :
  submitsNothing m -> (forall a, submitsNothing (k a)) -> submitsNothing (bind m k).
Proof.
  intros Hm Hk w r w'. unfold bind.
  destruct (m w) as [[a|e|p] w1] eqn:E; intros H.
  - destruct (Hm _ _ _ E) as (H1 & H2). destruct (Hk a _ _ _ H) as (H3 & H4).
    split; congruence.
  - injection H as <- <-. exact (Hm _ _ _ E).
  - injection H as <- <-. exact (Hm _ _ _ E).
Qed.

Lemma submitsNothing_const {A} (o : outcome A) : submitsNothing (fun w => (o, w)).
Proof. intros w r w' H. injection H as <- <-. auto. Qed.

Lemma submitsNothing_Eventf pv ty rs msg : submitsNothing (Eventf pv ty rs msg).
Proof.
  intros w r w'. unfold Eventf. destruct (eventRecorder pv);
    intros H; injection H as <- <-; auto.
Qed.

Lemma submitsNothing_setTaskRef pv env machine taskref :
  submitsNothing (setTaskRef pv env machine taskref).
Proof.
  intros w r w' H.
  destruct (setTaskRef_effect _ _ _ _ _ _ _ H) as (_ & _ & _ & Hc & Hp).
  auto.
Qed.

Lemma submitsNothing_updateVMReference pv env machine vmref :
  submitsNothing (updateVMReference pv env machine vmref).
Proof.
  intros w r w'. unfold updateVMReference, bind, try.
  destruct (vsphereutils.GetMachineProviderSpec _) as [e | c]; simpl.
  - intros H. injection H as <- <-. auto.
  - destruct (clusterV1alpha1 pv); [| intros H; injection H as <- <-; auto].
    unfold Machines_Update. destruct (Update_err env _);
      intros H; injection H as <- <-; auto.
Qed.

Lemma submitsNothing_verifyAndUpdateTask pv env machine taskmoref :
  submitsNothing (verifyAndUpdateTask pv env machine taskmoref).
Proof.
  unfold verifyAndUpdateTask.
  destruct (RetrieveOne env taskmoref) as [e | info];
    [apply submitsNothing_setTaskRef |].
  cbv zeta.
  repeat match goal with
         | |- submitsNothing (if ?b then _ else _) => destruct b
         | |- submitsNothing (match ?x with _ => _ end) => destruct x
         | |- submitsNothing (bind _ _) => apply submitsNothing_bind; [| intros ?]
         | |- submitsNothing (Eventf _ _ _ _) => apply submitsNothing_Eventf
         | |- submitsNothing (setTaskRef _ _ _ _) => apply submitsNothing_setTaskRef
         | |- submitsNothing (updateVMReference _ _ _ _) =>
             apply submitsNothing_updateVMReference
         | |- submitsNothing _ => apply submitsNothing_const
         end.
Qed.

(** X7. While a Task Reference is stored, a reconcile submits no clone and
    creates no resource pool, whatever the platform answers on the task
    (and whether or not the provisioner holds a client or a recorder). *)
Theorem tracked_machine_is_never_cloned pv env cluster machine task w r w' :
  sessionOk env -> tracks machine task ->
  Create pv env (Some cluster) machine w = (r, w') ->
  clones w' = clones w /\ pools w' = pools w.
Proof.
  intros Hs Ht H. rewrite (Create_tracker _ _ _ _ _ _ Hs Ht) in H.
  exact (submitsNothing_verifyAndUpdateTask pv env machine task _ _ _ H).
Qed.

Lemma tracked_machine_is_never_cloned_witness :
  let vm := Scenario.mkRef "VirtualMachine" "vm-42" in
  let info := Scenario.taskInfo "success" "VirtualMachine.clone" (types.AnyMoRef vm) in
  let m := Scenario.machine [] [] "task-1" in
  let r := Create Scenario.pv (Scenario.env (inr info) None) (Some Scenario.cluster) m
             (Scenario.world m) in
  clones (snd r) = [] /\ pools (snd r) = [].
Proof.
  intros vm info m r.
  apply (tracked_machine_is_never_cloned Scenario.pv (Scenario.env (inr info) None)
           Scenario.cluster m "task-1" (Scenario.world m) (fst r) (snd r)).
  - split; reflexivity.
  - split; [reflexivity | discriminate].
  - reflexivity.
Defined.

(** X8. A tracked operation that is no clone and completed with success:
    the Task Reference is cleared and the reconcile returns nil; a
    reconfigure is announced by one "Reconfigured" event that names the
    entity of the task, another kind by no event; the Instance Reference is
    not touched. *)
Theorem succeeded_other_operation_clears_reference pv env cluster machine task info w :
  sessionOk env -> wired pv -> storeAccepts env -> tracks machine task ->
  RetrieveOne env task = inr info ->
  types.State info = types.TaskInfoStateSuccess ->
  types.DescriptionId info <> "VirtualMachine.clone" ->
  exists w',
    Create pv env (Some cluster) machine w = (Return tt, w')
    /\ events w'
       = (events w ++
          if bool_decide (types.DescriptionId info = "VirtualMachine.reconfigure")
          then [reconfiguredEvent info] else [])%list
    /\ vsphereutils.GetActiveTasks (store w') = ""
    /\ clusterv1.ProviderSpec (store w') = clusterv1.ProviderSpec (store w).
Proof.
  intros Hs [Hc He] Ha Ht Hq Hst Hd.
  rewrite (Create_tracker _ _ _ _ _ _ Hs Ht).
  unfold verifyAndUpdateTask. rewrite Hq. cbv zeta. rewrite Hst. simpl.
  rewrite (bool_decide_eq_false_2 _ Hd).
  destruct (bool_decide (types.DescriptionId info = "VirtualMachine.reconfigure")).
  - unfold bind at 1, Eventf. rewrite He.
    rewrite (setTaskRef_writes pv env machine task "" _ Ht (proj2 Ht) Hc Ha).
    eexists. split; [reflexivity |]. repeat split.
  - unfold bind at 1, ret.
    rewrite (setTaskRef_writes pv env machine task "" _ Ht (proj2 Ht) Hc Ha).
    eexists. split; [reflexivity |]. simpl. rewrite app_nil_r. repeat split.
Qed.

Lemma succeeded_other_operation_clears_reference_witness :
  let info := Scenario.taskInfo "success" "VirtualMachine.reconfigure" types.AnyNil in
  let m := Scenario.machine [] [] "task-1" in
  exists w',
    Create Scenario.pv (Scenario.env (inr info) None) (Some Scenario.cluster) m (Scenario.world m)
    = (Return tt, w')
    /\ events w' = [reconfiguredEvent info]
    /\ vsphereutils.GetActiveTasks (store w') = ""
    /\ clusterv1.ProviderSpec (store w') = clusterv1.ProviderSpec m.
Proof.
  intros info m.
  apply (succeeded_other_operation_clears_reference Scenario.pv (Scenario.env (inr info) None)
           Scenario.cluster m "task-1" info (Scenario.world m)).
  - split; reflexivity.
  - split; reflexivity.
  - split; intros; reflexivity.
  - split; [reflexivity | discriminate].
  - reflexivity.
  - reflexivity.
  - discriminate.
Defined.

(** X9. A clone that completed with success but whose result is no
    managed object reference: the type assertion panics before anything is
    recorded or written; the world is as it was and the Task Reference is
    still stored. *)
Theorem succeeded_clone_without_reference_panics pv env cluster machine task info w :
  sessionOk env -> tracks machine task ->
  RetrieveOne env task = inr info ->
  types.State info = types.TaskInfoStateSuccess ->
  types.DescriptionId info = "VirtualMachine.clone" ->
  (forall vmref, types.Result info <> types.AnyMoRef vmref) ->
  Create pv env (Some cluster) machine w = (Panic badAssert, w).
Proof.
  intros Hs Ht Hq Hst Hd Hr.
  rewrite (Create_tracker _ _ _ _ _ _ Hs Ht).
  unfold verifyAndUpdateTask. rewrite Hq. cbv zeta. rewrite Hst, Hd. simpl.
  destruct (types.Result info) as [| vmref |]; try reflexivity.
  destruct (Hr vmref eq_refl).
Qed.

Lemma succeeded_clone_without_reference_panics_witness :
  let info := Scenario.taskInfo "success" "VirtualMachine.clone" types.AnyNil in
  let m := Scenario.machine [] [] "task-1" in
  Create Scenario.pv (Scenario.env (inr info) None) (Some Scenario.cluster) m (Scenario.world m)
  = (Panic badAssert, Scenario.world m).
Proof.
  intros info m.
  apply (succeeded_clone_without_reference_panics Scenario.pv (Scenario.env (inr info) None)
           Scenario.cluster m "task-1" info (Scenario.world m)).
  - split; reflexivity.
  - split; [reflexivity | discriminate].
  - reflexivity.
  - reflexivity.
  - reflexivity.
  - intros vmref. discriminate.
Defined.

(** X10. A clone that completed with success while the API server refuses
    the write of the Instance Reference: the reconcile returns that error
    and the stored machine is as it was, Task Reference included, but the
    "Created" event has been recorded already, so that every retry records
    it again. *)
Theorem refused_reference_write_keeps_task pv env cluster machine task info vmref c e w :
  sessionOk env -> wired pv -> tracks machine task ->
  clusterv1.ProviderSpec machine = clusterv1.SpecOf c ->
  RetrieveOne env task = inr info ->
  types.State info = types.TaskInfoStateSuccess ->
  types.DescriptionId info = "VirtualMachine.clone" ->
  types.Result info = types.AnyMoRef vmref ->
  Update_err env (withMachineRef machine c (types.Value vmref)) = Some e ->
  exists w',
    Create pv env (Some cluster) machine w = (Raise e, w')
    /\ store w' = store w
    /\ events w' = (events w ++ [createdEvent machine (types.Value vmref)])%list
    /\ clones w' = clones w.
Proof.
  intros Hs [Hc He] Ht Hp Hq Hst Hd Hr Hu.
  rewrite (Create_tracker _ _ _ _ _ _ Hs Ht).
  rewrite (tracker_clone_succeeded pv env machine task info Hq w vmref Hst Hd Hr).
  unfold bind at 1, Eventf. rewrite He.
  unfold bind at 1.
  rewrite (updateVMReference_refused pv env machine c (types.Value vmref) e _ Hp Hc Hu).
  eexists. split; [reflexivity |]. repeat split.
Qed.

Lemma refused_reference_write_keeps_task_witness :
  let vm := Scenario.mkRef "VirtualMachine" "vm-42" in
  let info := Scenario.taskInfo "success" "VirtualMachine.clone" (types.AnyMoRef vm) in
  let m := Scenario.machine [] [] "task-1" in
  let conflict := errorString "the object has been modified" in
  let env := Variant.with_Update_err (Scenario.env (inr info) None)
               (fun _ => Some conflict) in
  exists w',
    Create Scenario.pv env (Some Scenario.cluster) m (Scenario.world m) = (Raise conflict, w')
    /\ store w' = m
    /\ events w' = [createdEvent m "vm-42"]
    /\ clones w' = [].
Proof.
  intros vm info m conflict env.
  refine (refused_reference_write_keeps_task Scenario.pv env Scenario.cluster m "task-1"
            info vm _ conflict (Scenario.world m) _ _ _ eq_refl eq_refl eq_refl eq_refl
            eq_refl eq_refl).
  - split; reflexivity.
  - split; reflexivity.
  - split; [reflexivity | discriminate].
Defined.

(** ** The entry point, the other ways out *)

(** Before the session with the platform is established [Create]
    does nothing: a nil cluster is reported first, then a failure of the
    session, then a failure of the user session; in each case the error is
    returned and the world is as it was. *)
Theorem Create_without_session_does_nothing pv env machine w :
  Create pv env None machine w = (Raise (errorString (ClusterIsNullErr env)), w)
  /\ (forall cluster e,
        sessionFromProviderConfig env = Some e ->
        Create pv env (Some cluster) machine w = (Raise e, w))
  /\ (forall cluster e,
        sessionFromProviderConfig env = None -> UserSession env = Some e ->
        Create pv env (Some cluster) machine w = (Raise e, w)).
Proof.
  split; [reflexivity |]. split.
  - intros cluster e H. unfold Create, check, bind. rewrite H. reflexivity.
  - intros cluster e H1 H2. unfold Create, check, bind. rewrite H1, H2. reflexivity.
Qed.

Lemma Create_without_session_does_nothing_witness :
  let m := Scenario.machine [] [] "task-1" in
  let expired := errorString "session is not authenticated" in
  let env := Variant.with_UserSession (Scenario.env (inl (errorString "no task")) None)
               (Some expired) in
  Create Scenario.pv env (Some Scenario.cluster) m (Scenario.world m)
  = (Raise expired, Scenario.world m).
Proof.
  intros m expired env.
  apply (proj2 (proj2 (Create_without_session_does_nothing Scenario.pv env m
                         (Scenario.world m))) Scenario.cluster expired).
  - reflexivity.
  - reflexivity.
Defined.

(** X11. Without a stored Task Reference, a failure of the query by
    instance UUID ends the reconcile: the error is returned, wrapped as a
    hard error even when the failure is a retry signal, and the world is
    as it was; nothing is cloned. *)
Theorem resolver_failure_ends_the_reconcile pv env cluster machine err w :
  sessionOk env -> vsphereutils.GetActiveTasks machine = "" ->
  FindByUuid env None (clusterv1.UID machine) = inl err ->
  exists e,
    Create pv env (Some cluster) machine w = (Raise e, w)
    /\ e = Errorf "error quering virtual machine or template using FindByUuid: %s" [Error err]
    /\ isHardError e = true.
Proof.
  intros Hs Ht Hf. eexists. split; [| split; reflexivity].
  rewrite (Create_resolver _ _ _ _ _ Hs Ht).
  unfold findVMByInstanceUUID, tryWith. unfold bind at 1 2. rewrite Hf. reflexivity.
Qed.

Lemma resolver_failure_ends_the_reconcile_witness :
  let m := Scenario.machine [] [] "" in
  let busy := RequeueAfterError (10 * Second) in
  let env := Variant.with_FindByUuid (Scenario.env (inl (errorString "no task")) None)
               (fun _ _ => inl busy) in
  exists e,
    Create Scenario.pv env (Some Scenario.cluster) m (Scenario.world m)
    = (Raise e, Scenario.world m)
    /\ e = Errorf "error quering virtual machine or template using FindByUuid: %s" [Error busy]
    /\ isHardError e = true.
Proof.
  intros m busy env.
  apply (resolver_failure_ends_the_reconcile Scenario.pv env Scenario.cluster m busy
           (Scenario.world m)).
  - split; reflexivity.
  - reflexivity.
  - reflexivity.
Defined.

(** X12. A virtual machine is found by instance UUID but the API server
    refuses the write of the Instance Reference: [Create] returns that
    error without calling [cloneVirtualMachine]; the "Created" event has
    been recorded, the stored machine is as it was, nothing is cloned. *)
Theorem refused_reference_write_stops_before_clone pv env cluster machine vm c e w :
  sessionOk env -> wired pv -> vsphereutils.GetActiveTasks machine = "" ->
  FindByUuid env None (clusterv1.UID machine) = inr (Some vm) ->
  types.Value vm <> "" ->
  clusterv1.ProviderSpec machine = clusterv1.SpecOf c ->
  Update_err env (withMachineRef machine c (types.Value vm)) = Some e ->
  exists w',
    Create pv env (Some cluster) machine w = (Raise e, w')
    /\ events w' = (events w ++ [createdEvent machine (types.Value vm)])%list
    /\ store w' = store w /\ clones w' = clones w /\ pools w' = pools w.
Proof.
  intros Hs [Hc He] Ht Hf Hne Hp Hu.
  rewrite (Create_resolver _ _ _ _ _ Hs Ht).
  unfold findVMByInstanceUUID, tryWith. unfold bind at 1 2. rewrite Hf. simpl.
  rewrite (bool_decide_eq_true_2 _ Hne).
  unfold bind at 1 2, Eventf. rewrite He. unfold bind at 1.
  rewrite (updateVMReference_refused pv env machine c (types.Value vm) e _ Hp Hc Hu).
  eexists. split; [reflexivity |]. repeat split.
Qed.

Lemma refused_reference_write_stops_before_clone_witness :
  let vm := Scenario.mkRef "VirtualMachine" "vm-42" in
  let m := Scenario.machine [] [] "" in
  let conflict := errorString "the object has been modified" in
  let env := Variant.with_Update_err (Scenario.env (inl (errorString "no task")) (Some vm))
               (fun _ => Some conflict) in
  exists w',
    Create Scenario.pv env (Some Scenario.cluster) m (Scenario.world m) = (Raise conflict, w')
    /\ events w' = [createdEvent m "vm-42"]
    /\ store w' = m /\ clones w' = [] /\ pools w' = [].
Proof.
  intros vm m conflict env.
  refine (refused_reference_write_stops_before_clone Scenario.pv env Scenario.cluster m vm _
            conflict (Scenario.world m) _ _ eq_refl eq_refl _ eq_refl eq_refl).
  - split; reflexivity.
  - split; reflexivity.
  - discriminate.
Defined.

(** ** Submitting the clone *)

Lemma deviceChanges_world env ms l w r w' :
  deviceChanges env ms l w = (r, w') -> w' = w.
Proof.
  unfold deviceChanges, bind, lift, raise.
  destruct (resizeDisks _ _ _ _) as [[specs ch] | e | p];
    try (intros H; injection H as <- <-; reflexivity).
  destruct (negb ch && _); [intros H; injection H as <- <-; reflexivity |].
  destruct (removeNics _ _); intros H; injection H as <- <-; reflexivity.
Qed.

Lemma submit_accepted_is_setTaskRef pv env machine inputs spec task w :
  Clone env (in_src inputs) (in_vmFolder inputs) (clusterv1.Name machine) spec = inr task ->
  submit pv env machine inputs spec w
  = setTaskRef pv env machine (types.Value task)
      (addClone (announced pv machine w) (cloneCall machine inputs spec task)).
Proof.
  intros Hc. unfold submit.
  assert (Hev : (if eventRecorder pv
                 then Eventf pv EventTypeNormal "Creating"
                        ("Creating Machine " +:+ clusterv1.Name machine)
                 else ret tt) w = (Return tt, announced pv machine w)).
  { unfold announced, Eventf. destruct (eventRecorder pv); reflexivity. }
  rewrite (bind_Return _ _ _ _ _ Hev).
  unfold bind at 1, submitClone. rewrite Hc. reflexivity.
Qed.

Lemma submit_refused pv env machine inputs spec e w :
  Clone env (in_src inputs) (in_vmFolder inputs) (clusterv1.Name machine) spec = inl e ->
  submit pv env machine inputs spec w = (Raise e, announced pv machine w).
Proof.
  intros Hc. unfold submit.
  assert (Hev : (if eventRecorder pv
                 then Eventf pv EventTypeNormal "Creating"
                        ("Creating Machine " +:+ clusterv1.Name machine)
                 else ret tt) w = (Return tt, announced pv machine w)).
  { unfold announced, Eventf. destruct (eventRecorder pv); reflexivity. }
  rewrite (bind_Return _ _ _ _ _ Hev).
  unfold bind at 1, submitClone. rewrite Hc. reflexivity.
Qed.

Lemma announced_clones pv machine w : clones (announced pv machine w) = clones w.
Proof. unfold announced. destruct (eventRecorder pv); reflexivity. Qed.

Lemma announced_store pv machine w : store (announced pv machine w) = store w.
Proof. unfold announced. destruct (eventRecorder pv); reflexivity. Qed.

Lemma setTaskRef_untracked pv env machine taskref w :
  untracked machine -> taskref <> "" ->
  clusterV1alpha1 pv = true -> storeAccepts env ->
  setTaskRef pv env machine taskref w
  = (Return tt, setStore w (clusterv1.withProviderStatus (store w) (statusWith env taskref))).
Proof.
  intros [Hg Hdec] Hne Hc [_ Hs].
  unfold vsphereutils.GetActiveTasks in Hg.
  unfold setTaskRef, bind, try.
  unfold vsphereutils.GetMachineProviderStatus in *.
  destruct (clusterv1.ProviderStatus machine) as [| e | s]; simpl.
  - rewrite Hc. simpl. unfold Machines_UpdateStatus. rewrite Hs. reflexivity.
  - destruct (Hdec e eq_refl).
  - rewrite bool_decide_eq_false_2 by congruence.
    rewrite Hc. simpl. unfold Machines_UpdateStatus. rewrite Hs. reflexivity.
Qed.

Lemma Create_untracked_unknown pv env cluster machine w :
  sessionOk env -> vsphereutils.GetActiveTasks machine = "" ->
  FindByUuid env None (clusterv1.UID machine) = inr None ->
  Create pv env (Some cluster) machine w = cloneVirtualMachine pv env cluster machine w.
Proof.
  intros Hs Ht Hf. rewrite (Create_resolver _ _ _ _ _ Hs Ht).
  unfold findVMByInstanceUUID, tryWith. unfold bind at 1 2. rewrite Hf. reflexivity.
Qed.

(** X13. A machine without a Task Reference for which no virtual machine
    is found, on a platform where the build of the clone request goes
    through: the reconcile submits exactly one clone request, tagged with
    the UID of the machine as instance UUID and powered on, stores the task
    of that request as the Task Reference and returns nil; the provider
    spec of the stored machine is not touched. *)
Theorem first_reconcile_submits_one_clone pv env cluster machine w inputs w1 specs task :
  sessionOk env -> clusterV1alpha1 pv = true -> storeAccepts env ->
  untracked machine ->
  FindByUuid env None (clusterv1.UID machine) = inr None ->
  cloneGoesThrough env cluster machine w inputs w1 specs task ->
  types.Value task <> "" ->
  let spec := cloneSpec cluster machine inputs specs in
  exists w',
    Create pv env (Some cluster) machine w = (Return tt, w')
    /\ clones w' = (clones w ++ [cloneCall machine inputs spec task])%list
    /\ tracks (store w') (types.Value task)
    /\ clusterv1.ProviderSpec (store w') = clusterv1.ProviderSpec (store w)
    /\ types.InstanceUuid (types.Config spec) = clusterv1.UID machine
    /\ types.PowerOn spec = true
    /\ types.DeviceChange (types.Config spec) = specs.
Proof.
  intros Hs Hc Ha Hun Hf (Hi & Hd & Hcl) Hne spec.
  destruct (quiet_cloneInputs env cluster machine _ _ _ Hi) as (Hst & _ & Hclones).
  rewrite (Create_untracked_unknown pv env cluster machine w Hs (proj1 Hun) Hf).
  rewrite (cloneVirtualMachine_submits pv env cluster machine w inputs w1 specs Hi Hd).
  rewrite (submit_accepted_is_setTaskRef pv env machine inputs _ task w1 Hcl).
  rewrite (setTaskRef_untracked pv env machine (types.Value task) _ Hun Hne Hc Ha).
  eexists. split; [reflexivity |]. simpl.
  rewrite announced_clones, announced_store, Hclones, Hst.
  repeat split. exact Hne.
Qed.

Lemma first_reconcile_submits_one_clone_witness :
  let m := Scenario.machine [] [] "" in
  let env := Scenario.env (inl (errorString "no task")) None in
  let task := Scenario.mkRef "Task" "task-77" in
  let specs := removalOf <$> SelectByType isVirtualEthernetCard Scenario.templateDevices in
  exists w',
    Create Scenario.pv env (Some Scenario.cluster) m (Scenario.world m) = (Return tt, w')
    /\ clones w'
       = [cloneCall m (Scenario.inputs [] [])
            (cloneSpec Scenario.cluster m (Scenario.inputs [] []) specs) task]
    /\ tracks (store w') "task-77"
    /\ clusterv1.ProviderSpec (store w') = clusterv1.ProviderSpec m.
Proof.
  intros m env task specs.
  destruct (first_reconcile_submits_one_clone Scenario.pv env Scenario.cluster m
              (Scenario.world m) (Scenario.inputs [] []) (Scenario.world m) specs task)
    as (w' & H1 & H2 & H3 & H4 & _).
  - split; reflexivity.
  - reflexivity.
  - split; intros; reflexivity.
  - split; [reflexivity | intros e; discriminate].
  - reflexivity.
  - split; [vm_compute; reflexivity |]. split; [vm_compute; reflexivity | reflexivity].
  - discriminate.
  - exists w'. split; [exact H1 |]. split; [exact H2 |]. split; [exact H3 | exact H4].
Defined.

(** X14. After such a first reconcile, the stored machine is tracked: the
    next reconcile, whatever the platform then answers, is the call of the
    task tracker on the stored task and submits no second clone. *)
Theorem second_reconcile_follows_the_task pv env cluster machine w inputs w1 specs task :
  sessionOk env -> clusterV1alpha1 pv = true -> storeAccepts env ->
  untracked machine ->
  FindByUuid env None (clusterv1.UID machine) = inr None ->
  cloneGoesThrough env cluster machine w inputs w1 specs task ->
  types.Value task <> "" ->
  forall env2, sessionOk env2 ->
    let w' := snd (Create pv env (Some cluster) machine w) in
    reconcile pv env2 (Some cluster) w'
    = verifyAndUpdateTask pv env2 (store w') (types.Value task) w'
    /\ clones (snd (reconcile pv env2 (Some cluster) w')) = clones w'.
Proof.
  intros Hs Hc Ha Hun Hf (Hi & Hd & Hcl) Hne env2 Hs2 w'.
  assert (Ht : tracks (store w') (types.Value task)).
  { unfold w'.
    rewrite (Create_untracked_unknown pv env cluster machine w Hs (proj1 Hun) Hf).
    rewrite (cloneVirtualMachine_submits pv env cluster machine w inputs w1 specs Hi Hd).
    rewrite (submit_accepted_is_setTaskRef pv env machine inputs _ task w1 Hcl).
    rewrite (setTaskRef_untracked pv env machine (types.Value task) _ Hun Hne Hc Ha).
    split; [reflexivity | exact Hne]. }
  unfold reconcile. rewrite (Create_tracker pv env2 cluster (store w') _ w' Hs2 Ht).
  split; [reflexivity |].
  destruct (verifyAndUpdateTask pv env2 (store w') (types.Value task) w') as [r w2] eqn:E.
  exact (proj1 (submitsNothing_verifyAndUpdateTask pv env2 _ _ _ _ _ E)).
Qed.

Lemma second_reconcile_follows_the_task_witness :
  let m := Scenario.machine [] [] "" in
  let env := Scenario.env (inl (errorString "no task")) None in
  let running := Scenario.taskInfo "running" "VirtualMachine.clone" types.AnyNil in
  let env2 := Scenario.env (inr running) None in
  let w' := snd (Create Scenario.pv env (Some Scenario.cluster) m (Scenario.world m)) in
  reconcile Scenario.pv env2 (Some Scenario.cluster) w'
  = verifyAndUpdateTask Scenario.pv env2 (store w') "task-77" w'
  /\ clones (snd (reconcile Scenario.pv env2 (Some Scenario.cluster) w')) = clones w'.
Proof.
  intros m env running env2.
  refine (second_reconcile_follows_the_task Scenario.pv env Scenario.cluster m
            (Scenario.world m) (Scenario.inputs [] []) (Scenario.world m)
            (removalOf <$> SelectByType isVirtualEthernetCard Scenario.templateDevices)
            (Scenario.mkRef "Task" "task-77") _ eq_refl _ _ eq_refl _ _ env2 _).
  - split; reflexivity.
  - split; intros; reflexivity.
  - split; [reflexivity | intros e; discriminate].
  - split; [vm_compute; reflexivity |]. split; [vm_compute; reflexivity | reflexivity].
  - discriminate.
  - split; reflexivity.
Defined.

(** X15. The platform accepts the clone request but the API server refuses
    the write of its Task Reference: [cloneVirtualMachine] returns that
    error, the request is on the platform and the stored machine does not
    track it. *)
Theorem refused_status_write_leaves_clone_untracked
    pv env cluster machine w inputs w1 specs task e :
  clusterV1alpha1 pv = true -> untracked machine ->
  cloneGoesThrough env cluster machine w inputs w1 specs task ->
  types.Value task <> "" ->
  (forall m, UpdateStatus_err env m = Some e) ->
  exists w',
    cloneVirtualMachine pv env cluster machine w = (Raise e, w')
    /\ clones w'
       = (clones w ++ [cloneCall machine inputs (cloneSpec cluster machine inputs specs) task])%list
    /\ store w' = store w
    /\ vsphereutils.GetActiveTasks (store w') = vsphereutils.GetActiveTasks (store w).
Proof.
  intros Hc [Hg Hdec] (Hi & Hd & Hcl) Hne Hu.
  destruct (quiet_cloneInputs env cluster machine _ _ _ Hi) as (Hst & _ & Hclones).
  rewrite (cloneVirtualMachine_submits pv env cluster machine w inputs w1 specs Hi Hd).
  rewrite (submit_accepted_is_setTaskRef pv env machine inputs _ task w1 Hcl).
  unfold vsphereutils.GetActiveTasks in Hg.
  unfold setTaskRef, bind, try. unfold vsphereutils.GetMachineProviderStatus in *.
  assert (Hfin : forall w0,
            (if negb (clusterV1alpha1 pv) then ret tt
             else bind (Machines_UpdateStatus env
                          (clusterv1.withProviderStatus machine
                             (clusterv1.StatusOf
                                {| vsphereconfigv1.LastUpdated := now env;
                                   vsphereconfigv1.TaskRef := types.Value task |})))
                    (fun _ => ret tt)) w0 = (Raise e, w0)).
  { intros w0. rewrite Hc. simpl. unfold bind, Machines_UpdateStatus. rewrite Hu. reflexivity. }
  destruct (clusterv1.ProviderStatus machine) as [| e' | s0]; simpl.
  - rewrite Hfin. eexists. split; [reflexivity |]. simpl.
    rewrite announced_clones, announced_store, Hclones, Hst. auto.
  - destruct (Hdec e' eq_refl).
  - rewrite bool_decide_eq_false_2 by congruence. rewrite Hfin.
    eexists. split; [reflexivity |]. simpl.
    rewrite announced_clones, announced_store, Hclones, Hst. auto.
Qed.

Lemma refused_status_write_leaves_clone_untracked_witness :
  let m := Scenario.machine [] [] "" in
  let conflict := errorString "the object has been modified" in
  let env := Variant.with_UpdateStatus_err (Scenario.env (inl (errorString "no task")) None)
               (fun _ => Some conflict) in
  let specs := removalOf <$> SelectByType isVirtualEthernetCard Scenario.templateDevices in
  exists w',
    cloneVirtualMachine Scenario.pv env Scenario.cluster m (Scenario.world m)
    = (Raise conflict, w')
    /\ clones w'
       = [cloneCall m (Scenario.inputs [] [])
            (cloneSpec Scenario.cluster m (Scenario.inputs [] []) specs)
            (Scenario.mkRef "Task" "task-77")]
    /\ store w' = m
    /\ vsphereutils.GetActiveTasks (store w') = "".
Proof.
  intros m conflict env specs.
  refine (refused_status_write_leaves_clone_untracked Scenario.pv env Scenario.cluster m
            (Scenario.world m) (Scenario.inputs [] []) (Scenario.world m) specs
            (Scenario.mkRef "Task" "task-77") conflict eq_refl _ _ _ _).
  - split; [reflexivity | intros e; discriminate].
  - split; [vm_compute; reflexivity |]. split; [vm_compute; reflexivity | reflexivity].
  - discriminate.
  - intros m0. reflexivity.
Defined.

Lemma cloneVirtualMachine_clones pv env cluster machine w r w' :
  cloneVirtualMachine pv env cluster machine w = (r, w') ->
  (clones w' = clones w /\ r <> Return tt)
  \/ exists c, clones w' = (clones w ++ [c])%list.
Proof.
  unfold cloneVirtualMachine. unfold bind at 1.
  destruct (cloneInputs env cluster machine w) as [[inputs | e | p] w1] eqn:Hi;
    destruct (quiet_cloneInputs env cluster machine _ _ _ Hi) as (_ & _ & Hcl);
    try (intros H; injection H as <- <-; left; split; [exact Hcl | discriminate]).
  unfold bind at 1.
  destruct (deviceChanges env _ _ w1) as [[specs | e | p] w2] eqn:Hd;
    pose proof (deviceChanges_world _ _ _ _ _ _ Hd) as ->;
    try (intros H; injection H as <- <-; left; split; [exact Hcl | discriminate]).
  destruct (Clone env (in_src inputs) (in_vmFolder inputs) (clusterv1.Name machine)
              (cloneSpec cluster machine inputs specs)) as [e | task] eqn:Hc.
  - rewrite (submit_refused pv env machine inputs _ e w1 Hc).
    intros H. injection H as <- <-. left. rewrite announced_clones.
    split; [exact Hcl | discriminate].
  - rewrite (submit_accepted_is_setTaskRef pv env machine inputs _ task w1 Hc).
    intros H. right. eexists.
    rewrite (proj1 (submitsNothing_setTaskRef pv env machine _ _ _ _ H)). simpl.
    rewrite announced_clones, Hcl. reflexivity.
Qed.

Lemma submitsNothing_findVMByInstanceUUID env machine :
  submitsNothing (findVMByInstanceUUID env machine).
Proof.
  unfold findVMByInstanceUUID, tryWith.
  destruct (FindByUuid env None (clusterv1.UID machine)) as [e | [r |]];
    intros w r' w'; unfold bind, raise, ret; intros H; injection H as <- <-; auto.
Qed.

(** X16. One call of [Create] submits at most one clone request, whatever
    its arguments and the answers of the platform; and for a machine
    without a stored Task Reference it returns nil only when it has
    submitted one. *)
Theorem Create_submits_at_most_one_clone pv env cluster machine w r w' :
  Create pv env cluster machine w = (r, w') ->
  (clones w' = clones w \/ exists c, clones w' = (clones w ++ [c])%list)
  /\ (r = Return tt -> vsphereutils.GetActiveTasks machine = "" ->
      exists c, clones w' = (clones w ++ [c])%list).
Proof.
  assert (Hgen : Create pv env cluster machine w = (r, w') ->
                 (clones w' = clones w
                  /\ (r = Return tt -> vsphereutils.GetActiveTasks machine <> ""))
                 \/ exists c, clones w' = (clones w ++ [c])%list).
  { unfold Create. destruct cluster as [cluster |];
      [| intros H; injection H as <- <-; left; split; [reflexivity | discriminate]].
    unfold check.
    destruct (sessionFromProviderConfig env);
      [intros H; injection H as <- <-; left; split; [reflexivity | discriminate] |].
    destruct (UserSession env);
      [intros H; injection H as <- <-; left; split; [reflexivity | discriminate] |].
    unfold bind at 1 2. simpl.
    destruct (bool_decide (vsphereutils.GetActiveTasks machine <> "")) eqn:Ht.
    - intros H. left. apply bool_decide_eq_true_1 in Ht.
      split; [exact (proj1 (submitsNothing_verifyAndUpdateTask pv env _ _ _ _ _ H)) | auto].
    - unfold bind at 1.
      destruct (findVMByInstanceUUID env machine w) as [[vmRef | e | p] w1] eqn:Hf;
        pose proof (proj1 (submitsNothing_findVMByInstanceUUID env machine _ _ _ Hf)) as Hc1;
        try (intros H; injection H as <- <-; left; split; [exact Hc1 | discriminate]).
      unfold bind at 1.
      destruct ((if bool_decide (vmRef <> "")
                 then bind (Eventf pv EventTypeNormal "Created"
                              ("Created Machine " +:+ clusterv1.Name machine
                               +:+ "(" +:+ vmRef +:+ ")"))
                        (fun _ => bind (updateVMReference pv env machine vmRef)
                                    (fun _ => ret tt))
                 else ret tt) w1) as [[u | e | p] w2] eqn:Hu.
      + assert (Hc2 : clones w2 = clones w1).
        { destruct (bool_decide (vmRef <> "")).
          - refine (proj1 (submitsNothing_bind _ _ (submitsNothing_Eventf _ _ _ _) _ _ _ _ Hu)).
            intros _. apply submitsNothing_bind;
              [apply submitsNothing_updateVMReference | intros _; apply submitsNothing_const].
          - injection Hu as _ <-. reflexivity. }
        intros H. destruct (cloneVirtualMachine_clones _ _ _ _ _ _ _ H) as [[Hc3 Hr] | [c Hc3]].
        * left. split; [congruence | intros ->; destruct (Hr eq_refl)].
        * right. exists c. congruence.
      + assert (Hc2 : clones w2 = clones w1).
        { destruct (bool_decide (vmRef <> "")).
          - refine (proj1 (submitsNothing_bind _ _ (submitsNothing_Eventf _ _ _ _) _ _ _ _ Hu)).
            intros _. apply submitsNothing_bind;
              [apply submitsNothing_updateVMReference | intros _; apply submitsNothing_const].
          - discriminate Hu. }
        intros H. injection H as <- <-. left. split; [congruence | discriminate].
      + assert (Hc2 : clones w2 = clones w1).
        { destruct (bool_decide (vmRef <> "")).
          - refine (proj1 (submitsNothing_bind _ _ (submitsNothing_Eventf _ _ _ _) _ _ _ _ Hu)).
            intros _. apply submitsNothing_bind;
              [apply submitsNothing_updateVMReference | intros _; apply submitsNothing_const].
          - discriminate Hu. }
        intros H. injection H as <- <-. left. split; [congruence | discriminate]. }
  intros H. destruct (Hgen H) as [[Hc Hr] | Hex].
  - split; [left; exact Hc |]. intros Hret Ht. destruct (Hr Hret Ht).
  - split; [right; exact Hex | intros _ _; exact Hex].
Qed.

Lemma Create_submits_at_most_one_clone_witness :
  let vm := Scenario.mkRef "VirtualMachine" "vm-42" in
  let m := Scenario.machine [] [] "" in
  let env := Scenario.env (inl (errorString "no task")) (Some vm) in
  let r := Create Scenario.pv env (Some Scenario.cluster) m (Scenario.world m) in
  exists c, clones (snd r) = [c].
Proof.
  intros vm m env r.
  apply (proj2 (Create_submits_at_most_one_clone Scenario.pv env (Some Scenario.cluster) m
                  (Scenario.world m) (fst r) (snd r) eq_refl)).
  - vm_compute. reflexivity.
  - reflexivity.
Defined.

(** ** Resolving the template and the resource pool *)

(** X17. The template is looked up by instance UUID only when its name
    has the format of a UUID, and a hit wins over the lookup by name; when
    that lookup finds nothing, or was not made, the template is looked up
    by name; a failure of the lookup by UUID is returned, wrapped, without
    a lookup by name.  The world is not touched. *)
Theorem resolveTemplate_by_uuid_then_by_name env dc template w :
  (IsValidUUID env template = false ->
   resolveTemplate env dc template w = try (finder_VirtualMachine env template) w)
  /\ (forall ref, IsValidUUID env template = true ->
        FindByUuid env (Some dc) template = inr (Some ref) ->
        resolveTemplate env dc template w = (Return ref, w))
  /\ (IsValidUUID env template = true ->
      FindByUuid env (Some dc) template = inr None ->
      resolveTemplate env dc template w = try (finder_VirtualMachine env template) w)
  /\ (forall err, IsValidUUID env template = true ->
        FindByUuid env (Some dc) template = inl err ->
        resolveTemplate env dc template w
        = (Raise (Errorf "error querying virtual machine or template using FindByUuid: %s"
                    [Error err]), w)).
Proof.
  unfold resolveTemplate, tryWith, bind. repeat split.
  - intros ->. reflexivity.
  - intros ref -> ->. reflexivity.
  - intros -> ->. reflexivity.
  - intros err -> ->. reflexivity.
Qed.

Lemma resolveTemplate_by_uuid_then_by_name_witness :
  let uuid := "423e4d3a-aaaa-bbbb-cccc-0123456789ab" in
  let found := Scenario.mkRef "VirtualMachine" "vm-by-uuid" in
  let base := Scenario.env (inl (errorString "no task")) None in
  let env := Variant.with_FindByUuid (Variant.with_IsValidUUID base (fun _ => true))
               (fun _ _ => inr (Some found)) in
  resolveTemplate env "dc1" uuid (Scenario.world (Scenario.machine [] [] ""))
  = (Return found, Scenario.world (Scenario.machine [] [] "")).
Proof.
  intros uuid found base env.
  apply (proj1 (proj2 (resolveTemplate_by_uuid_then_by_name env "dc1" uuid
                         (Scenario.world (Scenario.machine [] [] ""))))).
  - reflexivity.
  - reflexivity.
Defined.

(** X18. The resource pool of the clone: without a configured name it is
    the root pool of the template's host; a configured pool that the
    finder knows is taken as it is, and no pool is created; a configured
    pool that the finder does not know ([NotFoundError]) is created under
    the root pool of the host, under the configured name, exactly once;
    when the root pool or the creation fails, that error is returned and
    no pool is recorded. *)
Theorem resolvePool_finds_or_creates env host name w :
  (name = "" -> resolvePool env host name w = try (Host_ResourcePool env host) w)
  /\ (forall pool, name <> "" -> ResourcePoolOrDefault env name = inr pool ->
        resolvePool env host name w = (Return pool, w))
  /\ (forall msg root pool, name <> "" ->
        ResourcePoolOrDefault env name = inl (NotFoundError msg) ->
        Host_ResourcePool env host = inr root ->
        ResourcePool_Create env root name = inr pool ->
        resolvePool env host name w = (Return pool, addPool w name))
  /\ (forall msg e, name <> "" ->
        ResourcePoolOrDefault env name = inl (NotFoundError msg) ->
        Host_ResourcePool env host = inl e ->
        resolvePool env host name w = (Raise e, w))
  /\ (forall msg root e, name <> "" ->
        ResourcePoolOrDefault env name = inl (NotFoundError msg) ->
        Host_ResourcePool env host = inr root ->
        ResourcePool_Create env root name = inl e ->
        resolvePool env host name w = (Raise e, w)).
Proof.
  unfold resolvePool. repeat split.
  - intros ->. reflexivity.
  - intros pool Hn ->. rewrite (bool_decide_eq_true_2 _ Hn). reflexivity.
  - intros msg root pool Hn -> Hr Hc. rewrite (bool_decide_eq_true_2 _ Hn).
    unfold bind, try, createResourcePool. rewrite Hr. simpl. rewrite Hc. reflexivity.
  - intros msg e Hn -> Hr. rewrite (bool_decide_eq_true_2 _ Hn).
    unfold bind, try. rewrite Hr. reflexivity.
  - intros msg root e Hn -> Hr Hc. rewrite (bool_decide_eq_true_2 _ Hn).
    unfold bind, try, createResourcePool. rewrite Hr. simpl. rewrite Hc. reflexivity.
Qed.

Lemma resolvePool_finds_or_creates_witness :
  let base := Scenario.env (inl (errorString "no task")) None in
  let env := Variant.with_ResourcePoolOrDefault base
               (fun n => inl (NotFoundError ("resource pool '" +:+ n +:+ "' not found"))) in
  let host := Scenario.mkRef "HostSystem" "host-9" in
  let w := Scenario.world (Scenario.machine [] [] "") in
  resolvePool env host "workers" w
  = (Return (Scenario.mkRef "ResourcePool" "resgroup-99"), addPool w "workers").
Proof.
  intros base env host w.
  refine (proj1 (proj2 (proj2 (resolvePool_finds_or_creates env host "workers" w)))
            _ (Scenario.mkRef "ResourcePool" "resgroup-1") _ _ eq_refl eq_refl eq_refl).
  discriminate.
Defined.

(** X19. A failure of the finder on a configured resource pool that is no
    [NotFoundError] is not returned: the branch that creates the pool is
    skipped, the error is dropped and the nil pool is dereferenced, so the
    call panics; nothing was created. *)
Theorem resolvePool_other_failure_panics env host name err w :
  name <> "" ->
  ResourcePoolOrDefault env name = inl err ->
  (forall msg, err <> NotFoundError msg) ->
  resolvePool env host name w = (Panic nilDeref, w).
Proof.
  intros Hn Hr Hne. unfold resolvePool. rewrite (bool_decide_eq_true_2 _ Hn), Hr.
  destruct err as [d | msg | obj | msg | f args]; try reflexivity.
  destruct (Hne msg eq_refl).
Qed.

Lemma resolvePool_other_failure_panics_witness :
  let base := Scenario.env (inl (errorString "no task")) None in
  let ambiguous := errorString "path 'workers' resolves to multiple resource pools" in
  let env := Variant.with_ResourcePoolOrDefault base (fun _ => inl ambiguous) in
  let w := Scenario.world (Scenario.machine [] [] "") in
  resolvePool env (Scenario.mkRef "HostSystem" "host-9") "workers" w = (Panic nilDeref, w).
Proof.
  intros base ambiguous env w.
  apply (resolvePool_other_failure_panics env (Scenario.mkRef "HostSystem" "host-9")
           "workers" ambiguous w).
  - discriminate.
  - reflexivity.
  - intros msg. discriminate.
Defined.

(** ** Guest customization *)

Lemma vAppProperties_all env cluster machine userData key all :
  Forall (fun p => types.Id p = "public-keys" -> GetSSHPublicKey env cluster = inr key) all ->
  forall acc,
    vAppProperties env cluster machine userData all acc
    = Return (acc ++ (vAppSpecOf userData key (clusterv1.Name machine) <$> all))%list.
Proof.
  induction 1 as [| p all Hp _ IH]; intros acc; simpl.
  - rewrite app_nil_r. reflexivity.
  - assert (Hstep :
      (if bool_decide (types.Id p = "public-keys")
       then GetSSHPublicKey env cluster
       else inr (if bool_decide (types.Id p = "user-data") then userData
                 else if bool_decide (types.DefaultValue p <> "")
                      then types.DefaultValue p else " "))
      = inr (if bool_decide (types.Id p = "public-keys") then key
             else if bool_decide (types.Id p = "user-data") then userData
                  else if bool_decide (types.DefaultValue p <> "")
                       then types.DefaultValue p else " ")).
    { destruct (bool_decide (types.Id p = "public-keys")) eqn:E; [| reflexivity].
      apply Hp. apply bool_decide_eq_true_1 in E. exact E. }
    rewrite Hstep, IH, <- app_assoc. reflexivity.
Qed.

(** X20. In the OVF mode every property of the template is sent back, in
    the order of the template and under its key and id: [hostname] with
    the name of the machine, [public-keys] with the public key of the
    cluster, [user-data] with the user data, any other one with its
    default value, or with one blank when the default is empty, so never
    with the empty string.  The public key is asked for only when the
    template has a [public-keys] property. *)
Theorem vAppProperties_carries_every_property env cluster machine userData key all :
  Forall (fun p => types.Id p = "public-keys" -> GetSSHPublicKey env cluster = inr key) all ->
  exists props,
    vAppProperties env cluster machine userData all [] = Return props
    /\ props = vAppSpecOf userData key (clusterv1.Name machine) <$> all
    /\ (fun s => types.Id (types.Info s)) <$> props = types.Id <$> all
    /\ (fun s => types.PropKey (types.Info s)) <$> props = types.PropKey <$> all
    /\ Forall (fun s =>
                 let id := types.Id (types.Info s) in
                 id <> "hostname" -> id <> "public-keys" -> id <> "user-data" ->
                 types.PropValue (types.Info s) <> "") props.
Proof.
  intros H. eexists. split; [apply (vAppProperties_all _ _ _ _ _ _ H) |].
  rewrite app_nil_l. split; [reflexivity |].
  split; [rewrite <- list_fmap_compose; reflexivity |].
  split; [rewrite <- list_fmap_compose; reflexivity |].
  apply Forall_fmap, Forall_forall. intros p _. simpl. intros H1 H2 H3.
  unfold vAppValue.
  rewrite (bool_decide_eq_false_2 _ H1), (bool_decide_eq_false_2 _ H2),
          (bool_decide_eq_false_2 _ H3).
  destruct (bool_decide (types.DefaultValue p <> "")) eqn:E.
  - apply bool_decide_eq_true_1 in E. exact E.
  - discriminate.
Qed.

Lemma vAppProperties_carries_every_property_witness :
  let base := Scenario.env (inl (errorString "no task")) None in
  let env := Variant.with_GetSSHPublicKey base (fun _ => inl (errorString "no key pair")) in
  let all := [ {| types.PropKey := 0; types.Id := "hostname";
                  types.DefaultValue := "ubuntuguest"; types.PropValue := "" |};
               {| types.PropKey := 1; types.Id := "password";
                  types.DefaultValue := ""; types.PropValue := "" |} ] in
  let m := Scenario.machine [] [] "" in
  exists props,
    vAppProperties env Scenario.cluster m "b64:#cloud-config" all [] = Return props
    /\ (fun s => types.PropValue (types.Info s)) <$> props = ["node-1"; " "].
Proof.
  intros base env all m.
  destruct (vAppProperties_carries_every_property env Scenario.cluster m
              "b64:#cloud-config" "" all) as (props & H1 & H2 & _).
  - repeat constructor; discriminate.
  - exists props. split; [exact H1 |]. rewrite H2. reflexivity.
Defined.

(** X21. When the template has a [public-keys] property and the public key
    of the cluster cannot be read, the OVF mode fails with that error and
    builds no property list. *)
Theorem vAppProperties_needs_the_public_key env cluster machine userData all e :
  (exists p, In p all /\ types.Id p = "public-keys") ->
  GetSSHPublicKey env cluster = inl e ->
  forall acc, vAppProperties env cluster machine userData all acc = Raise e.
Proof.
  intros (p & Hin & Hid) Hk. induction all as [| q all IH]; [destruct Hin |].
  intros acc. simpl.
  destruct (bool_decide (types.Id q = "public-keys")) eqn:E.
  - rewrite Hk. reflexivity.
  - destruct Hin as [-> | Hin].
    + apply bool_decide_eq_false_1 in E. destruct (E Hid).
    + apply IH. exact Hin.
Qed.

Lemma vAppProperties_needs_the_public_key_witness :
  let base := Scenario.env (inl (errorString "no task")) None in
  let env := Variant.with_GetSSHPublicKey base (fun _ => inl (errorString "no key pair")) in
  let all := [ {| types.PropKey := 0; types.Id := "hostname";
                  types.DefaultValue := ""; types.PropValue := "" |};
               {| types.PropKey := 1; types.Id := "public-keys";
                  types.DefaultValue := ""; types.PropValue := "" |} ] in
  vAppProperties env Scenario.cluster (Scenario.machine [] [] "") "b64:#cloud-config" all []
  = Raise (errorString "no key pair").
Proof.
  intros base env all.
  apply (vAppProperties_needs_the_public_key env Scenario.cluster
           (Scenario.machine [] [] "") "b64:#cloud-config" all (errorString "no key pair")).
  - eexists. split; [right; left; reflexivity | reflexivity].
  - reflexivity.
Defined.

(** X22. Guest customization takes exactly one of two forms and never
    both.  With the cloud-init datasource: the four [guestinfo] entries
    (meta data and user data, each with its base64 marker), and no vApp
    properties, whatever the template declares.  Otherwise: no extra
    configuration, and the vApp properties of the template; a template
    without a vApp configuration is an error.  The world is not touched. *)
Theorem guestCustomization_one_mode env cluster machine vmProps userData metaData w :
  guestCustomization env cluster machine true vmProps userData metaData w
  = (Return (guestinfo userData metaData, None), w)
  /\ (mo.VAppConfig vmProps = None ->
      guestCustomization env cluster machine false vmProps userData metaData w
      = (Raise (Errorf "this source VM lacks a vApp configuration and cannot have vApp properties set on it" []), w))
  /\ (forall all key,
        mo.VAppConfig vmProps = Some all ->
        Forall (fun p => types.Id p = "public-keys" -> GetSSHPublicKey env cluster = inr key)
               all ->
        guestCustomization env cluster machine false vmProps userData metaData w
        = (Return ([], Some (vAppSpecOf userData key (clusterv1.Name machine) <$> all)), w)).
Proof.
  split; [reflexivity |]. split.
  - intros H. unfold guestCustomization. rewrite H. reflexivity.
  - intros all key H Hk. unfold guestCustomization. rewrite H.
    unfold bind, lift. rewrite (vAppProperties_all _ _ _ _ _ _ Hk). reflexivity.
Qed.

Lemma guestCustomization_one_mode_witness :
  let env := Scenario.env (inl (errorString "no task")) None in
  let m := Scenario.machine [] [] "" in
  guestCustomization env Scenario.cluster m false Scenario.templateProps "ud" "md"
    (Scenario.world m)
  = (Return ([], Some [ {| types.ArrayUpdateOperation := types.ArrayUpdateOperationEdit;
                           types.Info := {| types.PropKey := 0; types.Id := "hostname";
                                            types.DefaultValue := "";
                                            types.PropValue := "node-1" |} |};
                        {| types.ArrayUpdateOperation := types.ArrayUpdateOperationEdit;
                           types.Info := {| types.PropKey := 1; types.Id := "user-data";
                                            types.DefaultValue := "";
                                            types.PropValue := "ud" |} |} ]),
     Scenario.world m).
Proof.
  intros env m.
  refine (proj2 (proj2 (guestCustomization_one_mode env Scenario.cluster m
                          Scenario.templateProps "ud" "md" (Scenario.world m)))
            _ "ssh-rsa AAAA" eq_refl _).
  repeat constructor.
Defined.

(** ** Disk edits and network failures *)

Lemma resizeDisks_editsOf dm disks :
  Forall (fun d => isVirtualDisk d = true) disks ->
  (forall d cap n, In d disks -> types.Class d = types.VirtualDisk cap ->
                   dm !! types.Label d = Some n -> cap <= vsphereutils.GiBToByte n) ->
  forall acc b,
    resizeDisks dm disks acc b
    = Return ((acc ++ editsOf dm disks)%list,
              b || existsb (fun d => bool_decide (is_Some (dm !! types.Label d))) disks).
Proof.
  intros Hall. induction Hall as [| d disks Hd _ IH]; intros Hg acc b.
  - simpl. rewrite app_nil_r, orb_false_r. reflexivity.
  - simpl. unfold isVirtualDisk in Hd.
    destruct (types.Class d) as [cap | |] eqn:Hc; try discriminate.
    assert (Hg' : forall d cap n, In d disks -> types.Class d = types.VirtualDisk cap ->
                    dm !! types.Label d = Some n -> cap <= vsphereutils.GiBToByte n).
    { intros d' c' n' H. apply Hg. right. exact H. }
    destruct (dm !! types.Label d) as [n |] eqn:Hm; simpl.
    + pose proof (Hg d cap n (or_introl eq_refl) Hc Hm) as Hle.
      destruct (Z.gtb_spec cap (vsphereutils.GiBToByte n)); [lia |].
      rewrite (IH Hg'), <- app_assoc, orb_true_r. reflexivity.
    + rewrite (IH Hg'). reflexivity.
Qed.

Lemma editsOf_length dm disks :
  length (editsOf dm disks)
  = length (List.filter (fun d => bool_decide (is_Some (dm !! types.Label d))) disks).
Proof.
  unfold editsOf. induction disks as [| d disks IH]; [reflexivity |]. simpl.
  destruct (dm !! types.Label d) as [n |]; simpl; f_equal; exact IH.
Qed.

(** X23. When the build goes through, the device changes come in a fixed
    order: first one edit entry for every disk of the template whose label
    has a directive, in the order of the template, each the disk itself
    (same key, same label) with the capacity that the directive asks for,
    a directive equal to the present capacity included; disks without a
    directive get no entry; then the removals of the adapters of the
    template; then one added adapter per configured network. *)
Theorem deviceChanges_edits_then_removals_then_additions env ms l w :
  noShrink ms l -> someDirectiveMatches ms l ->
  networksResolve env (vsphereconfigv1.Networks ms) ->
  Z.of_nat (length (vsphereconfigv1.Networks ms)) <= 2147483549 ->
  let dm := diskMap (vsphereconfigv1.Disks ms) in
  let edits := editsOf dm (SelectByType isVirtualDisk l) in
  exists adds,
    deviceChanges env ms l w
    = (Return (edits ++ (removalOf <$> SelectByType isVirtualEthernetCard l) ++ adds)%list, w)
    /\ Forall (fun e => isAdd e = true) adds
    /\ length adds = length (vsphereconfigv1.Networks ms)
    /\ (forall e, In e edits ->
          exists dev n, In dev l /\ isVirtualDisk dev = true
                        /\ dm !! types.Label dev = Some n
                        /\ e = editOf dev n
                        /\ types.Key (types.Device e) = types.Key dev
                        /\ types.Label (types.Device e) = types.Label dev
                        /\ types.Class (types.Device e)
                           = types.VirtualDisk (vsphereutils.GiBToByte n))
    /\ length edits
       = length (List.filter (fun d => bool_decide (is_Some (dm !! types.Label d)))
                   (SelectByType isVirtualDisk l)).
Proof.
  intros Hgrow Hmatch Hnet Hlen dm edits.
  assert (Hdisks : forall d cap n, In d (SelectByType isVirtualDisk l) ->
            types.Class d = types.VirtualDisk cap ->
            dm !! types.Label d = Some n -> cap <= vsphereutils.GiBToByte n).
  { intros d cap n Hd Hc Hm. apply SelectByType_In in Hd as [Hin _].
    apply (Hgrow d cap n Hin). split; assumption. }
  assert (Hedits : forall e, In e edits ->
            exists dev n, In dev l /\ isVirtualDisk dev = true
                          /\ dm !! types.Label dev = Some n /\ e = editOf dev n).
  { intros e He. unfold edits, editsOf in He.
    apply list_elem_of_In, list_elem_of_omap in He as (dev & Hdev & Hopt).
    apply list_elem_of_In, SelectByType_In in Hdev as [Hin Hd].
    destruct (dm !! types.Label dev) as [n |] eqn:Hm; [| discriminate].
    injection Hopt as <-. exists dev, n. auto. }
  unfold deviceChanges, bind, lift.
  rewrite (resizeDisks_editsOf dm _ (SelectByType_Forall _ _) Hdisks).
  rewrite orb_false_l, app_nil_l. fold edits.
  assert (Hflag : negb (existsb (fun d => bool_decide (is_Some (dm !! types.Label d)))
                          (SelectByType isVirtualDisk l))
                  && bool_decide (vsphereconfigv1.Disks ms <> []) = false).
  { destruct Hmatch as [Hnil | (dev & Hin & Hd & Hs)].
    - rewrite (bool_decide_eq_false_2 _ (fun H => H Hnil)). apply andb_false_r.
    - apply andb_false_intro1, negb_false_iff, existsb_exists.
      exists dev. split; [apply SelectByType_In; auto | apply bool_decide_eq_true_2, Hs]. }
  rewrite Hflag.
  rewrite (removeNics_all _ (SelectByType_Forall _ _)).
  destruct (addNics_all env _ Hnet (GoInt.int32 (-100))
              (edits ++ (removalOf <$> SelectByType isVirtualEthernetCard l))%list)
    as (adds & -> & Ha & Hk).
  { intros _. rewrite int32_small by lia. lia. }
  exists adds. rewrite <- app_assoc. split; [reflexivity |]. split; [exact Ha |].
  split.
  { rewrite <- (length_fmap deviceKey), Hk. unfold keysFrom.
    rewrite length_fmap, length_seq. reflexivity. }
  split.
  - intros e He. destruct (Hedits e He) as (dev & n & Hin & Hd & Hm & ->).
    exists dev, n. repeat split; assumption.
  - unfold edits. apply editsOf_length.
Qed.

Lemma deviceChanges_edits_then_removals_then_additions_witness :
  let disks := [ {| vsphereconfigv1.DiskSizeGB := 50; vsphereconfigv1.DiskLabel := "data" |} ] in
  let nets := [ {| vsphereconfigv1.NetworkName := "net-a" |} ] in
  let env := Scenario.env (inl (errorString "no task")) None in
  let w := Scenario.world (Scenario.machine disks nets "") in
  exists specs,
    deviceChanges env (Scenario.machineSpec disks nets) Scenario.templateDevices w
    = (Return specs, w)
    /\ types.Operation <$> specs
       = [ types.VirtualDeviceConfigSpecOperationEdit;
           types.VirtualDeviceConfigSpecOperationRemove;
           types.VirtualDeviceConfigSpecOperationRemove;
           types.VirtualDeviceConfigSpecOperationAdd ].
Proof.
  intros disks nets env w.
  destruct (deviceChanges_edits_then_removals_then_additions env
              (Scenario.machineSpec disks nets) Scenario.templateDevices w)
    as (adds & Hd & Ha & Hl & _).
  - intros dev cap n Hin [Hc Hm].
    simpl in Hin. destruct Hin as [<- | [<- | [<- | [<- | []]]]]; try discriminate Hc.
    injection Hc as <-. vm_compute in Hm. injection Hm as <-.
    vm_compute. discriminate.
  - right. exists {| types.Key := 2000; types.Label := "data";
                     types.Class := types.VirtualDisk (50 * Scenario.GiB) |}.
    split; [simpl; right; left; reflexivity |].
    split; [reflexivity |]. exists 50. vm_compute. reflexivity.
  - repeat constructor; eexists _, _; split; reflexivity.
  - simpl. lia.
  - eexists. split; [exact Hd |].
    destruct adds as [| a [| b adds]]; try discriminate Hl.
    apply Forall_cons in Ha as [Ha _]. unfold isAdd in Ha.
    rewrite !fmap_app. simpl.
    destruct (types.Operation a); try discriminate Ha.
    vm_compute. reflexivity.
Defined.

Lemma addNics_first_failure env pre n post err :
  Forall (fun m => exists backing, resolvesTo env m backing) pre ->
  failsWith env n err ->
  forall nicid acc, addNics env (pre ++ n :: post) nicid acc = Raise err.
Proof.
  intros Hpre Hn. induction Hpre as [| m pre (backing & netRef & Hm & Hb) _ IH];
    intros nicid acc; simpl.
  - destruct Hn as [-> | (netRef & -> & ->)]; reflexivity.
  - rewrite Hm, Hb. apply IH.
Qed.

(** X24. The first configured network that does not resolve, by its name
    or to its backing, ends the build with that error: with the inputs
    resolved and no directive in the way, [cloneVirtualMachine] returns
    it, whatever the networks after it, and submits no clone. *)
Theorem unresolved_network_aborts_the_build
    pv env cluster machine w inputs w1 pre n post err :
  cloneInputs env cluster machine w = (Return inputs, w1) ->
  noShrink (in_ms inputs) (mo.Device (in_vmProps inputs)) ->
  someDirectiveMatches (in_ms inputs) (mo.Device (in_vmProps inputs)) ->
  vsphereconfigv1.Networks (in_ms inputs) = (pre ++ n :: post)%list ->
  Forall (fun m => exists backing, resolvesTo env m backing) pre ->
  failsWith env n err ->
  cloneVirtualMachine pv env cluster machine w = (Raise err, w1)
  /\ clones w1 = clones w /\ store w1 = store w.
Proof.
  intros Hi Hgrow Hmatch Hnets Hpre Hn.
  destruct (quiet_cloneInputs env cluster machine _ _ _ Hi) as (Hs & _ & Hc).
  split; [| auto].
  apply (cloneVirtualMachine_stops pv env cluster machine w inputs w1 err Hi).
  set (ms := in_ms inputs) in *. set (l := mo.Device (in_vmProps inputs)) in *.
  unfold deviceChanges, bind, lift.
  rewrite (resizeDisks_editsOf (diskMap (vsphereconfigv1.Disks ms)) _
             (SelectByType_Forall _ _)).
  2:{ intros d cap k Hd Hcl Hm. apply SelectByType_In in Hd as [Hin _].
      apply (Hgrow d cap k Hin). split; assumption. }
  rewrite orb_false_l, app_nil_l.
  assert (Hflag : negb (existsb (fun d => bool_decide
                          (is_Some (diskMap (vsphereconfigv1.Disks ms) !! types.Label d)))
                          (SelectByType isVirtualDisk l))
                  && bool_decide (vsphereconfigv1.Disks ms <> []) = false).
  { destruct Hmatch as [Hnil | (dev & Hin & Hd & Hsome)].
    - rewrite (bool_decide_eq_false_2 _ (fun H => H Hnil)). apply andb_false_r.
    - apply andb_false_intro1, negb_false_iff, existsb_exists.
      exists dev. split; [apply SelectByType_In; auto | apply bool_decide_eq_true_2, Hsome]. }
  rewrite Hflag, (removeNics_all _ (SelectByType_Forall _ _)), Hnets.
  rewrite (addNics_first_failure env pre n post err Hpre Hn). reflexivity.
Qed.

Lemma unresolved_network_aborts_the_build_witness :
  let nets := [ {| vsphereconfigv1.NetworkName := "net-a" |};
                {| vsphereconfigv1.NetworkName := "typo" |};
                {| vsphereconfigv1.NetworkName := "net-c" |} ] in
  let missing := NotFoundError "network 'typo' not found" in
  let env := Variant.with_finder_Network (Scenario.env (inl (errorString "no task")) None)
               (fun name => if String.eqb name "typo" then inl missing else inr name) in
  let m := Scenario.machine [] nets "" in
  cloneVirtualMachine Scenario.pv env Scenario.cluster m (Scenario.world m)
  = (Raise missing, Scenario.world m)
  /\ clones (Scenario.world m) = clones (Scenario.world m)
  /\ store (Scenario.world m) = store (Scenario.world m).
Proof.
  intros nets missing env m.
  refine (unresolved_network_aborts_the_build Scenario.pv env Scenario.cluster m
            (Scenario.world m) (Scenario.inputs [] nets) (Scenario.world m)
            [ {| vsphereconfigv1.NetworkName := "net-a" |} ]
            {| vsphereconfigv1.NetworkName := "typo" |}
            [ {| vsphereconfigv1.NetworkName := "net-c" |} ] missing _ _ _ eq_refl _ _).
  - vm_compute. reflexivity.
  - intros dev cap k Hin [Hc Hm]. vm_compute in Hm. discriminate Hm.
  - left. reflexivity.
  - repeat constructor. exists "net-a", "net-a". split; reflexivity.
  - left. reflexivity.
Defined.

(** ** Sizing, and workers that have to wait *)

(** X25. Sizing of the clone: a CPU count or a memory size that is zero
    or negative is not sent (the field keeps the value 0, by which the
    template's value is inherited); a positive memory size is sent as it
    is; a positive CPU count is sent as an [int32], that is unchanged as
    long as it is below 2^31 and truncated, so different, from there on. *)
Theorem cloneSpec_sizing cluster machine inputs specs :
  let ms := in_ms inputs in
  let config := types.Config (cloneSpec cluster machine inputs specs) in
  (vsphereconfigv1.NumCPUs ms <= 0 -> types.NumCPUs config = 0)
  /\ (0 < vsphereconfigv1.NumCPUs ms < 2 ^ 31 ->
      types.NumCPUs config = vsphereconfigv1.NumCPUs ms)
  /\ (2 ^ 31 <= vsphereconfigv1.NumCPUs ms ->
      types.NumCPUs config <> vsphereconfigv1.NumCPUs ms)
  /\ - 2 ^ 31 <= types.NumCPUs config < 2 ^ 31
  /\ (vsphereconfigv1.MemoryMB ms <= 0 -> types.MemoryMB config = 0)
  /\ (0 < vsphereconfigv1.MemoryMB ms ->
      types.MemoryMB config = vsphereconfigv1.MemoryMB ms).
Proof.
  intros ms config. unfold config, cloneSpec. simpl. fold ms.
  repeat split.
  - intros H. destruct (Z.gtb_spec (vsphereconfigv1.NumCPUs ms) 0); [lia | reflexivity].
  - intros H. destruct (Z.gtb_spec (vsphereconfigv1.NumCPUs ms) 0); [| lia].
    apply int32_small. lia.
  - intros H. destruct (Z.gtb_spec (vsphereconfigv1.NumCPUs ms) 0); [| lia].
    pose proof (int32_range (vsphereconfigv1.NumCPUs ms)). lia.
  - destruct (Z.gtb_spec (vsphereconfigv1.NumCPUs ms) 0);
      [apply int32_range | lia].
  - destruct (Z.gtb_spec (vsphereconfigv1.NumCPUs ms) 0);
      [apply int32_range | lia].
  - intros H. destruct (Z.gtb_spec (vsphereconfigv1.MemoryMB ms) 0); [lia | reflexivity].
  - intros H. destruct (Z.gtb_spec (vsphereconfigv1.MemoryMB ms) 0); [reflexivity | lia].
Qed.

Lemma cloneSpec_sizing_witness :
  let config := types.Config (cloneSpec Scenario.cluster (Scenario.machine [] [] "")
                                (Scenario.inputs [] []) []) in
  types.NumCPUs config = 2 /\ types.MemoryMB config = 2048.
Proof.
  intros config.
  destruct (cloneSpec_sizing Scenario.cluster (Scenario.machine [] [] "")
              (Scenario.inputs [] []) []) as (_ & Hcpu & _ & _ & _ & Hmem).
  split.
  - apply Hcpu. simpl. lia.
  - apply Hmem. simpl. lia.
Defined.

Lemma getStartupScript_worker_waits env cluster machine c w :
  clusterv1.ProviderSpec machine = clusterv1.SpecOf c ->
  IsControlPlaneMachine env machine = false ->
  workerMustWait env cluster ->
  getStartupScript env cluster machine w
  = (Raise (RequeueAfterError (GetNextBackOff env)), w).
Proof.
  intros Hp Hw Hwait. unfold getStartupScript, vsphereutils.GetMachineProviderSpec.
  rewrite Hp. cbv zeta. rewrite Hw. unfold bind at 1 2, try.
  destruct Hwait as [-> | [-> | (-> & e & ->)]]; reflexivity.
Qed.

(** X26. A machine that is no control plane machine is not cloned while
    it cannot join: when the status of the cluster is absent or not ready,
    or when no kubeadm token can be had (whatever the error), and the
    template and its host resolve, [cloneVirtualMachine] returns the retry
    signal with the delay of the back-off, no hard error, and the world is
    as it was. *)
Theorem worker_waits_for_the_control_plane pv env cluster machine c dc src host hostProps w :
  clusterv1.ProviderSpec machine = clusterv1.SpecOf c ->
  let ms := vsphereconfigv1.MachineSpec c in
  DatacenterOrDefault env (vsphereconfigv1.Datacenter ms) = inr dc ->
  resolveTemplate env dc (vsphereconfigv1.VMTemplate ms) w = (Return src, w) ->
  HostSystem env src = inr host ->
  Host_Properties env host = inr hostProps ->
  IsControlPlaneMachine env machine = false ->
  workerMustWait env cluster ->
  cloneVirtualMachine pv env cluster machine w
  = (Raise (RequeueAfterError (GetNextBackOff env)), w)
  /\ isHardError (RequeueAfterError (GetNextBackOff env)) = false.
Proof.
  intros Hp ms Hdc Hsrc Hhost Hprops Hw Hwait. split; [| reflexivity].
  unfold cloneVirtualMachine. apply bind_Raise. unfold cloneInputs.
  assert (H1 : try (vsphereutils.GetMachineProviderSpec (clusterv1.ProviderSpec machine)) w
               = (Return c, w)).
  { unfold vsphereutils.GetMachineProviderSpec. rewrite Hp. reflexivity. }
  rewrite (bind_Return _ _ _ _ _ H1). cbv zeta.
  assert (H2 : try (DatacenterOrDefault env
                      (vsphereconfigv1.Datacenter (vsphereconfigv1.MachineSpec c))) w
               = (Return dc, w)).
  { fold ms. rewrite Hdc. reflexivity. }
  rewrite (bind_Return _ _ _ _ _ H2), (bind_Return _ _ _ _ _ Hsrc).
  assert (H3 : try (HostSystem env src) w = (Return host, w)).
  { rewrite Hhost. reflexivity. }
  rewrite (bind_Return _ _ _ _ _ H3).
  assert (H4 : tryWith (fun err => Errorf "error fetching host properties: %s" [Error err])
                 (PropertiesHost env host) w = (Return hostProps, w)).
  { unfold PropertiesHost. rewrite Hprops. reflexivity. }
  rewrite (bind_Return _ _ _ _ _ H4).
  apply bind_Raise. unfold getCloudInitUserData. apply bind_Raise.
  apply (getStartupScript_worker_waits env cluster machine c w Hp Hw Hwait).
Qed.

Lemma worker_waits_for_the_control_plane_witness :
  let starting :=
    {| clusterv1.ClusterName := "c1";
       clusterv1.ClusterProviderSpec := clusterv1.ClusterProviderSpec Scenario.cluster;
       clusterv1.ClusterAPIStatus := inr (Some false) |} in
  let env := Scenario.env (inl (errorString "no task")) None in
  let m := Scenario.machine [] [] "" in
  cloneVirtualMachine Scenario.pv env starting m (Scenario.world m)
  = (Raise (RequeueAfterError (10 * Second)), Scenario.world m)
  /\ isHardError (RequeueAfterError (10 * Second)) = false.
Proof.
  intros starting env m.
  refine (worker_waits_for_the_control_plane Scenario.pv env starting m _ "dc1"
            (Scenario.mkRef "VirtualMachine" "vm-template")
            (Scenario.mkRef "HostSystem" "host-9") {| mo.HostName := "esx-1" |}
            (Scenario.world m) eq_refl eq_refl eq_refl eq_refl eq_refl eq_refl _).
  right. left. reflexivity.
Defined.

(** ** Resource pools that the build creates *)

Lemma keepsPools_const {A} (o : outcome A) : keepsPools (fun w => (o, w)).
Proof. intros w r w' H. injection H as <- <-. reflexivity. Qed.

Lemma keepsPools_try {A} (r : error + A) : keepsPools (try r).
Proof. destruct r; apply keepsPools_const. Qed.

Lemma keepsPools_tryWith {A} f (r : error + A) : keepsPools (tryWith f r).
Proof. destruct r; apply keepsPools_const. Qed.

Lemma keepsPools_bind {A B} (m : M A) (k : A -> M B) :
  keepsPools m -> (forall a, keepsPools (k a)) -> keepsPools (bind m k).
Proof.
  intros Hm Hk w r w'. unfold bind.
  destruct (m w) as [[a|e|p] w1] eqn:E; intros H.
  - rewrite (Hk a _ _ _ H). exact (Hm _ _ _ E).
  - injection H as <- <-. exact (Hm _ _ _ E).
  - injection H as <- <-. exact (Hm _ _ _ E).
Qed.

Lemma mayCreate_keeps {A} name (m : M A) : keepsPools m -> mayCreate name m.
Proof. intros H w r w' E. left. exact (H _ _ _ E). Qed.

Lemma mayCreate_then_keeps {A B} name (m : M A) (k : A -> M B) :
  mayCreate name m -> (forall a, keepsPools (k a)) -> mayCreate name (bind m k).
Proof.
  intros Hm Hk w r w'. unfold bind.
  destruct (m w) as [[a|e|p] w1] eqn:E; intros H.
  - rewrite (Hk a _ _ _ H). exact (Hm _ _ _ E).
  - injection H as <- <-. exact (Hm _ _ _ E).
  - injection H as <- <-. exact (Hm _ _ _ E).
Qed.

Lemma keeps_then_mayCreate {A B} name (m : M A) (k : A -> M B) :
  keepsPools m -> (forall a, mayCreate name (k a)) -> mayCreate name (bind m k).
Proof.
  intros Hm Hk w r w'. unfold bind.
  destruct (m w) as [[a|e|p] w1] eqn:E; intros H.
  - rewrite <- (Hm _ _ _ E). exact (Hk a _ _ _ H).
  - injection H as <- <-. left. exact (Hm _ _ _ E).
  - injection H as <- <-. left. exact (Hm _ _ _ E).
Qed.

Ltac keepsPools_step :=
  match goal with
  | |- keepsPools (bind _ _) => apply keepsPools_bind; [| intros ?]
  | |- keepsPools (try _) => apply keepsPools_try
  | |- keepsPools (tryWith _ _) => apply keepsPools_tryWith
  | |- keepsPools (match ?x with _ => _ end) => destruct x
  | |- keepsPools (let _ := _ in _) => cbv zeta
  | |- keepsPools _ => first [assumption | apply keepsPools_const]
  end.

Lemma keepsPools_getStartupScript env cluster machine :
  keepsPools (getStartupScript env cluster machine).
Proof. unfold getStartupScript, HandleMachineError. repeat keepsPools_step. Qed.

Lemma keepsPools_getCloudProviderConfig env cluster machine path :
  keepsPools (getCloudProviderConfig env cluster machine path).
Proof. unfold getCloudProviderConfig. repeat keepsPools_step. Qed.

Lemma keepsPools_getCloudInitUserData env cluster machine path :
  keepsPools (getCloudInitUserData env cluster machine path).
Proof.
  unfold getCloudInitUserData.
  apply keepsPools_bind; [apply keepsPools_getStartupScript | intros ?].
  apply keepsPools_bind; [apply keepsPools_getCloudProviderConfig | intros ?].
  repeat keepsPools_step.
Qed.

Lemma keepsPools_getCloudInitMetaData env cluster machine :
  keepsPools (getCloudInitMetaData env cluster machine).
Proof. unfold getCloudInitMetaData. repeat keepsPools_step. Qed.

Lemma keepsPools_resolveTemplate env dc template : keepsPools (resolveTemplate env dc template).
Proof. unfold resolveTemplate. repeat keepsPools_step. Qed.

Lemma keepsPools_guestCustomization env cluster machine ci vmProps userData metaData :
  keepsPools (guestCustomization env cluster machine ci vmProps userData metaData).
Proof. unfold guestCustomization, lift. repeat keepsPools_step. Qed.

Lemma mayCreate_resolvePool env host name : mayCreate name (resolvePool env host name).
Proof.
  unfold resolvePool. destruct (bool_decide (name <> "")) eqn:Hn.
  - apply bool_decide_eq_true_1 in Hn.
    destruct (ResourcePoolOrDefault env name) as [[d | msg | obj | msg | f args] | pool];
      try (apply mayCreate_keeps, keepsPools_const).
    apply keeps_then_mayCreate; [apply keepsPools_try | intros root].
    intros w r w'. unfold createResourcePool.
    destruct (ResourcePool_Create env root name); intros H; injection H as <- <-.
    + left. reflexivity.
    + right. split; [exact Hn | reflexivity].
  - apply mayCreate_keeps, keepsPools_try.
Qed.

Lemma mayCreate_cloneInputs env cluster machine c :
  clusterv1.ProviderSpec machine = clusterv1.SpecOf c ->
  mayCreate (vsphereconfigv1.ResourcePool (vsphereconfigv1.MachineSpec c))
            (cloneInputs env cluster machine).
Proof.
  intros Hp w r w'. unfold cloneInputs.
  assert (H1 : try (vsphereutils.GetMachineProviderSpec (clusterv1.ProviderSpec machine)) w
               = (Return c, w)).
  { unfold vsphereutils.GetMachineProviderSpec. rewrite Hp. reflexivity. }
  rewrite (bind_Return _ _ _ _ _ H1). cbv zeta. revert w r w' H1.
  intros w r w' _. revert w r w'.
  match goal with
  | |- forall w r w', ?m w = (r, w') -> _ =>
      change (mayCreate (vsphereconfigv1.ResourcePool (vsphereconfigv1.MachineSpec c)) m)
  end.
  apply keeps_then_mayCreate; [apply keepsPools_try | intros dc].
  apply keeps_then_mayCreate; [apply keepsPools_resolveTemplate | intros src].
  apply keeps_then_mayCreate; [apply keepsPools_try | intros host].
  apply keeps_then_mayCreate; [apply keepsPools_tryWith | intros hostProps].
  apply keeps_then_mayCreate; [apply keepsPools_getCloudInitUserData | intros userData].
  apply keeps_then_mayCreate; [apply keepsPools_getCloudInitMetaData | intros metaData].
  apply keeps_then_mayCreate; [apply keepsPools_try | intros vmFolder].
  apply keeps_then_mayCreate; [apply keepsPools_try | intros ds].
  apply keeps_then_mayCreate; [apply keepsPools_tryWith | intros vmProps].
  apply mayCreate_then_keeps; [apply mayCreate_resolvePool | intros pool].
  apply keepsPools_bind; [apply keepsPools_guestCustomization | intros custom].
  apply keepsPools_const.
Qed.

Lemma keepsPools_submit pv env machine inputs spec :
  keepsPools (submit pv env machine inputs spec).
Proof.
  unfold submit.
  apply keepsPools_bind; [| intros _; apply keepsPools_bind; [| intros task]].
  - intros w r w'. unfold Eventf, ret. destruct (eventRecorder pv);
      intros H; injection H as <- <-; reflexivity.
  - intros w r w'. unfold submitClone. destruct (Clone env _ _ _ _);
      intros H; injection H as <- <-; reflexivity.
  - intros w r w' H. exact (proj2 (submitsNothing_setTaskRef pv env machine _ _ _ _ H)).
Qed.

(** X27. One call of [cloneVirtualMachine] creates at most one resource
    pool, and only the one that the machine configures by name; it does so
    before the devices are looked at, so that a build that a directive
    stops afterwards leaves the created pool behind. *)
Theorem build_creates_at_most_the_configured_pool pv env cluster machine c w r w' :
  clusterv1.ProviderSpec machine = clusterv1.SpecOf c ->
  cloneVirtualMachine pv env cluster machine w = (r, w') ->
  let name := vsphereconfigv1.ResourcePool (vsphereconfigv1.MachineSpec c) in
  pools w' = pools w \/ (name <> "" /\ pools w' = (pools w ++ [name])%list).
Proof.
  intros Hp H name. revert w r w' H.
  change (mayCreate name (cloneVirtualMachine pv env cluster machine)).
  unfold cloneVirtualMachine.
  apply mayCreate_then_keeps; [apply (mayCreate_cloneInputs env cluster machine c Hp) |].
  intros inputs. apply keepsPools_bind.
  - intros w r w' H. rewrite (deviceChanges_world _ _ _ _ _ _ H). reflexivity.
  - intros specs. apply keepsPools_submit.
Qed.

Lemma build_creates_at_most_the_configured_pool_witness :
  let disks := [ {| vsphereconfigv1.DiskSizeGB := 10; vsphereconfigv1.DiskLabel := "data" |} ] in
  let ms :=
    {| vsphereconfigv1.Datacenter := "dc1"; vsphereconfigv1.Datastore := "ds1";
       vsphereconfigv1.ResourcePool := "workers"; vsphereconfigv1.VMFolder := "";
       vsphereconfigv1.Networks := []; vsphereconfigv1.NumCPUs := 2;
       vsphereconfigv1.MemoryMB := 2048; vsphereconfigv1.VMTemplate := "ubuntu-template";
       vsphereconfigv1.Disks := disks; vsphereconfigv1.Preloaded := false;
       vsphereconfigv1.VsphereCloudInit := true; vsphereconfigv1.TrustedCerts := [];
       vsphereconfigv1.NTPServers := [] |} in
  let c := {| vsphereconfigv1.Kind := ""; vsphereconfigv1.APIVersion := "";
              vsphereconfigv1.MachineRef := ""; vsphereconfigv1.MachineSpec := ms |} in
  let m := clusterv1.withProviderSpec (Scenario.machine [] [] "") (clusterv1.SpecOf c) in
  let env := Variant.with_ResourcePoolOrDefault (Scenario.env (inl (errorString "no task")) None)
               (fun n => inl (NotFoundError n)) in
  let r := cloneVirtualMachine Scenario.pv env Scenario.cluster m (Scenario.world m) in
  fst r = Raise shrinkErr
  /\ clones (snd r) = []
  /\ pools (snd r) = ["workers"]
  /\ (pools (snd r) = [] \/ ("workers" <> "" /\ pools (snd r) = ["workers"])).
Proof.
  intros disks ms c m env r.
  split; [vm_compute; reflexivity |]. split; [vm_compute; reflexivity |].
  split; [vm_compute; reflexivity |].
  apply (build_creates_at_most_the_configured_pool Scenario.pv env Scenario.cluster m c
           (Scenario.world m) (fst r) (snd r)).
  - reflexivity.
  - reflexivity.
Defined.

(** * The directives in force, and the clone after the identity check *)

Lemma diskMap_fold_other l (m : gmap string Z) k :
  (forall d, In d l -> vsphereconfigv1.DiskLabel d <> k) ->
  foldl (fun m s => <[vsphereconfigv1.DiskLabel s := vsphereconfigv1.DiskSizeGB s]> m) m l !! k
  = m !! k.
Proof.
  revert m. induction l as [| d l IH]; intros m H; simpl; [reflexivity |].
  rewrite IH by (intros d' Hd'; apply H; right; exact Hd').
  apply lookup_insert_ne. apply H. left. reflexivity.
Qed.

(** The map holds, for a label, the size of the directive in force. *)
Lemma diskMap_inForce disks d :
  inForce disks d ->
  diskMap disks !! vsphereconfigv1.DiskLabel d = Some (vsphereconfigv1.DiskSizeGB d).
Proof.
  intros (pre & post & -> & Hpost). unfold diskMap. rewrite foldl_app. simpl.
  rewrite (diskMap_fold_other post _ _ Hpost). apply lookup_insert_eq.
Qed.

(** C7, as amended.  The template and the other inputs are resolved, and
    a directive that is in force (no later directive of the list carries
    its label) names a disk of the template and asks for a size below the
    capacity of that disk: [cloneVirtualMachine] returns the configuration
    error on the disk size, a hard error, and submits no clone; the stored
    machine is as it was. *)
Theorem C7_directive_in_force_rejected pv env cluster machine w inputs w1 d dev cap :
  cloneInputs env cluster machine w = (Return inputs, w1) ->
  inForce (vsphereconfigv1.Disks (in_ms inputs)) d ->
  In dev (mo.Device (in_vmProps inputs)) ->
  types.Class dev = types.VirtualDisk cap ->
  types.Label dev = vsphereconfigv1.DiskLabel d ->
  vsphereutils.GiBToByte (vsphereconfigv1.DiskSizeGB d) < cap ->
  cloneVirtualMachine pv env cluster machine w = (Raise shrinkErr, w1)
  /\ isHardError shrinkErr = true
  /\ clones w1 = clones w
  /\ store w1 = store w.
Proof.
  intros Hi Hforce Hin Hc Hl Hlt.
  apply (shrinking_entry_rejected pv env cluster machine w inputs w1 dev cap
           (vsphereconfigv1.DiskSizeGB d) Hi Hin); [| exact Hlt].
  split; [exact Hc |]. rewrite Hl. apply diskMap_inForce, Hforce.
Qed.

Lemma C7_directive_in_force_rejected_witness :
  let d := {| vsphereconfigv1.DiskSizeGB := 10; vsphereconfigv1.DiskLabel := "data" |} in
  let disks := [ {| vsphereconfigv1.DiskSizeGB := 100; vsphereconfigv1.DiskLabel := "data" |};
                 d ] in
  let m := Scenario.machine disks [] "" in
  let env := Scenario.env (inl (errorString "no task")) None in
  cloneVirtualMachine Scenario.pv env Scenario.cluster m (Scenario.world m)
  = (Raise shrinkErr, Scenario.world m)
  /\ isHardError shrinkErr = true
  /\ clones (Scenario.world m) = clones (Scenario.world m)
  /\ store (Scenario.world m) = store (Scenario.world m).
Proof.
  intros d disks m env.
  refine (C7_directive_in_force_rejected Scenario.pv env Scenario.cluster m (Scenario.world m)
            (Scenario.inputs disks []) (Scenario.world m) d
            {| types.Key := 2000; types.Label := "data";
               types.Class := types.VirtualDisk (50 * Scenario.GiB) |}
            (50 * Scenario.GiB) _ _ _ eq_refl eq_refl _).
  - vm_compute. reflexivity.
  - exists [ {| vsphereconfigv1.DiskSizeGB := 100; vsphereconfigv1.DiskLabel := "data" |} ], [].
    split; [reflexivity | intros d' []].
  - simpl. right. left. reflexivity.
  - vm_compute. reflexivity.
Defined.

(** C7, as stated, fails.  The directives are [data: 10 GiB] followed by
    [data: 100 GiB], the template has the disk [data] of 50 GiB.  The first
    directive names that disk and asks for less than its capacity, but the
    second one is in force: [cloneVirtualMachine] returns nil and submits
    one clone, with the disk edited to 100 GiB. *)
Lemma C7_superseded_directive_is_ignored :
  let d := {| vsphereconfigv1.DiskSizeGB := 10; vsphereconfigv1.DiskLabel := "data" |} in
  let disks := [ d;
                 {| vsphereconfigv1.DiskSizeGB := 100; vsphereconfigv1.DiskLabel := "data" |} ] in
  let disk := {| types.Key := 2000; types.Label := "data";
                 types.Class := types.VirtualDisk (50 * Scenario.GiB) |} in
  let m := Scenario.machine disks [] "" in
  let env := Scenario.env (inl (errorString "no task")) None in
  let r := cloneVirtualMachine Scenario.pv env Scenario.cluster m (Scenario.world m) in
  cloneInputs env Scenario.cluster m (Scenario.world m)
  = (Return (Scenario.inputs disks []), Scenario.world m)
  /\ In d (vsphereconfigv1.Disks (in_ms (Scenario.inputs disks [])))
  /\ In disk (mo.Device (in_vmProps (Scenario.inputs disks [])))
  /\ types.Label disk = vsphereconfigv1.DiskLabel d
  /\ vsphereutils.GiBToByte (vsphereconfigv1.DiskSizeGB d) < 50 * Scenario.GiB
  /\ fst r = Return tt
  /\ (List.filter isEdit <$> ((fun c => types.DeviceChange (types.Config (clone_spec c)))
                               <$> clones (snd r)))
     = [[editOf disk 100]]
  /\ ~ (exists e, fst r = Raise e /\ clones (snd r) = clones (Scenario.world m)).
Proof.
  intros d disks disk m env r.
  split; [vm_compute; reflexivity |].
  split; [left; reflexivity |].
  split; [simpl; right; left; reflexivity |].
  split; [reflexivity |].
  split; [vm_compute; reflexivity |].
  split; [vm_compute; reflexivity |].
  split; [vm_compute; reflexivity |].
  intros (e & He & _). vm_compute in He. discriminate He.
Qed.

(** The build of the clone request goes through for a machine without a
    Task Reference: one clone is submitted and its task is stored. *)
Lemma cloneVirtualMachine_goes_through pv env cluster machine w inputs w1 specs task :
  clusterV1alpha1 pv = true -> storeAccepts env -> untracked machine ->
  cloneGoesThrough env cluster machine w inputs w1 specs task ->
  types.Value task <> "" ->
  exists w',
    cloneVirtualMachine pv env cluster machine w = (Return tt, w')
    /\ clones w'
       = (clones w ++ [cloneCall machine inputs (cloneSpec cluster machine inputs specs) task])%list
    /\ vsphereutils.GetActiveTasks (store w') = types.Value task
    /\ clusterv1.ProviderSpec (store w') = clusterv1.ProviderSpec (store w).
Proof.
  intros Hc Ha Hun (Hi & Hd & Hcl) Hne.
  destruct (quiet_cloneInputs env cluster machine _ _ _ Hi) as (Hst & _ & Hclones).
  rewrite (cloneVirtualMachine_submits pv env cluster machine w inputs w1 specs Hi Hd).
  rewrite (submit_accepted_is_setTaskRef pv env machine inputs _ task w1 Hcl).
  rewrite (setTaskRef_untracked pv env machine (types.Value task) _ Hun Hne Hc Ha).
  eexists. split; [reflexivity |]. simpl.
  rewrite announced_clones, announced_store, Hclones, Hst. repeat split.
Qed.

(** C1. With a stored Task Reference [Create] is the call of the task
    tracker and nothing else.  Without one the identity resolver runs.
    When it finds no virtual machine, [Create] is the call of
    [cloneVirtualMachine].  When it finds one, the "Created" event and the
    Instance Reference are recorded, and [Create] goes on with the call of
    [cloneVirtualMachine] all the same.  In both cases, when the build of
    the clone request goes through, a new clone is submitted: the request
    is on the list of submitted clones and its task is the stored Task
    Reference, next to the Instance Reference that was just recorded. *)
Theorem C1_create_order pv env cluster machine w :
  sessionOk env ->
  (forall task, tracks machine task ->
     Create pv env (Some cluster) machine w = verifyAndUpdateTask pv env machine task w)
  /\ (vsphereutils.GetActiveTasks machine = "" ->
      forall found, FindByUuid env None (clusterv1.UID machine) = inr found ->
      (found = None ->
         Create pv env (Some cluster) machine w
         = cloneVirtualMachine pv env cluster machine w
         /\ (clusterV1alpha1 pv = true -> storeAccepts env -> untracked machine ->
             forall inputs w2 specs task,
               cloneGoesThrough env cluster machine w inputs w2 specs task ->
               types.Value task <> "" ->
               exists w',
                 Create pv env (Some cluster) machine w = (Return tt, w')
                 /\ clones w'
                    = (clones w ++
                       [cloneCall machine inputs (cloneSpec cluster machine inputs specs) task])%list
                 /\ vsphereutils.GetActiveTasks (store w') = types.Value task))
      /\ (forall vm c,
            found = Some vm -> types.Value vm <> "" ->
            wired pv -> storeAccepts env ->
            clusterv1.ProviderSpec machine = clusterv1.SpecOf c ->
            let w1 := recordedWorld machine c (types.Value vm) w in
            events w1 = (events w ++ [createdEvent machine (types.Value vm)])%list
            /\ instanceRef (store w1) = types.Value vm
            /\ clones w1 = clones w
            /\ Create pv env (Some cluster) machine w
               = cloneVirtualMachine pv env cluster machine w1
            /\ (untracked machine ->
                forall inputs w2 specs task,
                  cloneGoesThrough env cluster machine w1 inputs w2 specs task ->
                  types.Value task <> "" ->
                  exists w',
                    Create pv env (Some cluster) machine w = (Return tt, w')
                    /\ clones w'
                       = (clones w ++
                          [cloneCall machine inputs (cloneSpec cluster machine inputs specs)
                             task])%list
                    /\ vsphereutils.GetActiveTasks (store w') = types.Value task
                    /\ instanceRef (store w') = types.Value vm))).
Proof.
  intros Hs. split.
  - intros task Ht. apply Create_tracker; assumption.
  - intros Ht found Hf. split.
    + intros ->.
      assert (HC : Create pv env (Some cluster) machine w
                   = cloneVirtualMachine pv env cluster machine w).
      { apply (Create_untracked_unknown pv env cluster machine w Hs Ht Hf). }
      split; [exact HC |].
      intros Hc Ha Hun inputs w2 specs task Hgo Hne. rewrite HC.
      destruct (cloneVirtualMachine_goes_through pv env cluster machine w inputs w2 specs task
                  Hc Ha Hun Hgo Hne) as (w' & H1 & H2 & H3 & _).
      exists w'. auto.
    + intros vm c -> Hne [Hc He] Ha Hp w1.
      assert (HC : Create pv env (Some cluster) machine w
                   = cloneVirtualMachine pv env cluster machine w1).
      { rewrite (Create_resolver _ _ _ _ _ Hs Ht).
        unfold findVMByInstanceUUID, tryWith. unfold bind at 1 2. rewrite Hf. simpl.
        rewrite (bool_decide_eq_true_2 _ Hne).
        assert (Hev : Eventf pv EventTypeNormal "Created"
                        ("Created Machine " +:+ clusterv1.Name machine
                         +:+ "(" +:+ types.Value vm +:+ ")") w
                      = (Return tt, addEvent w (createdEvent machine (types.Value vm)))).
        { unfold Eventf. rewrite He. reflexivity. }
        unfold bind at 1 2. rewrite Hev. unfold bind at 1.
        rewrite (updateVMReference_writes pv env machine c (types.Value vm) _ Hp Hc Ha).
        reflexivity. }
      split; [reflexivity |]. split; [reflexivity |]. split; [reflexivity |].
      split; [exact HC |].
      intros Hun inputs w2 specs task Hgo Hnt. rewrite HC.
      destruct (cloneVirtualMachine_goes_through pv env cluster machine w1 inputs w2 specs task
                  Hc Ha Hun Hgo Hnt) as (w' & H1 & H2 & H3 & H4).
      exists w'. split; [exact H1 |]. split; [exact H2 |]. split; [exact H3 |].
      unfold instanceRef. rewrite H4. reflexivity.
Qed.

Lemma C1_create_order_witness :
  let vm := Scenario.mkRef "VirtualMachine" "vm-42" in
  let tracked := Scenario.machine [] [] "task-1" in
  let m := Scenario.machine [] [] "" in
  let env := Scenario.env (inl (errorString "no task")) (Some vm) in
  let specs := removalOf <$> SelectByType isVirtualEthernetCard Scenario.templateDevices in
  let call := cloneCall m (Scenario.inputs [] [])
                (cloneSpec Scenario.cluster m (Scenario.inputs [] []) specs)
                (Scenario.mkRef "Task" "task-77") in
  Create Scenario.pv env (Some Scenario.cluster) tracked (Scenario.world tracked)
  = verifyAndUpdateTask Scenario.pv env tracked "task-1" (Scenario.world tracked)
  /\ exists w',
       Create Scenario.pv env (Some Scenario.cluster) m (Scenario.world m) = (Return tt, w')
       /\ clones w' = [call]
       /\ vsphereutils.GetActiveTasks (store w') = "task-77"
       /\ instanceRef (store w') = "vm-42".
Proof.
  intros vm tracked m env specs call.
  assert (Hs : sessionOk env) by (split; reflexivity).
  split.
  - apply (proj1 (C1_create_order Scenario.pv env Scenario.cluster tracked
                    (Scenario.world tracked) Hs) "task-1").
    split; [reflexivity | discriminate].
  - destruct (C1_create_order Scenario.pv env Scenario.cluster m (Scenario.world m) Hs)
      as [_ H].
    destruct (H eq_refl (Some vm) eq_refl) as [_ Hfound].
    refine (proj2 (proj2 (proj2 (proj2 (Hfound vm _ eq_refl _ _ _ eq_refl))))
              _ (Scenario.inputs [] []) _ specs (Scenario.mkRef "Task" "task-77") _ _).
    + discriminate.
    + split; reflexivity.
    + split; intros; reflexivity.
    + split; [reflexivity | intros e; discriminate].
    + split; [vm_compute; reflexivity |]. split; [vm_compute; reflexivity | reflexivity].
    + discriminate.
Defined.

